(** * The upload benchmark: server instrumentation, client orchestration
      and the benchmark history store

    A shallow embedding of [server.py], [client.py] and [models.py], and
    of the two readers of the store, [visualize.py] and
    [plot_large_files.py].

    Conventions of the embedding.
    - Python [int] is [Z]; [bytes] is [list byte]; [str] is [string];
      [dict[str, V]] is [gmap string V]; [list[V]] is [list V].
    - Python [float] is an exact rational ([Q]): the quantities the
      programs compute are taken without rounding, and the non-finite
      values (nan, inf) are outside the model.
    - Effects (the monotonic clock, the resident-set-size sampling, context
      variables, standard output, the results file, the HTTP exchange) are
      threaded through a state-and-exception monad.  Time is a counter of
      instants; the world tells what the clock and the memory accounting
      read at each instant.
    - Text produced and consumed by the JSON codec is modelled at the level
      of the JSON tree. *)

From Stdlib Require Import ZArith QArith Qpower List String Ascii Strings.Byte Lia Lqa Bool Sorted.
From stdpp Require Import base option gmap strings list fin_maps pretty.

Local Open Scope string_scope.
#[local] Set Warnings "-register-all".

(* ===================================================================== *)
(** * The Python runtime: exceptions and the effect monad                  *)
(* ===================================================================== *)

Module Py.

(** The exception classes the programs can meet.  All of them derive from
    [Exception]; each carries the text [str(e)] shows. *)
Inductive exn : Type :=
| LookupError (msg : string)
| ValueError (msg : string)
| ZeroDivisionError (msg : string)
| ValidationError (msg : string)
| OSError (msg : string)
| TransportError (msg : string)
| TimeoutException (msg : string).

Definition exn_str (e : exn) : string :=
  match e with
  | LookupError m | ValueError m | ZeroDivisionError m | ValidationError m
  | OSError m | TransportError m | TimeoutException m => m
  end.

(** The outcome of running a piece of code: a value, a raised exception,
    or [Diverged] when the fuel given to a [while] loop ran out. *)
Inductive result (A : Type) : Type :=
| Ok (a : A)
| Raise (e : exn)
| Diverged.
Arguments Ok {A} a.
Arguments Raise {A} e.
Arguments Diverged {A}.

(** State-and-exception monad; the state survives a raise. *)
Definition M (S A : Type) : Type := S -> result A * S.

Definition ret {S A} (a : A) : M S A := fun s => (Ok a, s).

Definition bind {S A B} (m : M S A) (k : A -> M S B) : M S B :=
  fun s =>
    match m s with
    | (Ok a, s') => k a s'
    | (Raise e, s') => (Raise e, s')
    | (Diverged, s') => (Diverged, s')
    end.

Definition raise {S A} (e : exn) : M S A := fun s => (Raise e, s).

Definition gets {S A} (f : S -> A) : M S A := fun s => (Ok (f s), s).

Definition modify {S} (f : S -> S) : M S unit := fun s => (Ok tt, f s).

(** [try: body  except Exception as e: handler e]. *)
Definition try_except {S A} (body : M S A) (handler : exn -> M S A) : M S A :=
  fun s =>
    match body s with
    | (Raise e, s') => handler e s'
    | r => r
    end.

(** Lifting of a pure fallible step. *)
Definition lift {S A} (r : result A) : M S A := fun s => (r, s).

(** [a / b] on floats. *)
Definition truediv (a b : Q) : result Q :=
  if Qeq_bool b 0 then Raise (ZeroDivisionError "float division by zero")
  else Ok (a / b)%Q.

(** [len(x)] on a byte string. *)
Definition len (b : list byte) : Z := Z.of_nat (length b).

End Py.

Import Py.

#[global] Instance M_ret {S} : MRet (M S) := fun A => @Py.ret S A.
#[global] Instance M_bind {S} : MBind (M S) := fun A B k m => Py.bind m k.

(* ===================================================================== *)
(** * Text helpers                                                          *)
(* ===================================================================== *)

Module Text.

(** [needle in hay] on strings. *)
Fixpoint contains (needle hay : string) : bool :=
  String.prefix needle hay ||
  match hay with
  | EmptyString => false
  | String _ hay' => contains needle hay'
  end.

Fixpoint drop_chars (n : nat) (s : string) : string :=
  match n, s with
  | O, _ => s
  | S _, EmptyString => EmptyString
  | S n', String _ s' => drop_chars n' s'
  end.

(** [s.replace(old, new)] for a non-empty [old]: occurrences are replaced
    from the left and do not overlap.  [fuel] bounds the characters looked
    at; [String.length s] is always enough. *)
Fixpoint replace_go (fuel : nat) (old new s : string) : string :=
  match fuel with
  | O => s
  | S fuel' =>
      match s with
      | EmptyString => EmptyString
      | String c s' =>
          if String.prefix old s
          then new +:+ replace_go fuel' old new (drop_chars (String.length old) s)
          else String c (replace_go fuel' old new s')
      end
  end.

Definition replace (old new s : string) : string :=
  replace_go (String.length s) old new s.

(** [s * n]. *)
Fixpoint repeat (s : string) (n : nat) : string :=
  match n with
  | O => EmptyString
  | S n' => s +:+ repeat s n'
  end.

(** The last component of a path ([Path.name]). *)
Fixpoint basename_go (cur s : string) : string :=
  match s with
  | EmptyString => cur
  | String c s' =>
      if Ascii.eqb c "/"%char then basename_go EmptyString s'
      else basename_go (cur +:+ String c EmptyString) s'
  end.

Definition basename (path : string) : string := basename_go EmptyString path.

(** One decimal digit. *)
Definition digit_char (d : N) : ascii := ascii_of_N (48 + d).

Definition digit_of (c : ascii) : option N :=
  let n := N_of_ascii c in
  if (48 <=? n)%N && (n <=? 57)%N then Some (n - 48)%N else None.

(** [w] decimal digits of [n], most significant first, zero padded. *)
Fixpoint fixed_digits (w : nat) (n : N) : string :=
  match w with
  | O => EmptyString
  | S w' => String (digit_char (n / 10 ^ N.of_nat w')) (fixed_digits w' (n mod 10 ^ N.of_nat w'))
  end.

(** Reads exactly [w] decimal digits. *)
Fixpoint read_digits (w : nat) (acc : N) (s : string) : option (N * string) :=
  match w with
  | O => Some (acc, s)
  | S w' =>
      match s with
      | EmptyString => None
      | String c s' =>
          match digit_of c with
          | Some d => read_digits w' (acc * 10 + d) s'
          | None => None
          end
      end
  end.

(** Reads one expected character. *)
Definition read_char (c : ascii) (s : string) : option string :=
  match s with
  | String c' s' => if Ascii.eqb c c' then Some s' else None
  | EmptyString => None
  end.

End Text.

(* ===================================================================== *)
(** * Decimal text of floats: [str(x)] and [float(s)]                       *)
(* ===================================================================== *)

Module PyFloat.

(** The digits after the decimal point of [r / d] (with [0 <= r < d]),
    at least one, stopping when the expansion ends or after [fuel]
    places. *)
Fixpoint frac_digits (fuel : nat) (r d : Z) : string :=
  match fuel with
  | O => EmptyString
  | S fuel' =>
      let q := (r * 10 / d)%Z in
      let r' := (r * 10 mod d)%Z in
      String (Text.digit_char (Z.to_N q))
        (if (r' =? 0)%Z then EmptyString else frac_digits fuel' r' d)
  end.

(** Longest fraction written in full: every binary64 value needs fewer
    places. *)
Definition MAX_PLACES : nat := 1080.

(** [str(x)]: sign, integer part, a point, the fraction.  (The exponent
    form Python chooses for very large and very small values is not
    modelled.) *)
Definition str (x : Q) : string :=
  let n := Qnum (Qred x) in
  let d := Zpos (Qden (Qred x)) in
  (if (n <? 0)%Z then "-" else "") +:+
  pretty (Z.abs n / d)%Z +:+ "." +:+
  frac_digits MAX_PLACES (Z.abs n mod d)%Z d.

Definition is_space (c : ascii) : bool :=
  let n := N_of_ascii c in ((n =? 32) || ((9 <=? n) && (n <=? 13)))%N.

Fixpoint lstrip (s : string) : string :=
  match s with
  | String c s' => if is_space c then lstrip s' else s
  | EmptyString => EmptyString
  end.

(** Drops trailing white space and tells whether anything else follows. *)
Fixpoint only_space (s : string) : bool :=
  match s with
  | String c s' => is_space c && only_space s'
  | EmptyString => true
  end.

(** Digits after a first one; a single underscore may separate two
    digits.  Returns the value, the number of digits read and the rest. *)
Fixpoint digitpart_go (s : string) (acc : N) (cnt : nat) : N * nat * string :=
  match s with
  | String c s' =>
      match Text.digit_of c with
      | Some d => digitpart_go s' (acc * 10 + d) (S cnt)
      | None =>
          if Ascii.eqb c "_"%char then
            match s' with
            | String c2 s'' =>
                match Text.digit_of c2 with
                | Some d => digitpart_go s'' (acc * 10 + d) (S cnt)
                | None => (acc, cnt, s)
                end
            | EmptyString => (acc, cnt, s)
            end
          else (acc, cnt, s)
      end
  | EmptyString => (acc, cnt, s)
  end.

Definition digitpart (s : string) : option (N * nat * string) :=
  match s with
  | String c s' =>
      match Text.digit_of c with
      | Some d => Some (digitpart_go s' d 1)
      | None => None
      end
  | EmptyString => None
  end.

Definition read_sign (s : string) : bool * string :=
  match s with
  | String "-" s' => (true, s')
  | String "+" s' => (false, s')
  | _ => (false, s)
  end.

(** The optional exponent part. *)
Definition read_exponent (s : string) : option (Z * string) :=
  match s with
  | String c s' =>
      if Ascii.eqb c "e"%char || Ascii.eqb c "E"%char then
        let '(neg, s1) := read_sign s' in
        '(e, _, s2) ← digitpart s1;
        Some (if neg then (- Z.of_N e)%Z else Z.of_N e, s2)
      else Some (0%Z, s)
  | EmptyString => Some (0%Z, s)
  end.

(** [float(s)] on decimal text: [None] stands for the [ValueError] of
    Python.  (The words inf, infinity and nan, which denote no rational,
    are not modelled.) *)
Definition of_str (s : string) : option Q :=
  let '(neg, s) := read_sign (lstrip s) in
  '(ip, fp, places, s) ←
    match digitpart s with
    | Some (ip, _, String "." s1) =>
        match digitpart s1 with
        | Some (fp, places, s2) => Some (ip, fp, places, s2)
        | None => Some (ip, 0%N, O, s1)
        end
    | Some (ip, _, s1) => Some (ip, 0%N, O, s1)
    | None =>
        match s with
        | String "." s1 => '(fp, places, s2) ← digitpart s1; Some (0%N, fp, places, s2)
        | _ => None
        end
    end;
  '(e, s) ← read_exponent s;
  if only_space s then
    let mant := (Z.of_N ip * 10 ^ Z.of_nat places + Z.of_N fp)%Z in
    let v := (inject_Z mant * Qpower 10 (e - Z.of_nat places))%Q in
    Some (Qred (if neg then - v else v)%Q)
  else None.

(** Rounding to the nearest integer, ties to even. *)
Definition round_half_even (x : Q) : Z :=
  let n := Qnum x in
  let d := Zpos (Qden x) in
  let q := (n / d)%Z in
  let r := (n mod d)%Z in
  match (2 * r ?= d)%Z with
  | Lt => q
  | Gt => (q + 1)%Z
  | Eq => if Z.even q then q else (q + 1)%Z
  end.

(** [f"{x:.Nf}"]: [places] digits after the point. *)
Definition format_f (places : nat) (x : Q) : string :=
  let scaled := round_half_even (x * inject_Z (10 ^ Z.of_nat places))%Q in
  let a := Z.abs scaled in
  let p := (10 ^ Z.of_nat places)%Z in
  (if (scaled <? 0)%Z then "-" else "") +:+
  pretty (a / p)%Z +:+
  (match places with
   | O => ""
   | _ => "." +:+ Text.fixed_digits places (Z.to_N (a mod p))
   end).

(** [float(n)] for an integer. *)
Definition of_int (n : Z) : Q := inject_Z n.

(** A text that starts with a decimal digit. *)
Definition digit_headed (s : string) : Prop :=
  exists d rest, (d < 10)%N /\ s = String (pretty_N_char d) rest.

(** A value whose decimal expansion ends within [MAX_PLACES] places, as
    that of every binary64 value does. *)
Definition decimal (x : Q) : Prop :=
  (Zpos (Qden (Qred x)) | 10 ^ Z.of_nat MAX_PLACES)%Z.

(** [f"{x:.Nf}"] for a value of any sign: the digits are those of the
    magnitude, rounded to [places] places, and a negative value keeps its
    sign even when every digit shown is zero ([-0.00]).  (The negative
    zero of binary64 is not told apart from zero.) *)
Definition format_fixed (places : nat) (x : Q) : string :=
  let p := (10 ^ Z.of_nat places)%Z in
  let a := round_half_even ((Z.abs (Qnum x) # Qden x) * inject_Z p)%Q in
  (if (Qnum x <? 0)%Z then "-" else "") +:+
  pretty (a / p)%Z +:+
  (match places with
   | O => ""
   | _ => "." +:+ Text.fixed_digits places (Z.to_N (a mod p))
   end).

End PyFloat.

(* ===================================================================== *)
(** * JSON trees                                                            *)
(* ===================================================================== *)

Module Json.

Inductive json : Type :=
| JNull
| JBool (b : bool)
| JInt (n : Z)
| JFloat (x : Q)
| JStr (s : string)
| JArr (items : list json)
| JObj (members : list (string * json)).

(** Member lookup; of two members with one name the later one counts. *)
Definition member (k : string) (ms : list (string * json)) : option json :=
  fold_left (fun acc '(k', v) => if String.eqb k k' then Some v else acc) ms None.

Definition as_int (j : json) : option Z :=
  match j with JInt n => Some n | _ => None end.

(** A float field takes a JSON number with or without a fraction. *)
Definition as_float (j : json) : option Q :=
  match j with
  | JFloat x => Some x
  | JInt n => Some (inject_Z n)
  | _ => None
  end.

Definition as_str (j : json) : option string :=
  match j with JStr s => Some s | _ => None end.

Definition as_list {A} (f : json -> option A) (j : json) : option (list A) :=
  match j with JArr items => mapM f items | _ => None end.

(** A [dict[str, V]] is written as an object, one member per key, and
    read back with later members overriding earlier ones. *)
Definition of_dict {A} (f : A -> json) (m : gmap string A) : json :=
  JObj ((fun kv => (kv.1, f kv.2)) <$> map_to_list m).

Definition as_dict {A} (f : json -> option A) (j : json) : option (gmap string A) :=
  match j with
  | JObj ms =>
      kvs ← mapM (fun kv => v ← f kv.2; Some (kv.1, v)) ms;
      Some (fold_left (fun acc kv => <[kv.1 := kv.2]> acc) kvs ∅)
  | _ => None
  end.

End Json.

Import Json.

(* ===================================================================== *)
(** * Naive datetimes and their ISO-8601 text                               *)
(* ===================================================================== *)

Module Datetime.

Record datetime : Type := mk {
  year : N; month : N; day : N;
  hour : N; minute : N; second : N; microsecond : N
}.

Definition is_leap (y : N) : bool :=
  ((y mod 4 =? 0) && negb (y mod 100 =? 0) || (y mod 400 =? 0))%N.

Definition days_in_month (y m : N) : N :=
  if (m =? 2)%N then (if is_leap y then 29 else 28)%N
  else if ((m =? 4) || (m =? 6) || (m =? 9) || (m =? 11))%N then 30%N
  else 31%N.

(** The range checks of the [datetime] constructor. *)
Definition valid (d : datetime) : bool :=
  ((1 <=? year d) && (year d <=? 9999) &&
   (1 <=? month d) && (month d <=? 12) &&
   (1 <=? day d) && (day d <=? days_in_month (year d) (month d)) &&
   (hour d <? 24) && (minute d <? 60) && (second d <? 60) &&
   (microsecond d <? 1000000))%N.

(** [YYYY-MM-DDTHH:MM:SS], followed by [.ffffff] unless the microseconds
    are zero. *)
Definition isoformat (d : datetime) : string :=
  Text.fixed_digits 4 (year d) +:+ "-" +:+
  Text.fixed_digits 2 (month d) +:+ "-" +:+
  Text.fixed_digits 2 (day d) +:+ "T" +:+
  Text.fixed_digits 2 (hour d) +:+ ":" +:+
  Text.fixed_digits 2 (minute d) +:+ ":" +:+
  Text.fixed_digits 2 (second d) +:+
  (if (microsecond d =? 0)%N then ""
   else "." +:+ Text.fixed_digits 6 (microsecond d)).

Definition fromisoformat (s : string) : option datetime :=
  '(y, s) ← Text.read_digits 4 0 s;
  s ← Text.read_char "-" s;
  '(mo, s) ← Text.read_digits 2 0 s;
  s ← Text.read_char "-" s;
  '(d, s) ← Text.read_digits 2 0 s;
  s ← Text.read_char "T" s;
  '(h, s) ← Text.read_digits 2 0 s;
  s ← Text.read_char ":" s;
  '(mi, s) ← Text.read_digits 2 0 s;
  s ← Text.read_char ":" s;
  '(se, s) ← Text.read_digits 2 0 s;
  '(us, s) ← match s with
             | EmptyString => Some (0%N, s)
             | _ => s ← Text.read_char "." s; Text.read_digits 6 0 s
             end;
  match s with
  | EmptyString =>
      let dt := mk y mo d h mi se us in
      if valid dt then Some dt else None
  | _ => None
  end.

(** [d.strftime('%Y-%m-%d %H:%M:%S')]. *)
Definition strftime (d : datetime) : string :=
  Text.fixed_digits 4 (year d) +:+ "-" +:+
  Text.fixed_digits 2 (month d) +:+ "-" +:+
  Text.fixed_digits 2 (day d) +:+ " " +:+
  Text.fixed_digits 2 (hour d) +:+ ":" +:+
  Text.fixed_digits 2 (minute d) +:+ ":" +:+
  Text.fixed_digits 2 (second d).

(** [a == b] on naive datetimes compares them field by field. *)
#[global] Instance datetime_eq_dec : EqDecision datetime.
Proof. solve_decision. Defined.

End Datetime.

(* ===================================================================== *)
(** * models.py                                                             *)
(* ===================================================================== *)

Module ServerResponse.

(** Response from server endpoints. *)
Record t : Type := mk {
  endpoint : string;
  file_size_bytes : Z;
  file_size_mb : Q;
  handler_duration_seconds : Q;
  memory_start_mb : Q;
  memory_end_mb : Q;
  memory_delta_mb : Q
}.

Definition model_dump_json (r : t) : json :=
  JObj [ ("endpoint", JStr (endpoint r));
         ("file_size_bytes", JInt (file_size_bytes r));
         ("file_size_mb", JFloat (file_size_mb r));
         ("handler_duration_seconds", JFloat (handler_duration_seconds r));
         ("memory_start_mb", JFloat (memory_start_mb r));
         ("memory_end_mb", JFloat (memory_end_mb r));
         ("memory_delta_mb", JFloat (memory_delta_mb r)) ].

Definition model_validate_json (j : json) : option t :=
  match j with
  | JObj ms =>
      a ← member "endpoint" ms ≫= as_str;
      b ← member "file_size_bytes" ms ≫= as_int;
      c ← member "file_size_mb" ms ≫= as_float;
      d ← member "handler_duration_seconds" ms ≫= as_float;
      e ← member "memory_start_mb" ms ≫= as_float;
      f ← member "memory_end_mb" ms ≫= as_float;
      g ← member "memory_delta_mb" ms ≫= as_float;
      Some (mk a b c d e f g)
  | _ => None
  end.

End ServerResponse.

Module EndpointMetrics.

(** Metrics for a single endpoint test. *)
Record t : Type := mk {
  endpoint : string;
  file_size_bytes : Z;
  file_size_mb : Q;
  handler_duration_seconds : Q;
  total_duration_seconds : Q;
  total_throughput_mbps : Q;
  total_memory_delta_mb : Q;
  memory_start_mb : Q;
  memory_end_mb : Q;
  memory_delta_mb : Q;
  client_duration : Q
}.

Definition model_dump_json (r : t) : json :=
  JObj [ ("endpoint", JStr (endpoint r));
         ("file_size_bytes", JInt (file_size_bytes r));
         ("file_size_mb", JFloat (file_size_mb r));
         ("handler_duration_seconds", JFloat (handler_duration_seconds r));
         ("total_duration_seconds", JFloat (total_duration_seconds r));
         ("total_throughput_mbps", JFloat (total_throughput_mbps r));
         ("total_memory_delta_mb", JFloat (total_memory_delta_mb r));
         ("memory_start_mb", JFloat (memory_start_mb r));
         ("memory_end_mb", JFloat (memory_end_mb r));
         ("memory_delta_mb", JFloat (memory_delta_mb r));
         ("client_duration", JFloat (client_duration r)) ].

Definition model_validate_json (j : json) : option t :=
  match j with
  | JObj ms =>
      a ← member "endpoint" ms ≫= as_str;
      b ← member "file_size_bytes" ms ≫= as_int;
      c ← member "file_size_mb" ms ≫= as_float;
      d ← member "handler_duration_seconds" ms ≫= as_float;
      e ← member "total_duration_seconds" ms ≫= as_float;
      f ← member "total_throughput_mbps" ms ≫= as_float;
      g ← member "total_memory_delta_mb" ms ≫= as_float;
      h ← member "memory_start_mb" ms ≫= as_float;
      i ← member "memory_end_mb" ms ≫= as_float;
      k ← member "memory_delta_mb" ms ≫= as_float;
      l ← member "client_duration" ms ≫= as_float;
      Some (mk a b c d e f g h i k l)
  | _ => None
  end.

End EndpointMetrics.

Module FileSizeTest.

(** All endpoint tests for a specific file size. *)
Record t : Type := mk {
  file_size_label : string;
  file_size_bytes : Z;
  results : gmap string EndpointMetrics.t
}.

Definition model_dump_json (r : t) : json :=
  JObj [ ("file_size_label", JStr (file_size_label r));
         ("file_size_bytes", JInt (file_size_bytes r));
         ("results", of_dict EndpointMetrics.model_dump_json (results r)) ].

Definition model_validate_json (j : json) : option t :=
  match j with
  | JObj ms =>
      a ← member "file_size_label" ms ≫= as_str;
      b ← member "file_size_bytes" ms ≫= as_int;
      c ← member "results" ms ≫= as_dict EndpointMetrics.model_validate_json;
      Some (mk a b c)
  | _ => None
  end.

End FileSizeTest.

Module BenchmarkRun.

(** Complete benchmark run with all file sizes and endpoints. *)
Record t : Type := mk {
  timestamp : Datetime.datetime;
  test_files : list FileSizeTest.t;
  endpoints : list string;
  summary : gmap string (gmap string Q)
}.

(** A run whose timestamp is a datetime Python can hold. *)
Definition valid (r : t) : Prop := Datetime.valid (timestamp r) = true.

(** The constructor call of the orchestrator: [summary] takes its
    [default_factory], the empty dict. *)
Definition make (timestamp : Datetime.datetime) (test_files : list FileSizeTest.t)
    (endpoints : list string) : t :=
  mk timestamp test_files endpoints ∅.

Definition model_dump_json (r : t) : json :=
  JObj [ ("timestamp", JStr (Datetime.isoformat (timestamp r)));
         ("test_files", JArr (FileSizeTest.model_dump_json <$> test_files r));
         ("endpoints", JArr (JStr <$> endpoints r));
         ("summary", of_dict (of_dict JFloat) (summary r)) ].

Definition model_validate_json (j : json) : option t :=
  match j with
  | JObj ms =>
      a ← (member "timestamp" ms ≫= as_str) ≫= Datetime.fromisoformat;
      b ← member "test_files" ms ≫= as_list FileSizeTest.model_validate_json;
      c ← member "endpoints" ms ≫= as_list as_str;
      d ← from_option (as_dict (as_dict as_float)) (Some ∅) (member "summary" ms);
      Some (mk a b c d)
  | _ => None
  end.

End BenchmarkRun.

Module BenchmarkHistory.

(** Collection of benchmark runs over time. *)
Record t : Type := mk { runs : list BenchmarkRun.t }.

(** [self.runs.append(run)]: the history after the call. *)
Definition add_run (self : t) (run : BenchmarkRun.t) : t :=
  mk (runs self ++ [run]).

(** [self.runs[-1] if self.runs else None]. *)
Definition get_latest (self : t) : option BenchmarkRun.t := last (runs self).

(** Get a specific benchmark run by timestamp: the first run, in the
    order of the list, whose timestamp equals the one asked for. *)
Definition get_run_by_timestamp (self : t) (timestamp : Datetime.datetime)
    : option BenchmarkRun.t :=
  find (fun run => bool_decide (BenchmarkRun.timestamp run = timestamp)) (runs self).

Definition model_dump_json (h : t) : json :=
  JObj [ ("runs", JArr (BenchmarkRun.model_dump_json <$> runs h)) ].

Definition model_validate_json (j : json) : option t :=
  match j with
  | JObj ms =>
      a ← member "runs" ms ≫= as_list BenchmarkRun.model_validate_json;
      Some (mk a)
  | _ => None
  end.

End BenchmarkHistory.


(* ===================================================================== *)
(** * HTTP messages                                                         *)
(* ===================================================================== *)

Module Http.

(** A response: the status, the body (a JSON document) and the header
    fields. *)
Record Response : Type := {
  status_code : Z;
  content : json;
  headers : gmap string string
}.

(** A file object opened for reading: the path it was opened on and the
    read position. *)
Record FileObject : Type := {
  name : string;
  position : nat
}.

(** What the client hands to [post]: [content=] raw bytes, or [files=]
    a mapping from a field name to (file name, file object, content
    type). *)
Inductive Payload : Type :=
| Content (data : list byte)
| Files (fields : list (string * (string * FileObject * string))).

Record Request : Type := {
  url : string;
  payload : Payload
}.

(** How an exchange ends for the client: with a response, or with an
    exception of the transport (connection failure, timeout). *)
Inductive Outcome : Type :=
| Responded (r : Response)
| Failed (e : exn).

End Http.

Import Http.

(* ===================================================================== *)
(** * server.py                                                             *)
(* ===================================================================== *)

Module Server.

(** Chunk size for file reading (0.25 MB). *)
Definition CHUNK_SIZE : Z := 256 * 1024.

(** What the process observes of its environment: the reading of the
    monotonic clock and the resident set size, in bytes, at each
    instant. *)
Record World : Type := {
  clock : nat -> Q;
  rss : nat -> Z
}.

(** The state of the server while it serves one request: the current
    instant and the two context variables.  Two ghost fields, which no
    code reads, record the instants at which the framework entered the
    route handler and at which the handler returned. *)
Record State : Type := {
  now : nat;
  request_start_time : option Q;
  request_start_memory : option Q;
  handler_entered : option nat;
  handler_returned : option nat
}.

Definition advance (n : nat) (s : State) : State :=
  {| now := n + now s;
     request_start_time := request_start_time s;
     request_start_memory := request_start_memory s;
     handler_entered := handler_entered s;
     handler_returned := handler_returned s |}.

Definition mark_entered (s : State) : State :=
  {| now := now s;
     request_start_time := request_start_time s;
     request_start_memory := request_start_memory s;
     handler_entered := Some (now s);
     handler_returned := handler_returned s |}.

Definition mark_returned (s : State) : State :=
  {| now := now s;
     request_start_time := request_start_time s;
     request_start_memory := request_start_memory s;
     handler_entered := handler_entered s;
     handler_returned := Some (now s) |}.

(** A fresh request at instant [n]: nothing set yet. *)
Definition initial (n : nat) : State :=
  {| now := n;
     request_start_time := None;
     request_start_memory := None;
     handler_entered := None;
     handler_returned := None |}.

(** [n] instants go by. *)
Definition elapse (n : nat) : M State unit := modify (advance n).

(** An inbound request: its path, the chunks in which its body arrives
    (what [request.stream()] yields), and the fields the framework's
    multipart parser makes of that body ([None] when the body is not a
    multipart form). *)
Record Request : Type := {
  path : string;
  wire : list (list byte);
  form : option (list (string * list byte))
}.

(** The file object under an [UploadFile]: its bytes and the read
    position. *)
Record SpooledFile : Type := {
  data : list byte;
  pos : nat
}.

(** The bytes still to be read from a file. *)
Definition remaining (f : SpooledFile) : nat := length (data f) - pos f.

(** Resident memory in MiB at an instant. *)
Definition resident_mb (w : World) (i : nat) : Q :=
  (PyFloat.of_int (rss w i) / 1024 / 1024)%Q.

Section WithWorld.

Variable w : World.

(** [time.perf_counter()]. *)
Definition perf_counter : M State Q :=
  t ← gets (fun s => clock w (now s));
  elapse 1;;
  mret t.

(** Get current process memory usage in MB. *)
Definition get_memory_usage_mb : M State Q :=
  r ← gets (fun s => rss w (now s));
  elapse 1;;
  mret (PyFloat.of_int r / 1024 / 1024)%Q.

(** [ContextVar.set] and [ContextVar.get] of the two variables. *)
Definition request_start_time_set (v : Q) : M State unit :=
  modify (fun s => {| now := now s;
                      request_start_time := Some v;
                      request_start_memory := request_start_memory s;
                      handler_entered := handler_entered s;
                      handler_returned := handler_returned s |}).

Definition request_start_memory_set (v : Q) : M State unit :=
  modify (fun s => {| now := now s;
                      request_start_time := request_start_time s;
                      request_start_memory := Some v;
                      handler_entered := handler_entered s;
                      handler_returned := handler_returned s |}).

Definition request_start_memory_get : M State Q :=
  v ← gets request_start_memory;
  match v with
  | Some x => mret x
  | None => raise (LookupError "request_start_memory")
  end.

(** Middleware to capture total request processing time including
    the framework's overhead. *)
Definition dispatch (request : Request)
    (call_next : Request -> M State Response) : M State Response :=
  start_time ← perf_counter;
  start_memory ← get_memory_usage_mb;
  request_start_time_set start_time;;
  request_start_memory_set start_memory;;
  response ← call_next request;
  end_time ← perf_counter;
  end_memory ← get_memory_usage_mb;
  let total_duration := (end_time - start_time)%Q in
  mret {| status_code := status_code response;
          content := content response;
          headers :=
            <["X-Total-Memory-Delta" := PyFloat.str (end_memory - start_memory)]>
              (<["X-Total-Duration" := PyFloat.str total_duration]>
                 (headers response)) |}.

(** Sync route with File(): the whole file is in memory before the
    handler runs. *)
Definition upload_sync_file (file : list byte) : M State ServerResponse.t :=
  start_memory ← request_start_memory_get;
  handler_start_time ← perf_counter;
  let file_size := len file in
  handler_end_time ← perf_counter;
  end_memory ← get_memory_usage_mb;
  let handler_duration := (handler_end_time - handler_start_time)%Q in
  mret (ServerResponse.mk "sync-file" file_size
          (PyFloat.of_int file_size / 1024 / 1024)%Q
          handler_duration start_memory end_memory
          (end_memory - start_memory)%Q).

(** Async route with File(). *)
Definition upload_async_file (file : list byte) : M State ServerResponse.t :=
  start_memory ← request_start_memory_get;
  handler_start_time ← perf_counter;
  let file_size := len file in
  handler_end_time ← perf_counter;
  end_memory ← get_memory_usage_mb;
  let handler_duration := (handler_end_time - handler_start_time)%Q in
  mret (ServerResponse.mk "async-file" file_size
          (PyFloat.of_int file_size / 1024 / 1024)%Q
          handler_duration start_memory end_memory
          (end_memory - start_memory)%Q).

(** [file.read(size)] on the underlying file object: up to [size] bytes
    from the read position, which moves on; the read takes an
    instant. *)
Definition file_read (f : SpooledFile) (size : Z)
    : M State (list byte * SpooledFile) :=
  let chunk := take (Z.to_nat size) (drop (pos f) (data f)) in
  elapse 1;;
  mret (chunk, {| data := data f; pos := pos f + length chunk |}).

(** [await file.read(size)] on the [UploadFile]: the same read, run on
    the thread pool. *)
Definition UploadFile_read (f : SpooledFile) (size : Z)
    : M State (list byte * SpooledFile) :=
  file_read f size.

(** [while chunk := read(CHUNK_SIZE): file_size += len(chunk)]. *)
Fixpoint while_chunk (fuel : nat)
    (read : SpooledFile -> Z -> M State (list byte * SpooledFile))
    (f : SpooledFile) (file_size : Z) : M State Z :=
  match fuel with
  | O => lift Diverged
  | S fuel' =>
      r ← read f CHUNK_SIZE;
      match r.1 with
      | [] => mret file_size
      | _ => while_chunk fuel' read r.2 (file_size + len r.1)
      end
  end.

(** Sync route with UploadFile using sync chunked reading. *)
Definition upload_sync_uploadfile (fuel : nat) (file : SpooledFile)
    : M State ServerResponse.t :=
  start_memory ← request_start_memory_get;
  handler_start_time ← perf_counter;
  file_size ← while_chunk fuel file_read file 0;
  handler_end_time ← perf_counter;
  end_memory ← get_memory_usage_mb;
  let handler_duration := (handler_end_time - handler_start_time)%Q in
  mret (ServerResponse.mk "sync-uploadfile" file_size
          (PyFloat.of_int file_size / 1024 / 1024)%Q
          handler_duration start_memory end_memory
          (end_memory - start_memory)%Q).

(** Async route with UploadFile using async chunked reading. *)
Definition upload_async_uploadfile (fuel : nat) (file : SpooledFile)
    : M State ServerResponse.t :=
  start_memory ← request_start_memory_get;
  handler_start_time ← perf_counter;
  file_size ← while_chunk fuel UploadFile_read file 0;
  handler_end_time ← perf_counter;
  end_memory ← get_memory_usage_mb;
  let handler_duration := (handler_end_time - handler_start_time)%Q in
  mret (ServerResponse.mk "async-uploadfile" file_size
          (PyFloat.of_int file_size / 1024 / 1024)%Q
          handler_duration start_memory end_memory
          (end_memory - start_memory)%Q).

(** [async for chunk in request.stream(): file_size += len(chunk)];
    each chunk takes an instant to arrive. *)
Fixpoint for_chunk (stream : list (list byte)) (file_size : Z) : M State Z :=
  match stream with
  | [] => mret file_size
  | chunk :: rest => elapse 1;; for_chunk rest (file_size + len chunk)
  end.

(** Async route using request.stream() with async processing. *)
Definition upload_async_stream (stream : list (list byte))
    : M State ServerResponse.t :=
  start_memory ← request_start_memory_get;
  handler_start_time ← perf_counter;
  file_size ← for_chunk stream 0;
  handler_end_time ← perf_counter;
  end_memory ← get_memory_usage_mb;
  let handler_duration := (handler_end_time - handler_start_time)%Q in
  mret (ServerResponse.mk "async-stream" file_size
          (PyFloat.of_int file_size / 1024 / 1024)%Q
          handler_duration start_memory end_memory
          (end_memory - start_memory)%Q).

(** The five handlers share one shape and differ in the name they report
    and in how they consume the body. *)
Definition handler_shape (name : string) (consume : M State Z)
    : M State ServerResponse.t :=
  start_memory ← request_start_memory_get;
  handler_start_time ← perf_counter;
  file_size ← consume;
  handler_end_time ← perf_counter;
  end_memory ← get_memory_usage_mb;
  let handler_duration := (handler_end_time - handler_start_time)%Q in
  mret (ServerResponse.mk name file_size
          (PyFloat.of_int file_size / 1024 / 1024)%Q
          handler_duration start_memory end_memory
          (end_memory - start_memory)%Q).

(** ** The framework between the middleware and the handlers *)

Definition ROUTES : list string :=
  [ "/upload/sync-file"; "/upload/async-file"; "/upload/sync-uploadfile";
    "/upload/async-uploadfile"; "/upload/async-stream" ].

(** The content of the form field [name]. *)
Definition form_field (name : string) (request : Request) : option (list byte) :=
  fields ← form request;
  snd <$> find (fun kv => String.eqb kv.1 name) fields.

(** The handler's return value becomes a JSON response.  (The headers
    the framework adds of its own are left out.) *)
Definition json_response (r : ServerResponse.t) : Response :=
  {| status_code := 200;
     content := ServerResponse.model_dump_json r;
     headers := ∅ |}.

Definition error_response (code : Z) (detail : string) : Response :=
  {| status_code := code;
     content := JObj [("detail", JStr detail)];
     headers := ∅ |}.

(** The framework calls a handler and serializes what it returns. *)
Definition call_handler (handler : M State ServerResponse.t) : M State Response :=
  modify mark_entered;;
  r ← handler;
  modify mark_returned;;
  mret (json_response r).

(** A route with a [file] form parameter: the framework reads the whole
    body off the wire, one instant a chunk, and parses the form before
    it calls the handler; without the field the request is refused. *)
Definition with_form_file (request : Request)
    (handler : list byte -> M State ServerResponse.t) : M State Response :=
  elapse (length (wire request));;
  match form_field "file" request with
  | Some b => call_handler (handler b)
  | None => mret (error_response 422 "Field required")
  end.

(** Routing.  [before] and [after] are the instants the framework
    spends on its own before and after the endpoint. *)
Definition app (before after fuel : nat) (request : Request) : M State Response :=
  elapse before;;
  response ←
    (if String.eqb (path request) "/upload/sync-file" then
       with_form_file request upload_sync_file
     else if String.eqb (path request) "/upload/async-file" then
       with_form_file request upload_async_file
     else if String.eqb (path request) "/upload/sync-uploadfile" then
       with_form_file request
         (fun b => upload_sync_uploadfile fuel {| data := b; pos := 0 |})
     else if String.eqb (path request) "/upload/async-uploadfile" then
       with_form_file request
         (fun b => upload_async_uploadfile fuel {| data := b; pos := 0 |})
     else if String.eqb (path request) "/upload/async-stream" then
       call_handler (upload_async_stream (wire request))
     else mret (error_response 404 "Not Found"));
  elapse after;;
  mret response.

(** [app.add_middleware(TimingMiddleware)]: every request goes through
    the middleware. *)
Definition serve (before after fuel : nat) (request : Request) : M State Response :=
  dispatch request (app before after fuel).

End WithWorld.

(** The routes with a [file] form parameter. *)
Definition FORM_ROUTES : list string :=
  [ "/upload/sync-file"; "/upload/async-file"; "/upload/sync-uploadfile";
    "/upload/async-uploadfile" ].

(** The state in which the endpoint leaves a request that entered the
    handler at [entry], whose handler took its last clock sample at [h1],
    after the framework has spent [after] instants more. *)
Definition left_at (s : State) (entry h1 after : nat) : State :=
  {| now := after + S (S h1);
     request_start_time := request_start_time s;
     request_start_memory := request_start_memory s;
     handler_entered := Some entry;
     handler_returned := Some (S (S h1)) |}.

(** The state of a request once the middleware has taken its first
    samples, at [now s] and the instant after, and stored them. *)
Definition dispatched (w : World) (s : State) : State :=
  {| now := S (S (now s));
     request_start_time := Some (clock w (now s));
     request_start_memory := Some (resident_mb w (S (now s)));
     handler_entered := handler_entered s;
     handler_returned := handler_returned s |}.

(** The body a request delivers to the handler of its route: the
    concatenation of the chunks for the raw-streaming route, the content
    of the form field [file] for the four others. *)
Definition delivered (request : Request) : option (list byte) :=
  if String.eqb (path request) "/upload/async-stream" then
    Some (concat (wire request))
  else if bool_decide (path request ∈ ROUTES) then
    form_field "file" request
  else None.

(** The reads the chunked loop makes of a file: one for each chunk of
    [CHUNK_SIZE] bytes begun in what is left of it, and the last one, which
    comes back empty. *)
Definition reads (f : SpooledFile) : nat :=
  S ((remaining f + (Z.to_nat CHUNK_SIZE - 1)) / Z.to_nat CHUNK_SIZE).

End Server.


(* ===================================================================== *)
(** * client.py                                                             *)
(* ===================================================================== *)

Module Client.

(** ** The test matrix *)

(** The module-level loop
    [while size_bytes <= 1024 * 1024 * 1024: ...; size_bytes *= 2],
    with the list built so far and the current size. *)
Fixpoint FILE_SIZES_loop (fuel : nat) (FILE_SIZES : list (string * Z))
    (size_bytes : Z) : option (list (string * Z)) :=
  match fuel with
  | O => None
  | S fuel' =>
      if (size_bytes <=? 1024 * 1024 * 1024)%Z then
        let label :=
          if (size_bytes <? 1024)%Z then
            pretty size_bytes +:+ "B"
          else if (size_bytes <? 1024 * 1024)%Z then
            pretty (size_bytes / 1024)%Z +:+ "KB"
          else if (size_bytes <? 1024 * 1024 * 1024)%Z then
            pretty (size_bytes / (1024 * 1024))%Z +:+ "MB"
          else
            pretty (size_bytes / (1024 * 1024 * 1024))%Z +:+ "GB" in
        FILE_SIZES_loop fuel' (FILE_SIZES ++ [(label, size_bytes)]) (size_bytes * 2)%Z
      else Some FILE_SIZES
  end.

(** Test file sizes - 1KB to 1GB, doubling each step. *)
Definition FILE_SIZES : list (string * Z) :=
  default [] (FILE_SIZES_loop 32 [] 1024%Z).

(** Endpoints to test. *)
Definition ENDPOINTS : list string :=
  [ "/upload/sync-file";
    "/upload/async-file";
    "/upload/sync-uploadfile";
    "/upload/async-uploadfile";
    "/upload/async-stream" ].

Definition BASE_URL : string := "http://localhost:8000".
Definition TEST_FILES_DIR : string := "test_files".
Definition RESULTS_FILE : string := "benchmark_results.json".

(** ** The environment of the client process *)

(** What the client observes: the monotonic clock and the wall clock at
    each instant, how the exchange started at an instant with a given
    request ends, and the bytes the system's random source gives at an
    instant. *)
Record World : Type := {
  clock : nat -> Q;
  wall_clock : nat -> Datetime.datetime;
  network : nat -> Http.Request -> Http.Outcome;
  random_byte : nat -> nat -> byte
}.

(** The state of the client process: the current instant, what was
    printed, the regular files by path, the content of [RESULTS_FILE]
    ([None] while the file does not exist), and, as a ghost field, the
    requests issued so far. *)
Record State : Type := {
  now : nat;
  stdout : list string;
  files : gmap string (list byte);
  results_file : option json;
  sent : list Http.Request
}.

Definition advance (n : nat) (s : State) : State :=
  {| now := n + now s; stdout := stdout s; files := files s;
     results_file := results_file s; sent := sent s |}.

Definition emit (text : string) (s : State) : State :=
  {| now := now s; stdout := stdout s ++ [text]; files := files s;
     results_file := results_file s; sent := sent s |}.

Definition record_request (r : Http.Request) (s : State) : State :=
  {| now := now s; stdout := stdout s; files := files s;
     results_file := results_file s; sent := sent s ++ [r] |}.

Definition write_results (j : json) (s : State) : State :=
  {| now := now s; stdout := stdout s; files := files s;
     results_file := Some j; sent := sent s |}.

(** The file at [filepath] is created empty, or emptied. *)
Definition truncate_file (filepath : string) (s : State) : State :=
  {| now := now s; stdout := stdout s; files := <[filepath := []]> (files s);
     results_file := results_file s; sent := sent s |}.

(** [data] goes to the end of the file at [filepath]. *)
Definition append_file (filepath : string) (data : list byte) (s : State) : State :=
  {| now := now s; stdout := stdout s;
     files := <[filepath := (default [] (files s !! filepath) ++ data)%list]> (files s);
     results_file := results_file s; sent := sent s |}.

(** [test_files[key] = value] on a dict kept in insertion order. *)
Fixpoint dict_set (d : list (string * string)) (key value : string)
    : list (string * string) :=
  match d with
  | [] => [(key, value)]
  | (k, v) :: rest =>
      if String.eqb k key then (k, value) :: rest
      else (k, v) :: dict_set rest key value
  end.

Definition nl : string := String (ascii_of_nat 10) EmptyString.

(** [print(text, end=ending)] and [print(text)]. *)
Definition print_end (text ending : string) : M State unit :=
  modify (emit (text +:+ ending)).

Definition print (text : string) : M State unit := print_end text nl.

(** The dict [upload_file] returns: the one with the key ["error"], or
    the one with the server's response and the totals. *)
Inductive UploadResult : Type :=
| ErrorResult (error : string) (client_duration : Q)
| MetricsResult (server_response : ServerResponse.t)
    (client_duration total_duration total_memory_delta : Q).

Section WithWorld.

Variable w : World.

(** [time.perf_counter()]. *)
Definition perf_counter : M State Q :=
  t ← gets (fun s => clock w (now s));
  modify (advance 1);;
  mret t.

(** [datetime.now()]. *)
Definition datetime_now : M State Datetime.datetime :=
  t ← gets (fun s => wall_clock w (now s));
  modify (advance 1);;
  mret t.

(** [os.urandom(n)]. *)
Definition os_urandom (n : Z) : M State (list byte) :=
  t ← gets now;
  modify (advance 1);;
  mret (random_byte w t <$> seq 0 (Z.to_nat n)).

(** [filepath.exists() and filepath.stat().st_size == size_bytes]. *)
Definition exists_with_size (filepath : string) (size_bytes : Z) : M State bool :=
  fs ← gets files;
  mret (match fs !! filepath with
        | Some b => (len b =? size_bytes)%Z
        | None => false
        end).

(** The loop [while remaining > 0: ...] of [generate_test_file]. *)
Fixpoint write_random (fuel : nat) (filepath : string) (chunk_size remaining : Z)
    : M State unit :=
  match fuel with
  | O => lift Diverged
  | S fuel' =>
      if (0 <? remaining)%Z then
        let write_size := Z.min chunk_size remaining in
        data ← os_urandom write_size;
        modify (append_file filepath data);;
        write_random fuel' filepath chunk_size (remaining - write_size)%Z
      else mret tt
  end.

(** Generate a test file of specified size (or reuse if it already
    exists).  (Directories are not modelled: [mkdir] is left out.) *)
Definition generate_test_file (fuel : nat) (size_bytes : Z) (filename : string)
    : M State string :=
  let filepath := TEST_FILES_DIR +:+ "/" +:+ filename in
  Py.bind (exists_with_size filepath size_bytes) (fun reuse : bool =>
  if reuse then mret filepath
  else
    modify (truncate_file filepath);;
    let chunk_size := (1024 * 1024)%Z in
    let remaining := size_bytes in
    write_random fuel filepath chunk_size remaining;;
    mret filepath).

(** [open(filepath, "rb")]. *)
Definition open_rb (filepath : string) : M State Http.FileObject :=
  fs ← gets files;
  match fs !! filepath with
  | Some _ => mret {| name := filepath; position := 0 |}
  | None => raise (OSError ("No such file or directory: " +:+ filepath))
  end.

(** [f.read()]: everything from the read position to the end. *)
Definition read_all (f : Http.FileObject) : M State (list byte) :=
  fs ← gets files;
  modify (advance 1);;
  mret (drop (position f) (default [] (fs !! name f))).

(** [filepath.stat().st_size]. *)
Definition stat_size (filepath : string) : M State Z :=
  fs ← gets files;
  match fs !! filepath with
  | Some b => mret (len b)
  | None => raise (OSError ("No such file or directory: " +:+ filepath))
  end.

(** [await client.post(url, ...)]: the request goes out, and the
    exchange ends as the network has it. *)
Definition post (url : string) (p : Http.Payload) : M State Http.Response :=
  let request := {| url := url; payload := p |} in
  o ← gets (fun s => network w (now s) request);
  modify (record_request request);;
  modify (advance 1);;
  match o with
  | Responded r => mret r
  | Failed e => raise e
  end.

(** [float(response.headers.get(key, 0))]. *)
Definition header_float (key : string) (response : Http.Response) : M State Q :=
  match headers response !! key with
  | None => mret (PyFloat.of_int 0)
  | Some v =>
      match PyFloat.of_str v with
      | Some x => mret x
      | None => raise (ValueError ("could not convert string to float: " +:+ v))
      end
  end.

(** Upload file to specified endpoint and return metrics. *)
Definition upload_file (endpoint : string) (filepath : string) : M State UploadResult :=
  let url := BASE_URL +:+ endpoint in
  start_time ← perf_counter;
  f ← open_rb filepath;
  response ←
    (if Text.contains "stream" endpoint then
       data ← read_all f;
       post url (Content data)
     else
       let files := [("file", (Text.basename filepath, f, "application/octet-stream"))] in
       post url (Files files));
  end_time ← perf_counter;
  let client_duration := (end_time - start_time)%Q in
  if negb (status_code response =? 200)%Z then
    mret (ErrorResult ("HTTP " +:+ pretty (status_code response)) client_duration)
  else
    server_data ←
      match ServerResponse.model_validate_json (content response) with
      | Some r => mret r
      | None => raise (ValidationError "validation error for ServerResponse")
      end;
    total_duration ← header_float "X-Total-Duration" response;
    total_memory_delta ← header_float "X-Total-Memory-Delta" response;
    mret (MetricsResult server_data client_duration total_duration total_memory_delta).

(** What [upload_file] does once the response is in (from the second clock
    sample on), as a function of the first clock sample and the
    response. *)
Definition received (start_time : Q) (response : Http.Response) : M State UploadResult :=
  end_time ← perf_counter;
  let client_duration := (end_time - start_time)%Q in
  if negb (status_code response =? 200)%Z then
    mret (ErrorResult ("HTTP " +:+ pretty (status_code response)) client_duration)
  else
    server_data ←
      match ServerResponse.model_validate_json (content response) with
      | Some r => mret r
      | None => raise (ValidationError "validation error for ServerResponse")
      end;
    total_duration ← header_float "X-Total-Duration" response;
    total_memory_delta ← header_float "X-Total-Memory-Delta" response;
    mret (MetricsResult server_data client_duration total_duration total_memory_delta).

(** Save benchmark results to JSON file. *)
Definition save_results (benchmark_run : BenchmarkRun.t) : M State unit :=
  stored ← gets results_file;
  history ←
    match stored with
    | Some j =>
        match BenchmarkHistory.model_validate_json j with
        | Some h => mret h
        | None => raise (ValidationError "validation error for BenchmarkHistory")
        end
    | None => mret (BenchmarkHistory.mk [])
    end;
  let history := BenchmarkHistory.add_run history benchmark_run in
  modify (write_results (BenchmarkHistory.model_dump_json history));;
  print (nl +:+ "✓ Results saved to " +:+ RESULTS_FILE).

(** [x / d if d > 0 else 0]. *)
Definition throughput (file_size_mb total_duration : Q) : M State Q :=
  if Qlt_le_dec 0 total_duration
  then lift (truediv file_size_mb total_duration)
  else mret 0%Q.

(** The body of [for endpoint in ENDPOINTS:], from the dict of results
    so far to the dict after this endpoint. *)
Definition trial (filepath : string) (endpoint : string)
    (endpoint_results : gmap string EndpointMetrics.t)
    : M State (gmap string EndpointMetrics.t) :=
  let endpoint_name := Text.replace "/upload/" "" endpoint in
  print_end ("  " +:+ endpoint_name +:+ "...") " ";;
  try_except
    (result ← upload_file endpoint filepath;
     match result with
     | ErrorResult error _ =>
         print ("✗ " +:+ error);;
         mret endpoint_results
     | MetricsResult server_response client_duration total_duration total_memory_delta =>
         total_throughput_mbps ←
           throughput (ServerResponse.file_size_mb server_response) total_duration;
         let metrics :=
           EndpointMetrics.mk
             endpoint_name
             (ServerResponse.file_size_bytes server_response)
             (ServerResponse.file_size_mb server_response)
             (ServerResponse.handler_duration_seconds server_response)
             total_duration
             total_throughput_mbps
             total_memory_delta
             (ServerResponse.memory_start_mb server_response)
             (ServerResponse.memory_end_mb server_response)
             (ServerResponse.memory_delta_mb server_response)
             client_duration in
         total_throughput ←
           throughput (ServerResponse.file_size_mb server_response) total_duration;
         print ("✓ handler: " +:+
                PyFloat.format_f 3 (ServerResponse.handler_duration_seconds server_response) +:+
                "s, total: " +:+ PyFloat.format_f 3 total_duration +:+
                "s (" +:+ PyFloat.format_f 2 total_throughput +:+ " MB/s)");;
         mret (<[endpoint_name := metrics]> endpoint_results)
     end)
    (fun e =>
       print ("✗ Error: " +:+ exn_str e);;
       mret endpoint_results).

(** [for endpoint in ENDPOINTS: ...]. *)
Fixpoint for_endpoints (filepath : string) (endpoints : list string)
    (endpoint_results : gmap string EndpointMetrics.t)
    : M State (gmap string EndpointMetrics.t) :=
  match endpoints with
  | [] => mret endpoint_results
  | endpoint :: rest =>
      endpoint_results ← trial filepath endpoint endpoint_results;
      for_endpoints filepath rest endpoint_results
  end.

(** [for size_name, filepath in test_files.items(): ...]. *)
Fixpoint for_test_files (test_files : list (string * string))
    (test_results : list FileSizeTest.t) : M State (list FileSizeTest.t) :=
  match test_files with
  | [] => mret test_results
  | (size_name, filepath) :: rest =>
      size_bytes ← stat_size filepath;
      print ("Testing " +:+ size_name +:+ " file:");;
      endpoint_results ← for_endpoints filepath ENDPOINTS ∅;
      let test_results :=
        (test_results ++ [FileSizeTest.mk size_name size_bytes endpoint_results])%list in
      print "";;
      for_test_files rest test_results
  end.

(** [for size_name, size_bytes in FILE_SIZES: ...], the preparation of the
    test files, from the dict [test_files] so far to the dict at the
    end. *)
Fixpoint for_file_sizes (fuel : nat) (file_sizes : list (string * Z))
    (test_files : list (string * string)) : M State (list (string * string)) :=
  match file_sizes with
  | [] => mret test_files
  | (size_name, size_bytes) :: rest =>
      let filename := "test_" +:+ size_name +:+ ".bin" in
      let filepath := TEST_FILES_DIR +:+ "/" +:+ filename in
      Py.bind (exists_with_size filepath size_bytes) (fun reuse : bool =>
      if reuse then
        print ("  " +:+ size_name +:+ " file... ✓ (reusing existing)");;
        let test_files := dict_set test_files size_name filepath in
        for_file_sizes fuel rest test_files
      else
        print_end ("  Generating " +:+ size_name +:+ " file...") " ";;
        filepath ← generate_test_file fuel size_bytes filename;
        let test_files := dict_set test_files size_name filepath in
        print "✓";;
        for_file_sizes fuel rest test_files)
  end.

(** Run the complete benchmark suite.  [fuel] bounds the writes of one
    generated file. *)
Definition run_benchmark (fuel : nat) : M State unit :=
  print (Text.repeat "=" 100);;
  print "FastAPI File Upload Benchmark";;
  print (Text.repeat "=" 100);;
  print "";;
  print ("Testing " +:+ pretty (length FILE_SIZES) +:+ " file sizes from " +:+
         default "" (fst <$> head FILE_SIZES) +:+ " to " +:+
         default "" (fst <$> last FILE_SIZES));;
  print ("Testing " +:+ pretty (length ENDPOINTS) +:+ " endpoints");;
  print "";;
  print "Preparing test files...";;
  test_files ← for_file_sizes fuel FILE_SIZES [];
  print "";;
  print "Running benchmarks...";;
  print "";;
  test_results ← for_test_files test_files [];
  timestamp ← datetime_now;
  let benchmark_run := BenchmarkRun.make timestamp test_results ENDPOINTS in
  save_results benchmark_run;;
  print "";;
  print (Text.repeat "=" 100);;
  print "Benchmark complete! View results with: python visualize.py";;
  print ("Test files kept in " +:+ TEST_FILES_DIR +:+ "/ for reuse");;
  print (Text.repeat "=" 100).



End WithWorld.

(** The request a trial sends for [endpoint] when the test file holds
    [content]: the bytes themselves for a path that contains ["stream"],
    otherwise a form with the one field ["file"] carrying the file object,
    still unread. *)
Definition request_of (endpoint filepath : string) (content : list byte) : Http.Request :=
  {| url := BASE_URL +:+ endpoint;
     payload :=
       if Text.contains "stream" endpoint then Content content
       else Files [("file", (Text.basename filepath,
                             {| name := filepath; position := 0 |},
                             "application/octet-stream"))] |}.

(** The instant at which the request of an upload started in [s] goes out:
    after the clock sample and, for a streamed body, the read of the
    file. *)
Definition post_instant (endpoint : string) (s : State) : nat :=
  (if Text.contains "stream" endpoint then 2 else 1) + now s.

(** The state right after the request of an upload started in [s] went
    out. *)
Definition after_post (endpoint filepath : string) (content : list byte) (s : State) : State :=
  {| now := S (post_instant endpoint s);
     stdout := stdout s;
     files := files s;
     results_file := results_file s;
     sent := sent s ++ [request_of endpoint filepath content] |}.

(** How the exchange of an upload started in [s] ends; [None] when the test
    file does not exist. *)
Definition exchange (w : World) (endpoint filepath : string) (s : State)
    : option Http.Outcome :=
  content ← files s !! filepath;
  Some (network w (post_instant endpoint s) (request_of endpoint filepath content)).

(** An exchange that makes the trial fail: the transport raised (connection
    failure, timeout), or the status is not 200. *)
Definition failed (o : Http.Outcome) : Prop :=
  match o with
  | Failed _ => True
  | Responded response => status_code response <> 200%Z
  end.

(** The value [float(response.headers.get(key, 0))] gives, [None] when
    [float] raises. *)
Definition header_value (key : string) (response : Http.Response) : option Q :=
  match headers response !! key with
  | None => Some (PyFloat.of_int 0)
  | Some v => PyFloat.of_str v
  end.

(** The name under which the results of an endpoint are kept. *)
Definition endpoint_name (endpoint : string) : string :=
  Text.replace "/upload/" "" endpoint.

(** The path of the test file of a size label. *)
Definition test_file_path (size_name : string) : string :=
  TEST_FILES_DIR +:+ "/" +:+ ("test_" +:+ size_name +:+ ".bin").

(** The test file of each of the given sizes is there, with that size. *)
Definition provisioned (file_sizes : list (string * Z)) (s : State) : Prop :=
  Forall (fun p : string * Z =>
            exists b, files s !! test_file_path p.1 = Some b /\ len b = p.2)
         file_sizes.

(** The dict of test files the preparation builds when it generates
    nothing. *)
Definition prepared_files (file_sizes : list (string * Z))
    (test_files : list (string * string)) : list (string * string) :=
  fold_left (fun d p => dict_set d p.1 (test_file_path p.1)) file_sizes test_files.

(** From [s] to [s'] the test files and the results store were left
    alone, and time did not go back. *)
Definition undisturbed (s s' : State) : Prop :=
  files s' = files s /\ results_file s' = results_file s /\ now s <= now s'.

(** The state once a trial has announced its endpoint on standard
    output. *)
Definition announced (endpoint : string) (s : State) : State :=
  emit (("  " +:+ endpoint_name endpoint +:+ "...") +:+ " ") s.

(** The record a trial keeps for a merged result. *)
Definition merged (endpoint : string) (server_response : ServerResponse.t)
    (client_duration total_duration total_memory_delta : Q) : EndpointMetrics.t :=
  EndpointMetrics.mk
    (endpoint_name endpoint)
    (ServerResponse.file_size_bytes server_response)
    (ServerResponse.file_size_mb server_response)
    (ServerResponse.handler_duration_seconds server_response)
    total_duration
    (if Qlt_le_dec 0 total_duration
     then (ServerResponse.file_size_mb server_response / total_duration)%Q
     else 0%Q)
    total_memory_delta
    (ServerResponse.memory_start_mb server_response)
    (ServerResponse.memory_end_mb server_response)
    (ServerResponse.memory_delta_mb server_response)
    client_duration.

(** The line a trial prints for a merged result. *)
Definition success_line (m : EndpointMetrics.t) : string :=
  "✓ handler: " +:+
  PyFloat.format_f 3 (EndpointMetrics.handler_duration_seconds m) +:+
  "s, total: " +:+ PyFloat.format_f 3 (EndpointMetrics.total_duration_seconds m) +:+
  "s (" +:+ PyFloat.format_f 2 (EndpointMetrics.total_throughput_mbps m) +:+ " MB/s)".

(** What loading the store gives in a state: the persisted history when
    the file exists, the empty history when it does not. *)
Definition stored_history (s : State) : option BenchmarkHistory.t :=
  match results_file s with
  | Some j => BenchmarkHistory.model_validate_json j
  | None => Some (BenchmarkHistory.mk [])
  end.

(** What a trial keeps of an exchange: the server's response and the two
    totals when the status is 200, the body validates and each of the two
    headers is absent or is decimal text; nothing otherwise. *)
Definition accepted (o : Http.Outcome) : option (ServerResponse.t * Q * Q) :=
  match o with
  | Failed _ => None
  | Responded response =>
      if (status_code response =? 200)%Z then
        sr ← ServerResponse.model_validate_json (content response);
        d ← header_value "X-Total-Duration" response;
        md ← header_value "X-Total-Memory-Delta" response;
        Some (sr, d, md)
      else None
  end.

(** The requests an upload started in [s] adds to those sent: one when the
    test file is there, none when it is not. *)
Definition requests_of (endpoint filepath : string) (s : State) : list Http.Request :=
  match files s !! filepath with
  | Some content => [request_of endpoint filepath content]
  | None => []
  end.

(** An entry filed under [key] is that of an endpoint of the matrix, names
    that endpoint, and carries the throughput of its own size and total
    duration. *)
Definition consistent (key : string) (m : EndpointMetrics.t) : Prop :=
  EndpointMetrics.endpoint m = key /\
  key ∈ endpoint_name <$> ENDPOINTS /\
  EndpointMetrics.total_throughput_mbps m =
    (if Qlt_le_dec 0 (EndpointMetrics.total_duration_seconds m)
     then (EndpointMetrics.file_size_mb m / EndpointMetrics.total_duration_seconds m)%Q
     else 0%Q).

(** The number of writes by which a file of [size_bytes] bytes is
    generated: one for each MiB begun. *)
Definition writes (size_bytes : Z) : nat :=
  Z.to_nat ((Z.max 0 size_bytes + (1024 * 1024 - 1)) / (1024 * 1024)).

(** Whether the file at [filepath] is there with [size_bytes] bytes. *)
Definition in_place (filepath : string) (size_bytes : Z) (s : State) : bool :=
  match files s !! filepath with
  | Some b => (len b =? size_bytes)%Z
  | None => false
  end.

(** The dict of test files of the matrix: for each label, in the order of
    [FILE_SIZES], the path of its file. *)
Definition matrix_files : list (string * string) :=
  (fun p : string * Z => (p.1, test_file_path p.1)) <$> FILE_SIZES.

(** The state [n] instants after [s] in which the file at [filepath] holds
    [content] and nothing else has changed. *)
Definition written (filepath : string) (content : list byte) (n : nat) (s : State) : State :=
  {| now := n + now s; stdout := stdout s;
     files := <[filepath := content]> (files s);
     results_file := results_file s; sent := sent s |}.

(** The entries a trial leaves: those it was given and, when the exchange
    was accepted, the merged record under the name of the endpoint. *)
Definition filed (endpoint : string) (o : option (ServerResponse.t * Q * Q))
    (client_duration : Q) (endpoint_results : gmap string EndpointMetrics.t)
    : gmap string EndpointMetrics.t :=
  match o with
  | Some (sr, d, md) =>
      <[endpoint_name endpoint := merged endpoint sr client_duration d md]> endpoint_results
  | None => endpoint_results
  end.

End Client.

(* ===================================================================== *)
(** * visualize.py                                                          *)
(* ===================================================================== *)

Module Visualize.

Definition RESULTS_FILE : string := "benchmark_results.json".

(** A column of a table: its header, style, justification and width. *)
Record Column : Type := {
  header : string;
  style : option string;
  justify : string;
  width : Z
}.

(** A table of the console library: the columns in the order in which they
    were added, and the rows, each the list of its cells as [add_row] was
    given them. *)
Record Table : Type := {
  title : string;
  show_header : bool;
  header_style : string;
  columns : list Column;
  rows : list (list string)
}.

(** [Table(title=..., show_header=True, header_style=...)]. *)
Definition new_table (title header_style : string) : Table :=
  {| title := title; show_header := true; header_style := header_style;
     columns := []; rows := [] |}.

(** [table.add_column(header, style=..., justify=..., width=...)]. *)
Definition add_column (table : Table) (header : string) (style : option string)
    (justify : string) (width : Z) : Table :=
  {| title := title table; show_header := show_header table;
     header_style := header_style table;
     columns := columns table ++
                [{| header := header; style := style; justify := justify; width := width |}];
     rows := rows table |}.

(** [table.add_row] on the cells of [row]. *)
Definition add_row (table : Table) (row : list string) : Table :=
  {| title := title table; show_header := show_header table;
     header_style := header_style table;
     columns := columns table;
     rows := rows table ++ [row] |}.

(** Create table showing total timing (complete request processing). *)
Definition create_total_timing_table (run : BenchmarkRun.t) : Table :=
  let table := new_table "Total Request Time (Handler + FastAPI Processing)" "bold cyan" in
  let table := add_column table "File Size" (Some "dim") "left" 12 in
  let table :=
    fold_left
      (fun table endpoint =>
         let endpoint_name := Text.replace "/upload/" "" endpoint in
         add_column table endpoint_name None "right" 20)
      (BenchmarkRun.endpoints run) table in
  fold_left
    (fun table test =>
       let row := [FileSizeTest.file_size_label test] in
       let row :=
         fold_left
           (fun row endpoint =>
              let endpoint_name := Text.replace "/upload/" "" endpoint in
              let metrics := FileSizeTest.results test !! endpoint_name in
              match metrics with
              | Some metrics =>
                  let duration := EndpointMetrics.total_duration_seconds metrics in
                  let throughput := EndpointMetrics.total_throughput_mbps metrics in
                  let cell :=
                    PyFloat.format_fixed 4 duration +:+ "s (" +:+
                    PyFloat.format_fixed 1 throughput +:+ "MB/s)" in
                  (row ++ [cell])%list
              | None => (row ++ ["[dim]N/A[/dim]"])%list
              end)
           (BenchmarkRun.endpoints run) row in
       add_row table row)
    (BenchmarkRun.test_files run) table.

(** Create table showing memory usage. *)
Definition create_memory_table (run : BenchmarkRun.t) : Table :=
  let table := new_table "Memory Usage (Delta)" "bold cyan" in
  let table := add_column table "File Size" (Some "dim") "left" 12 in
  let table :=
    fold_left
      (fun table endpoint =>
         let endpoint_name := Text.replace "/upload/" "" endpoint in
         add_column table endpoint_name None "right" 20)
      (BenchmarkRun.endpoints run) table in
  fold_left
    (fun table test =>
       let row := [FileSizeTest.file_size_label test] in
       let row :=
         fold_left
           (fun row endpoint =>
              let endpoint_name := Text.replace "/upload/" "" endpoint in
              let metrics := FileSizeTest.results test !! endpoint_name in
              match metrics with
              | Some metrics =>
                  let memory_delta := EndpointMetrics.memory_delta_mb metrics in
                  let cell :=
                    if Qlt_le_dec 0 memory_delta then
                      "[red]+" +:+ PyFloat.format_fixed 2 memory_delta +:+ " MB[/red]"
                    else if Qlt_le_dec memory_delta 0 then
                      "[green]" +:+ PyFloat.format_fixed 2 memory_delta +:+ " MB[/green]"
                    else
                      PyFloat.format_fixed 2 memory_delta +:+ " MB" in
                  (row ++ [cell])%list
              | None => (row ++ ["[dim]N/A[/dim]"])%list
              end)
           (BenchmarkRun.endpoints run) row in
       add_row table row)
    (BenchmarkRun.test_files run) table.

(** What the console is asked to show: marked-up text, an empty line, a
    panel around styled text, or a table. *)
Inductive Renderable : Type :=
| Markup (text : string)
| Blank
| PanelOf (text : list (string * string)) (border_style : string)
| TableOf (table : Table).

(** The state of the viewer: the content of [RESULTS_FILE] ([None] while
    the file does not exist) and what the console was asked to show. *)
Record State : Type := {
  results_file : option json;
  console : list Renderable
}.

(** [console.print(...)]. *)
Definition console_print (r : Renderable) : M State unit :=
  modify (fun s => {| results_file := results_file s; console := console s ++ [r] |}).

(** How [main] ends: it returns, or [sys.exit] leaves it with a status. *)
Inductive Exit : Type :=
| Returned
| SystemExit (code : Z).

(** Load benchmark results from JSON file. *)
Definition load_results : M State (option BenchmarkHistory.t) :=
  stored ← gets results_file;
  match stored with
  | None => mret None
  | Some j =>
      match BenchmarkHistory.model_validate_json j with
      | Some h => mret (Some h)
      | None => raise (ValidationError "validation error for BenchmarkHistory")
      end
  end.

(** Visualize a single benchmark run. *)
Definition visualize_run (run : BenchmarkRun.t) : M State unit :=
  let title := [("FastAPI File Upload Benchmark Results" +:+ Client.nl, "bold white")] in
  let title :=
    (title ++ [("Run: " +:+ Datetime.strftime (BenchmarkRun.timestamp run), "dim")])%list in
  console_print (PanelOf title "blue");;
  console_print Blank;;
  console_print (TableOf (create_total_timing_table run));;
  console_print Blank;;
  console_print (TableOf (create_memory_table run));;
  console_print Blank.

(** Main entry point. *)
Definition main : M State Exit :=
  history ← load_results;
  let no_results :=
    console_print (Markup "[red]No benchmark results found.[/red]");;
    console_print (Markup "Run benchmarks with: [cyan]python client.py[/cyan]");;
    mret (SystemExit 1) in
  match history with
  | None => no_results
  | Some history =>
      match BenchmarkHistory.runs history with
      | [] => no_results
      | _ =>
          let latest_run := BenchmarkHistory.get_latest history in
          match latest_run with
          | None =>
              console_print (Markup "[red]No benchmark runs available.[/red]");;
              mret (SystemExit 1)
          | Some latest_run =>
              visualize_run latest_run;;
              (if (1 <? Z.of_nat (length (BenchmarkHistory.runs history)))%Z then
                 console_print Blank;;
                 console_print
                   (Markup ("[dim]Total runs available: " +:+
                            pretty (length (BenchmarkHistory.runs history)) +:+ "[/dim]"));;
                 console_print
                   (Markup "[dim]Showing latest run. Edit this script to compare multiple runs.[/dim]")
               else mret tt);;
              mret Returned
          end
      end
  end.

(** The viewer started on the store a client left. *)
Definition started (s : Client.State) : State :=
  {| results_file := Client.results_file s; console := [] |}.

(** The text of a cell for an absent result. *)
Definition NOT_AVAILABLE : string := "[dim]N/A[/dim]".

(** The text of the cells for a result that is there. *)
Definition timing_cell (metrics : EndpointMetrics.t) : string :=
  PyFloat.format_fixed 4 (EndpointMetrics.total_duration_seconds metrics) +:+ "s (" +:+
  PyFloat.format_fixed 1 (EndpointMetrics.total_throughput_mbps metrics) +:+ "MB/s)".

Definition memory_cell (metrics : EndpointMetrics.t) : string :=
  let memory_delta := EndpointMetrics.memory_delta_mb metrics in
  if Qlt_le_dec 0 memory_delta then
    "[red]+" +:+ PyFloat.format_fixed 2 memory_delta +:+ " MB[/red]"
  else if Qlt_le_dec memory_delta 0 then
    "[green]" +:+ PyFloat.format_fixed 2 memory_delta +:+ " MB[/green]"
  else
    PyFloat.format_fixed 2 memory_delta +:+ " MB".

(** A text that does not start with an opening bracket. *)
Definition plain (s : string) : Prop :=
  exists c rest, s = String c rest /\ c <> "["%char.

(** A table laid out for a run: a first column for the file size and one
    column for each endpoint of the run, in their order and under their
    names; one row for each test of the run, in their order, with as many
    cells as there are columns, the first the label of the test; and in
    the column of an endpoint the text for an absent result exactly when
    the test has no result under the name of that endpoint. *)
Definition laid_out (run : BenchmarkRun.t) (table : Table) : Prop :=
  header <$> columns table
  = "File Size" :: (Client.endpoint_name <$> BenchmarkRun.endpoints run) /\
  length (rows table) = length (BenchmarkRun.test_files run) /\
  Forall (fun row => length row = length (columns table)) (rows table) /\
  forall i test,
    BenchmarkRun.test_files run !! i = Some test ->
    exists row,
      rows table !! i = Some row /\
      row !! 0 = Some (FileSizeTest.file_size_label test) /\
      forall j endpoint,
        BenchmarkRun.endpoints run !! j = Some endpoint ->
        exists cell,
          row !! S j = Some cell /\
          (cell = NOT_AVAILABLE <->
           FileSizeTest.results test !! Client.endpoint_name endpoint = None).

(** The column of an endpoint. *)
Definition endpoint_column (endpoint : string) : Column :=
  {| header := Client.endpoint_name endpoint; style := None;
     justify := "right"; width := 20 |}.

(** The row of a test: its label, then for each endpoint of the run the
    cell of the result under its name, or the text for an absent
    result. *)
Definition row_of (cell : EndpointMetrics.t -> string) (run : BenchmarkRun.t)
    (test : FileSizeTest.t) : list string :=
  FileSizeTest.file_size_label test ::
  ((fun endpoint =>
      from_option cell NOT_AVAILABLE
        (FileSizeTest.results test !! Client.endpoint_name endpoint))
   <$> BenchmarkRun.endpoints run).

(** What [visualize_run] asks the console to show for a run. *)
Definition shown (run : BenchmarkRun.t) : list Renderable :=
  [ PanelOf [ ("FastAPI File Upload Benchmark Results" +:+ Client.nl, "bold white");
              ("Run: " +:+ Datetime.strftime (BenchmarkRun.timestamp run), "dim") ] "blue";
    Blank;
    TableOf (create_total_timing_table run);
    Blank;
    TableOf (create_memory_table run);
    Blank ].

(** The state once the console has been asked to show [rs]. *)
Definition showing (rs : list Renderable) (s : State) : State :=
  {| results_file := results_file s; console := console s ++ rs |}.

(** What is shown when there is nothing to show. *)
Definition NO_RESULTS : list Renderable :=
  [ Markup "[red]No benchmark results found.[/red]";
    Markup "Run benchmarks with: [cyan]python client.py[/cyan]" ].

(** What follows the tables when the history holds [n] runs. *)
Definition footer (n : nat) : list Renderable :=
  if (1 <? Z.of_nat n)%Z then
    [ Blank;
      Markup ("[dim]Total runs available: " +:+ pretty n +:+ "[/dim]");
      Markup "[dim]Showing latest run. Edit this script to compare multiple runs.[/dim]" ]
  else [].

(** The line of the branch taken when a history with runs has no latest
    run. *)
Definition NO_RUNS : Renderable := Markup "[red]No benchmark runs available.[/red]".

End Visualize.

(* ===================================================================== *)
(** * plot_large_files.py                                                   *)
(* ===================================================================== *)

Module PlotLargeFiles.

Definition RESULTS_FILE : string := "benchmark_results.json".
Definition OUTPUT_DIR : string := "plots".

(** One call of [ax.bar]: the positions, the heights, the width, the
    label and the colour of a series of bars. *)
Record Bars : Type := {
  xs : list Q;
  heights : list Q;
  bar_width : Q;
  label : string;
  color : string
}.

(** One of the three charts.  (The fixed settings: font sizes, the legend,
    the grid and the lower limit of the y axis, are left out.) *)
Record Axes : Type := {
  bars : list Bars;
  xlabel : string;
  ylabel : string;
  title : string;
  xticks : list Z;
  xticklabels : list string
}.

(** A figure: its title and its charts, from top to bottom. *)
Record Figure : Type := {
  suptitle : string;
  axes : list Axes
}.

(** The state of the plotting script: the content of [RESULTS_FILE], what
    was printed, and the figures saved, by path. *)
Record State : Type := {
  results_file : option json;
  stdout : list string;
  saved : gmap string Figure
}.

(** [print(text)]. *)
Definition print (text : string) : M State unit :=
  modify (fun s => {| results_file := results_file s;
                      stdout := stdout s ++ [text +:+ Client.nl];
                      saved := saved s |}).

(** [plt.savefig(output_file, ...)]. *)
Definition savefig (output_file : string) (fig : Figure) : M State unit :=
  modify (fun s => {| results_file := results_file s;
                      stdout := stdout s;
                      saved := <[output_file := fig]> (saved s) |}).

(** The history in the results file, [None] when there is no file. *)
Definition load_results : M State (option BenchmarkHistory.t) :=
  stored ← gets results_file;
  match stored with
  | None => mret None
  | Some j =>
      match BenchmarkHistory.model_validate_json j with
      | Some h => mret (Some h)
      | None => raise (ValidationError "validation error for BenchmarkHistory")
      end
  end.

(** [data[endpoint].append(value)]. *)
Definition append_to (data : gmap string (list Q)) (endpoint : string) (value : Q)
    : gmap string (list Q) :=
  <[endpoint := (default [] (data !! endpoint) ++ [value])%list]> data.

(** [{ep: [] for ep in endpoints}]. *)
Definition empty_series (endpoints : list string) : gmap string (list Q) :=
  list_to_map ((fun ep => (ep, [])) <$> endpoints).

(** The two nested loops that fill the three dicts of series: for each
    test, for each endpoint, the metrics of the test or zeros. *)
Definition collect (large_file_tests : list FileSizeTest.t) (endpoints : list string)
    : gmap string (list Q) * gmap string (list Q) * gmap string (list Q) :=
  let throughput_data := empty_series endpoints in
  let memory_data := empty_series endpoints in
  let duration_data := empty_series endpoints in
  fold_left
    (fun data test =>
       fold_left
         (fun '(throughput_data, memory_data, duration_data) endpoint =>
            let metrics := FileSizeTest.results test !! endpoint in
            match metrics with
            | Some metrics =>
                (append_to throughput_data endpoint
                   (EndpointMetrics.total_throughput_mbps metrics),
                 append_to memory_data endpoint
                   (EndpointMetrics.memory_delta_mb metrics),
                 append_to duration_data endpoint
                   (EndpointMetrics.total_duration_seconds metrics))
            | None =>
                (append_to throughput_data endpoint 0%Q,
                 append_to memory_data endpoint 0%Q,
                 append_to duration_data endpoint 0%Q)
            end)
         endpoints data)
    large_file_tests
    (throughput_data, memory_data, duration_data).

(** The colours of the series, taken in turn. *)
Definition colors : list string :=
  ["#1f77b4"; "#ff7f0e"; "#2ca02c"; "#d62728"; "#9467bd"].

(** The loop [for idx, endpoint in enumerate(endpoints): ax.bar(...)] of
    each of the three charts.  (Every endpoint is a key of the dict, which
    was built from the same list, so that [data[endpoint]] cannot
    fail.) *)
Definition bar_chart (endpoints : list string) (x_pos : list Z) (width : Q)
    (data : gmap string (list Q)) : list Bars :=
  imap
    (fun idx endpoint =>
       let offset :=
         ((inject_Z (Z.of_nat idx) - inject_Z (Z.of_nat (length endpoints)) / 2) * width)%Q in
       {| xs := (fun x => (inject_Z x + offset)%Q) <$> x_pos;
          heights := default [] (data !! endpoint);
          bar_width := width;
          label := endpoint;
          color := default "" (colors !! (idx mod length colors)%nat) |})
    endpoints.

(** The script: the latest run of the history, its tests of 128 MiB and
    more, the three dicts of series, and the figure of three bar charts,
    which is saved.  The width of a bar, 0.15, is taken as the decimal it
    is written as.  (Directories, the size and the resolution of the
    figure and the closing of the figures are not modelled.) *)
Definition plot_large_files_performance : M State unit :=
  history ← load_results;
  let no_results :=
    print "No benchmark results found. Run benchmarks with: python client.py" in
  match history with
  | None => no_results
  | Some history =>
      match BenchmarkHistory.runs history with
      | [] => no_results
      | _ =>
          let latest_run := BenchmarkHistory.get_latest history in
          match latest_run with
          | None => print "No benchmark runs available."
          | Some latest_run =>
              let large_file_tests :=
                filter (fun test => (128 * 1024 * 1024 <= FileSizeTest.file_size_bytes test)%Z)
                       (BenchmarkRun.test_files latest_run) in
              match large_file_tests with
              | [] => print "No test results for files 128MB or larger."
              | _ =>
                  let file_labels := FileSizeTest.file_size_label <$> large_file_tests in
                  let endpoints :=
                    (fun ep => Text.replace "/upload/" "" ep)
                    <$> BenchmarkRun.endpoints latest_run in
                  let '(throughput_data, memory_data, duration_data) :=
                    collect large_file_tests endpoints in
                  let x_pos := seqZ 0 (Z.of_nat (length file_labels)) in
                  let width := (15 # 100)%Q in
                  let ax1 :=
                    {| bars := bar_chart endpoints x_pos width throughput_data;
                       xlabel := "File Size";
                       ylabel := "Throughput (MB/s)";
                       title := "Upload Throughput";
                       xticks := x_pos;
                       xticklabels := file_labels |} in
                  let ax2 :=
                    {| bars := bar_chart endpoints x_pos width memory_data;
                       xlabel := "File Size";
                       ylabel := "Memory Delta (MB)";
                       title := "Memory Usage (RSS Delta)";
                       xticks := x_pos;
                       xticklabels := file_labels |} in
                  let ax3 :=
                    {| bars := bar_chart endpoints x_pos width duration_data;
                       xlabel := "File Size";
                       ylabel := "Duration (seconds)";
                       title := "Total Request Duration";
                       xticks := x_pos;
                       xticklabels := file_labels |} in
                  let fig :=
                    {| suptitle :=
                         "Large File Upload Performance (128MB+)" +:+ Client.nl +:+
                         "Run: " +:+ Datetime.strftime (BenchmarkRun.timestamp latest_run);
                       axes := [ax1; ax2; ax3] |} in
                  let output_file := OUTPUT_DIR +:+ "/" +:+ "large_files_performance.png" in
                  savefig output_file fig;;
                  print ("Plot saved to " +:+ output_file)
              end
          end
      end
  end.

(** The script started on the store a client left. *)
Definition started (s : Client.State) : State :=
  {| results_file := Client.results_file s; stdout := []; saved := ∅ |}.

(** The tests of a run that are plotted: those of 128 MiB and more. *)
Definition large (run : BenchmarkRun.t) : list FileSizeTest.t :=
  filter (fun test => (128 * 1024 * 1024 <= FileSizeTest.file_size_bytes test)%Z)
         (BenchmarkRun.test_files run).

(** The series of a quantity for the results filed under [name]: for each
    test, in order, the quantity of its result under that name, or zero
    when it has none. *)
Definition series (quantity : EndpointMetrics.t -> Q) (tests : list FileSizeTest.t)
    (name : string) : list Q :=
  (fun test => from_option quantity 0%Q (FileSizeTest.results test !! name)) <$> tests.

(** The two nested loops as they act on one of the three dicts, that of
    [quantity]. *)
Definition gather (quantity : EndpointMetrics.t -> Q) (tests : list FileSizeTest.t)
    (endpoints : list string) (data : gmap string (list Q)) : gmap string (list Q) :=
  fold_left
    (fun data test =>
       fold_left
         (fun data endpoint =>
            append_to data endpoint
              (from_option quantity 0%Q (FileSizeTest.results test !! endpoint)))
         endpoints data)
    tests data.

(** A chart that plots a quantity of a run: the ticks are the plotted
    tests, numbered from zero and labelled with their sizes, and there is
    one series of bars for each endpoint of the run, in their order, under
    its name, holding the series of the quantity with one position for
    each height. *)
Definition charts (run : BenchmarkRun.t) (quantity : EndpointMetrics.t -> Q)
    (ax : Axes) : Prop :=
  xticklabels ax = FileSizeTest.file_size_label <$> large run /\
  xticks ax = seqZ 0 (Z.of_nat (length (large run))) /\
  Forall2 (fun endpoint b =>
             label b = Client.endpoint_name endpoint /\
             heights b = series quantity (large run) (Client.endpoint_name endpoint) /\
             length (xs b) = length (heights b))
          (BenchmarkRun.endpoints run) (bars ax).

(** The state once [text] has been printed. *)
Definition printed (text : string) (s : State) : State :=
  {| results_file := results_file s;
     stdout := stdout s ++ [text +:+ Client.nl];
     saved := saved s |}.

(** The two messages of a script that plots nothing, and the path of the
    figure it saves otherwise. *)
Definition NO_RESULTS : string :=
  "No benchmark results found. Run benchmarks with: python client.py".

Definition NO_LARGE_FILES : string := "No test results for files 128MB or larger.".

Definition OUTPUT_FILE : string := "plots/large_files_performance.png".

End PlotLargeFiles.

(* ===================================================================== *)
(** * The test matrix as the specification words it                         *)
(* ===================================================================== *)

Module Spec.

(** The units, powers of 1024, with their suffixes. *)
Definition UNITS : list (Z * string) :=
  [ (1, "B"); (1024, "KB"); (1024 ^ 2, "MB"); (1024 ^ 3, "GB") ]%Z.

(** The largest unit not exceeding [size]. *)
Definition largest_unit (size : Z) : option (Z * string) :=
  last (filter (fun u => (u.1 <=? size)%Z = true) UNITS).

(** The size integer-divided by that unit, followed by the suffix. *)
Definition label (size : Z) : string :=
  match largest_unit size with
  | Some (u, suffix) => pretty (size / u)%Z +:+ suffix
  | None => ""
  end.

(** The pairs (label, 1024 * 2^k) for k = 0..20. *)
Definition matrix : list (string * Z) :=
  (fun k => let size := (1024 * 2 ^ Z.of_nat k)%Z in (label size, size)) <$> seq 0 21.

End Spec.

(* ===================================================================== *)
(** * Sample worlds and inputs                                              *)
(* ===================================================================== *)

Module Samples.

(** A server whose clock reads the instant, in seconds, and whose
    resident set grows from 100 MiB to 164 MiB while the framework
    buffers the body, after the middleware took its sample. *)
Definition growing : Server.World :=
  {| Server.clock := fun i => inject_Z (Z.of_nat i);
     Server.rss := fun i => if (i <=? 1)%nat then 104857600%Z else 171966464%Z |}.

(** A multipart upload of three bytes to the buffered sync route,
    arriving in two chunks. *)
Definition buffered_upload : Server.Request :=
  {| Server.path := "/upload/sync-file";
     Server.wire := [[x2d; x2d; x61]; [x01; x02; x03; x0d; x0a]];
     Server.form := Some [("file", [x01; x02; x03])] |}.

(** A raw upload of one MiB, arriving in four chunks of 256 KiB. *)
Definition mebibyte_stream : Server.Request :=
  {| Server.path := "/upload/async-stream";
     Server.wire := replicate 4 (replicate (Z.to_nat Server.CHUNK_SIZE) x00);
     Server.form := None |}.

(** A valid body for a response of the server. *)
Definition server_response : ServerResponse.t :=
  ServerResponse.mk "sync-file" 3 (3 / 1024 / 1024)%Q (1 # 1000)%Q 100%Q 164%Q 64%Q.

Definition response_with (status : Z) (hs : list (string * string)) : Http.Response :=
  {| status_code := status;
     content := ServerResponse.model_dump_json server_response;
     headers := list_to_map hs |}.

(** A client whose clock reads the instant, in seconds, and whose network
    answers 500 on the incremental sync route, times out on the raw
    streaming route and answers 200, with both headers, elsewhere. *)
Definition flaky : Client.World :=
  {| Client.clock := fun i => inject_Z (Z.of_nat i);
     Client.wall_clock := fun _ => Datetime.mk 2024 1 15 10 30 0 123456;
     Client.random_byte := fun _ _ => x00;
     Client.network := fun _ request =>
       if String.eqb (url request) "http://localhost:8000/upload/sync-uploadfile"
       then Responded (response_with 500 [])
       else if String.eqb (url request) "http://localhost:8000/upload/async-stream"
       then Failed (TimeoutException "timed out")
       else Responded (response_with 200 [("X-Total-Duration", "0.25");
                                          ("X-Total-Memory-Delta", "64.0")]) |}.

(** A client whose network answers 200 with the given headers. *)
Definition answering (hs : list (string * string)) : Client.World :=
  {| Client.clock := fun i => inject_Z (Z.of_nat i);
     Client.wall_clock := fun _ => Datetime.mk 2024 1 15 10 30 0 123456;
     Client.random_byte := fun _ _ => x00;
     Client.network := fun _ _ => Responded (response_with 200 hs) |}.

(** The client at instant 0, with the 1KB test file in place (three bytes
    stand for its content) and no results file. *)
Definition fresh : Client.State :=
  {| Client.now := 0;
     Client.stdout := [];
     Client.files := {[ "test_files/test_1KB.bin" := [x01; x02; x03] ]};
     Client.results_file := None;
     Client.sent := [] |}.

(** Two runs of the orchestrator, a second apart; in the first the raw
    streaming strategy failed for the one file size and has no entry. *)
Definition first_run : BenchmarkRun.t :=
  BenchmarkRun.make (Datetime.mk 2024 1 15 10 30 0 123456)
    [ FileSizeTest.mk "1KB" 1024
        {[ "sync-file" :=
             Client.merged "/upload/sync-file" server_response (1 # 2) (1 # 4) 64 ]} ]
    Client.ENDPOINTS.


(** What the sample server answers to the sample upload, and a client
    whose network brings that answer back. *)
Definition served : Http.Response :=
  match (Server.serve growing 1 1 4 buffered_upload (Server.initial 0)).1 with
  | Ok r => r
  | _ => response_with 500 []
  end.

Definition relaying : Client.World :=
  {| Client.clock := fun i => inject_Z (Z.of_nat i);
     Client.wall_clock := fun _ => Datetime.mk 2024 1 15 10 30 0 123456;
     Client.random_byte := fun _ _ => x00;
     Client.network := fun _ _ => Responded served |}.


(** A run with one test of 128 MiB, for which only the buffered sync
    strategy has a result, and a plotting script started on a store that
    holds that run alone. *)
Definition large_run : BenchmarkRun.t :=
  BenchmarkRun.make (Datetime.mk 2024 1 15 10 30 0 123456)
    [ FileSizeTest.mk "128MB" 134217728
        {[ "sync-file" :=
             Client.merged "/upload/sync-file" server_response (1 # 2) (1 # 4) 64 ]} ]
    Client.ENDPOINTS.

Definition plotting : PlotLargeFiles.State :=
  {| PlotLargeFiles.results_file :=
       Some (BenchmarkHistory.model_dump_json (BenchmarkHistory.mk [large_run]));
     PlotLargeFiles.stdout := [];
     PlotLargeFiles.saved := ∅ |}.

End Samples.

(* ===================================================================== *)
(** * Properties of the codecs                                              *)
(* ===================================================================== *)

Section TextFacts.

Lemma digit_of_digit_char d : (d < 10)%N -> Text.digit_of (Text.digit_char d) = Some d.
Proof.
  intros Hd. unfold Text.digit_of, Text.digit_char.
  rewrite N_ascii_embedding by lia.
  replace ((48 <=? 48 + d)%N) with true by (symmetry; apply N.leb_le; lia).
  replace ((48 + d <=? 57)%N) with true by (symmetry; apply N.leb_le; lia).
  simpl. f_equal. lia.
Qed.

(** Reading back [w] digits written by [fixed_digits]. *)
Lemma read_fixed_digits w : forall n acc rest,
  (n < 10 ^ N.of_nat w)%N ->
  Text.read_digits w acc (Text.fixed_digits w n +:+ rest)
  = Some ((acc * 10 ^ N.of_nat w + n)%N, rest).
Proof.
  induction w as [|w IH]; intros n acc rest Hn.
  - simpl in *. f_equal. f_equal. lia.
  - assert (Hp : (0 < 10 ^ N.of_nat w)%N) by (apply N.neq_0_lt_0, N.pow_nonzero; lia).
    assert (Hs : (10 ^ N.of_nat (S w) = 10 * 10 ^ N.of_nat w)%N).
    { rewrite Nat2N.inj_succ, N.pow_succ_r'. reflexivity. }
    change (Text.read_digits (S w) acc (Text.fixed_digits (S w) n +:+ rest))
      with (match Text.digit_of (Text.digit_char (n / 10 ^ N.of_nat w)) with
            | Some d => Text.read_digits w (acc * 10 + d)
                          (Text.fixed_digits w (n mod 10 ^ N.of_nat w) +:+ rest)
            | None => None
            end).
    rewrite digit_of_digit_char.
    2:{ apply N.Div0.div_lt_upper_bound. lia. }
    rewrite IH by (apply N.mod_lt; lia).
    f_equal. f_equal. rewrite Hs.
    pose proof (N.div_mod n (10 ^ N.of_nat w) ltac:(lia)). nia.
Qed.

Lemma read_fixed_digits_0 w n rest :
  (n < 10 ^ N.of_nat w)%N ->
  Text.read_digits w 0 (Text.fixed_digits w n +:+ rest) = Some (n, rest).
Proof. intros Hn. rewrite read_fixed_digits by exact Hn. reflexivity. Qed.

Lemma read_char_same c rest : Text.read_char c (String c rest) = Some rest.
Proof. simpl. rewrite Ascii.eqb_refl. reflexivity. Qed.

Lemma read_char_app c rest :
  Text.read_char c (String c EmptyString +:+ rest) = Some rest.
Proof. simpl. rewrite Ascii.eqb_refl. reflexivity. Qed.

End TextFacts.

Section DatetimeFacts.

Import Datetime.

Local Opaque Text.fixed_digits Text.read_digits Text.read_char N.pow.

(** The ISO text of a datetime reads back as that datetime. *)
Lemma fromisoformat_isoformat d :
  valid d = true -> fromisoformat (isoformat d) = Some d.
Proof.
  destruct d as [y mo da h mi se us]. intros Hv.
  pose proof Hv as Hv'. unfold valid in Hv'. cbn [year month day hour minute second microsecond] in Hv'.
  repeat (apply andb_prop in Hv' as [Hv' ?]).
  repeat match goal with
         | H : (_ <=? _)%N = true |- _ => apply N.leb_le in H
         | H : (_ <? _)%N = true |- _ => apply N.ltb_lt in H
         end.
  assert (Hdim : (days_in_month y mo <= 31)%N).
  { unfold days_in_month. repeat case_match; lia. }
  unfold fromisoformat, isoformat.
  cbn [year month day hour minute second microsecond].
  rewrite (read_fixed_digits_0 4) by (change (10 ^ N.of_nat 4)%N with 10000%N; lia).
  cbn [mbind option_bind]. rewrite read_char_app. cbn [mbind option_bind].
  rewrite (read_fixed_digits_0 2) by (change (10 ^ N.of_nat 2)%N with 100%N; lia).
  cbn [mbind option_bind]. rewrite read_char_app. cbn [mbind option_bind].
  rewrite (read_fixed_digits_0 2) by (change (10 ^ N.of_nat 2)%N with 100%N; lia).
  cbn [mbind option_bind]. rewrite read_char_app. cbn [mbind option_bind].
  rewrite (read_fixed_digits_0 2) by (change (10 ^ N.of_nat 2)%N with 100%N; lia).
  cbn [mbind option_bind]. rewrite read_char_app. cbn [mbind option_bind].
  rewrite (read_fixed_digits_0 2) by (change (10 ^ N.of_nat 2)%N with 100%N; lia).
  cbn [mbind option_bind]. rewrite read_char_app. cbn [mbind option_bind].
  rewrite (read_fixed_digits_0 2) by (change (10 ^ N.of_nat 2)%N with 100%N; lia).
  cbn [mbind option_bind].
  destruct (us =? 0)%N eqn:Hus.
  - apply N.eqb_eq in Hus. subst us. cbn [mbind option_bind].
    rewrite Hv. reflexivity.
  - change ("." +:+ Text.fixed_digits 6 us)
      with (String "." (Text.fixed_digits 6 us +:+ "")).
    cbn [mbind option_bind].
    rewrite read_char_same. cbn [mbind option_bind].
    rewrite (read_fixed_digits_0 6) by (change (10 ^ N.of_nat 6)%N with 1000000%N; lia).
    cbn [mbind option_bind]. rewrite Hv. reflexivity.
Qed.

End DatetimeFacts.

Section JsonFacts.

(** Inserting the members of a list one after the other gives the map of
    the list read from the end. *)
Lemma fold_left_insert_list_to_map {A} (kvs : list (string * A)) :
  fold_left (fun acc kv => <[kv.1 := kv.2]> acc) kvs (∅ : gmap string A)
  = list_to_map (reverse kvs).
Proof.
  rewrite <- fold_left_rev_right. unfold reverse. rewrite <- rev_alt.
  induction (rev kvs) as [|[k v] l IH]; [reflexivity|].
  simpl. rewrite IH. reflexivity.
Qed.

Lemma as_dict_of_dict {A} (f : json -> option A) (g : A -> json) (m : gmap string A) :
  (forall v, f (g v) = Some v) -> as_dict f (of_dict g m) = Some m.
Proof.
  intros Hfg. unfold as_dict, of_dict.
  rewrite (mapM_fmap_Some _ (fun kv : string * A => (kv.1, g kv.2))).
  - cbn [mbind option_bind]. f_equal.
    rewrite fold_left_insert_list_to_map.
    rewrite <- (list_to_map_to_list m) at 2.
    apply list_to_map_proper.
    + rewrite fmap_reverse, reverse_Permutation. apply NoDup_fst_map_to_list.
    + apply reverse_Permutation.
  - intros [k v]. simpl. rewrite Hfg. reflexivity.
Qed.

Lemma as_list_fmap {A} (f : json -> option A) (g : A -> json) (l : list A) :
  Forall (fun x => f (g x) = Some x) l -> as_list f (JArr (g <$> l)) = Some l.
Proof. intros H. simpl. apply mapM_fmap_Forall_Some, H. Qed.

Lemma ServerResponse_roundtrip r :
  ServerResponse.model_validate_json (ServerResponse.model_dump_json r) = Some r.
Proof. destruct r. reflexivity. Qed.

Lemma EndpointMetrics_roundtrip r :
  EndpointMetrics.model_validate_json (EndpointMetrics.model_dump_json r) = Some r.
Proof. destruct r. reflexivity. Qed.

Lemma FileSizeTest_roundtrip r :
  FileSizeTest.model_validate_json (FileSizeTest.model_dump_json r) = Some r.
Proof.
  destruct r as [l b m]. unfold FileSizeTest.model_dump_json, FileSizeTest.model_validate_json.
  cbn [FileSizeTest.file_size_label FileSizeTest.file_size_bytes FileSizeTest.results].
  change (member "file_size_label" _) with (Some (JStr l)).
  change (member "file_size_bytes" _) with (Some (JInt b)).
  change (member "results" _) with (Some (of_dict EndpointMetrics.model_dump_json m)).
  cbn [mbind option_bind as_str as_int].
  rewrite as_dict_of_dict by apply EndpointMetrics_roundtrip.
  reflexivity.
Qed.

Lemma BenchmarkRun_roundtrip r :
  BenchmarkRun.valid r ->
  BenchmarkRun.model_validate_json (BenchmarkRun.model_dump_json r) = Some r.
Proof.
  destruct r as [t fs es sm]. unfold BenchmarkRun.valid. cbn [BenchmarkRun.timestamp]. intros Ht.
  unfold BenchmarkRun.model_dump_json, BenchmarkRun.model_validate_json.
  cbn [BenchmarkRun.timestamp BenchmarkRun.test_files BenchmarkRun.endpoints BenchmarkRun.summary].
  change (member "timestamp" _) with (Some (JStr (Datetime.isoformat t))).
  change (member "test_files" _) with (Some (JArr (FileSizeTest.model_dump_json <$> fs))).
  change (member "endpoints" _) with (Some (JArr (JStr <$> es))).
  change (member "summary" _) with (Some (of_dict (of_dict JFloat) sm)).
  cbn [mbind option_bind as_str from_option].
  rewrite (fromisoformat_isoformat t Ht). cbn [mbind option_bind].
  rewrite (as_list_fmap FileSizeTest.model_validate_json FileSizeTest.model_dump_json)
    by (apply Forall_true, FileSizeTest_roundtrip).
  cbn [mbind option_bind].
  rewrite (as_list_fmap as_str JStr) by (apply Forall_true; reflexivity).
  cbn [mbind option_bind].
  rewrite as_dict_of_dict.
  - reflexivity.
  - intros v. apply as_dict_of_dict. reflexivity.
Qed.

Lemma BenchmarkHistory_roundtrip h :
  Forall BenchmarkRun.valid (BenchmarkHistory.runs h) ->
  BenchmarkHistory.model_validate_json (BenchmarkHistory.model_dump_json h) = Some h.
Proof.
  destruct h as [rs]. cbn [BenchmarkHistory.runs]. intros H.
  unfold BenchmarkHistory.model_dump_json, BenchmarkHistory.model_validate_json.
  cbn [BenchmarkHistory.runs].
  change (member "runs" _) with (Some (JArr (BenchmarkRun.model_dump_json <$> rs))).
  cbn [mbind option_bind].
  rewrite as_list_fmap.
  - reflexivity.
  - eapply Forall_impl; [exact H|]. intros r Hr. apply BenchmarkRun_roundtrip, Hr.
Qed.

End JsonFacts.

(* ===================================================================== *)
(** * The test matrix                                                       *)
(* ===================================================================== *)

Section Matrix.

Import Client.

(** More fuel does not change what the loop returns. *)
Lemma FILE_SIZES_loop_more fuel : forall acc size r,
  FILE_SIZES_loop fuel acc size = Some r ->
  FILE_SIZES_loop (S fuel) acc size = Some r.
Proof.
  induction fuel as [|fuel IH]; intros acc size r H; [discriminate|].
  revert H. cbn [FILE_SIZES_loop].
  destruct (size <=? 1024 * 1024 * 1024)%Z; [|trivial].
  intros H. apply IH in H. exact H.
Qed.

Lemma FILE_SIZES_loop_enough fuel fuel' acc size r :
  (fuel <= fuel')%nat ->
  FILE_SIZES_loop fuel acc size = Some r ->
  FILE_SIZES_loop fuel' acc size = Some r.
Proof.
  induction 1 as [|m Hle IH]; [trivial|].
  intros H. apply FILE_SIZES_loop_more, IH, H.
Qed.

(** The label the loop computes is the one the specification words, for
    every positive size. *)
Lemma source_label_is_spec_label size :
  (1 <= size)%Z ->
  (if (size <? 1024)%Z then pretty size +:+ "B"
   else if (size <? 1024 * 1024)%Z then pretty (size / 1024)%Z +:+ "KB"
   else if (size <? 1024 * 1024 * 1024)%Z then pretty (size / (1024 * 1024))%Z +:+ "MB"
   else pretty (size / (1024 * 1024 * 1024))%Z +:+ "GB")
  = Spec.label size.
Proof.
  intros Hs. unfold Spec.label, Spec.largest_unit, Spec.UNITS.
  change (1024 ^ 2)%Z with 1048576%Z. change (1024 ^ 3)%Z with 1073741824%Z.
  change (1024 * 1024 * 1024)%Z with 1073741824%Z.
  change (1024 * 1024)%Z with 1048576%Z.
  destruct (size <? 1024)%Z eqn:H1; [apply Z.ltb_lt in H1 | apply Z.ltb_ge in H1];
  (destruct (size <? 1048576)%Z eqn:H2; [apply Z.ltb_lt in H2 | apply Z.ltb_ge in H2]);
  (destruct (size <? 1073741824)%Z eqn:H3; [apply Z.ltb_lt in H3 | apply Z.ltb_ge in H3]);
  try lia;
  repeat (rewrite filter_cons; cbn [fst]);
  rewrite filter_nil;
  repeat match goal with
         | |- context [(?c <=? size)%Z] =>
             first [ rewrite (proj2 (Z.leb_le c size)) by lia
                   | rewrite (proj2 (Z.leb_gt c size)) by lia ]
         end;
  repeat (case_decide; try congruence);
  cbn [last]; rewrite ?Z.div_1_r; reflexivity.
Qed.

End Matrix.

(** C7. The file-size test matrix is exactly the 21 pairs
    (label, 1024 * 2^k) for k = 0..20, from ("1KB", 1024) up to and
    including ("1GB", 1073741824), each label being the size integer-divided
    by the largest power-of-1024 unit not exceeding it followed by the unit
    suffix; the loop that builds it ends by itself, with any fuel of 22 or
    more. *)
Theorem FILE_SIZES_is_doubling_matrix (fuel : nat) :
  (22 <= fuel)%nat ->
  Client.FILE_SIZES_loop fuel [] 1024%Z = Some Spec.matrix /\
  Client.FILE_SIZES = Spec.matrix /\
  length Client.FILE_SIZES = 21%nat /\
  Client.FILE_SIZES !! 0%nat = Some ("1KB", 1024%Z) /\
  Client.FILE_SIZES !! 20%nat = Some ("1GB", 1073741824%Z) /\
  (forall k label size, Client.FILE_SIZES !! k = Some (label, size) ->
     size = (1024 * 2 ^ Z.of_nat k)%Z /\ label = Spec.label size).
Proof.
  intros Hfuel.
  assert (H22 : Client.FILE_SIZES_loop 22 [] 1024%Z = Some Spec.matrix) by (vm_compute; reflexivity).
  assert (HFS : Client.FILE_SIZES = Spec.matrix) by (vm_compute; reflexivity).
  split; [exact (FILE_SIZES_loop_enough 22 fuel _ _ _ Hfuel H22)|].
  split; [exact HFS|].
  split; [vm_compute; reflexivity|].
  split; [vm_compute; reflexivity|].
  split; [vm_compute; reflexivity|].
  intros k label size Hk. rewrite HFS in Hk. unfold Spec.matrix in Hk.
  rewrite list_lookup_fmap in Hk.
  destruct (seq 0 21 !! k) as [k'|] eqn:Hseq; [|discriminate].
  apply lookup_seq in Hseq as [-> _]. simpl in Hk. injection Hk as <- <-.
  split; reflexivity.
Qed.

Lemma FILE_SIZES_is_doubling_matrix_witness :
  (22 <= 22)%nat /\ Client.FILE_SIZES_loop 22 [] 1024%Z = Some Spec.matrix.
Proof.
  split; [lia|].
  exact (proj1 (FILE_SIZES_is_doubling_matrix 22 (le_n 22))).
Defined.

(* ===================================================================== *)
(** * Serialization round trip and the history store                        *)
(* ===================================================================== *)


Section HistoryStore.

Import Client.




End HistoryStore.


(* ===================================================================== *)
(** * The server: what a request through the middleware returns             *)
(* ===================================================================== *)

Section ServerRuns.

Import Server.

Variable w : World.

Lemma advance_advance a b s : advance a (advance b s) = advance (a + b) s.
Proof. unfold advance. cbn. f_equal. lia. Qed.

Lemma advance_0 s : advance 0 s = s.
Proof. destruct s. reflexivity. Qed.

Lemma perf_counter_run s :
  perf_counter w s = (Ok (clock w (now s)), advance 1 s).
Proof. reflexivity. Qed.

Lemma get_memory_usage_mb_run s :
  get_memory_usage_mb w s = (Ok (resident_mb w (now s)), advance 1 s).
Proof. reflexivity. Qed.

Lemma handler_shape_run name consume s m size k :
  request_start_memory s = Some m ->
  consume (advance 1 s) = (Ok size, advance (k + 1) s) ->
  handler_shape w name consume s =
    (Ok (ServerResponse.mk name size
           (PyFloat.of_int size / 1024 / 1024)%Q
           (clock w (k + 1 + now s) - clock w (now s))%Q
           m
           (resident_mb w (1 + (k + 1) + now s))
           (resident_mb w (1 + (k + 1) + now s) - m)%Q),
     advance (3 + k) s).
Proof.
  intros Hm Hc. unfold handler_shape, request_start_memory_get.
  unfold mbind, M_bind, Py.bind, gets. rewrite Hm.
  unfold mret, M_ret, Py.ret. rewrite perf_counter_run, Hc.
  rewrite perf_counter_run, get_memory_usage_mb_run.
  rewrite !advance_advance. cbn [now advance].
  replace (3 + k) with (1 + (1 + (k + 1))) by lia. reflexivity.
Qed.

Lemma upload_sync_file_shape file :
  upload_sync_file w file = handler_shape w "sync-file" (mret (len file)).
Proof. reflexivity. Qed.

Lemma upload_async_file_shape file :
  upload_async_file w file = handler_shape w "async-file" (mret (len file)).
Proof. reflexivity. Qed.

Lemma upload_sync_uploadfile_shape fuel file :
  upload_sync_uploadfile w fuel file
  = handler_shape w "sync-uploadfile" (while_chunk fuel file_read file 0).
Proof. reflexivity. Qed.

Lemma upload_async_uploadfile_shape fuel file :
  upload_async_uploadfile w fuel file
  = handler_shape w "async-uploadfile" (while_chunk fuel UploadFile_read file 0).
Proof. reflexivity. Qed.

Lemma upload_async_stream_shape stream :
  upload_async_stream w stream = handler_shape w "async-stream" (for_chunk stream 0).
Proof. reflexivity. Qed.

(** *** Consuming the body *)

Lemma len_app a b : len (a ++ b) = (len a + len b)%Z.
Proof. unfold len. rewrite length_app. lia. Qed.

(** The streaming loop adds up the lengths of the chunks, one instant a
    chunk. *)
Lemma for_chunk_run stream : forall file_size s,
  for_chunk stream file_size s
  = (Ok (file_size + len (concat stream))%Z, advance (length stream) s).
Proof.
  induction stream as [|chunk rest IH]; intros file_size s.
  - cbn [for_chunk concat length]. rewrite advance_0.
    change (len []) with 0%Z. rewrite Z.add_0_r. reflexivity.
  - cbn [for_chunk]. unfold mbind, M_bind, Py.bind, elapse, modify.
    rewrite IH, advance_advance. cbn [concat length].
    rewrite len_app, Z.add_assoc.
    replace (length rest + 1) with (S (length rest)) by lia.
    reflexivity.
Qed.

Lemma CHUNK_SIZE_pos : 0 < Z.to_nat CHUNK_SIZE.
Proof. unfold CHUNK_SIZE. lia. Qed.

(** The chunked loop, given fuel beyond the bytes left, reads the file to
    its end and returns the bytes it counted; it takes at least the
    instant of the last, empty read. *)
Lemma while_chunk_run fuel : forall f file_size s,
  remaining f < fuel ->
  exists k,
    while_chunk fuel file_read f file_size s
    = (Ok (file_size + Z.of_nat (remaining f))%Z, advance (k + 1) s).
Proof.
  induction fuel as [|fuel IH]; intros f file_size s Hfuel; [lia|].
  cbn [while_chunk]. unfold mbind, M_bind, Py.bind.
  unfold file_read at 1. unfold mbind, M_bind, Py.bind, elapse, modify, mret, M_ret, Py.ret.
  cbn [fst snd].
  pose proof CHUNK_SIZE_pos as HC.
  destruct (take (Z.to_nat CHUNK_SIZE) (drop (pos f) (data f))) as [|b chunk] eqn:Hchunk.
  - exists 0. assert (Hrem : remaining f = 0).
    { unfold remaining. apply (f_equal length) in Hchunk.
      rewrite length_take, length_drop in Hchunk. cbn in Hchunk. lia. }
    rewrite Hrem. repeat f_equal. lia.
  - assert (Hlen : length (b :: chunk) <= remaining f).
    { rewrite <- Hchunk. unfold remaining. rewrite length_take, length_drop. lia. }
    destruct (IH {| data := data f; pos := pos f + length (b :: chunk) |}
                (file_size + len (b :: chunk))%Z (advance 1 s)) as [k Hk].
    { unfold remaining in *. cbn [data pos length] in *. lia. }
    exists (S k). rewrite Hk, advance_advance.
    unfold remaining in *. cbn [data pos] in *. unfold len.
    replace (k + 1 + 1) with (S k + 1) by lia.
    f_equal. f_equal. cbn [length] in *. lia.
Qed.

Lemma while_chunk_upload_read fuel f file_size :
  while_chunk fuel UploadFile_read f file_size = while_chunk fuel file_read f file_size.
Proof. reflexivity. Qed.

(** *** The framework around a handler *)

(** What a handler of the common shape reports when the framework calls
    it at [s]: the handler is entered at instant [now s], takes its two
    clock samples at [now s] and at [k + 1 + now s], samples the memory
    one instant later, and returns one instant after that. *)
Lemma call_handler_run name consume s m size k :
  request_start_memory s = Some m ->
  consume (advance 1 (mark_entered s)) = (Ok size, advance (k + 1) (mark_entered s)) ->
  call_handler (handler_shape w name consume) s =
    (Ok (json_response
           (ServerResponse.mk name size
              (PyFloat.of_int size / 1024 / 1024)%Q
              (clock w (k + 1 + now s) - clock w (now s))%Q
              m
              (resident_mb w (1 + (k + 1) + now s))
              (resident_mb w (1 + (k + 1) + now s) - m)%Q)),
     mark_returned (advance (3 + k) (mark_entered s))).
Proof.
  intros Hm Hc. unfold call_handler.
  unfold mbind, M_bind, Py.bind, modify.
  rewrite (handler_shape_run name consume (mark_entered s) m size k Hm Hc).
  reflexivity.
Qed.

Lemma after_handler s pre k after :
  advance after (mark_returned (advance (3 + k) (mark_entered (advance pre s))))
  = left_at s (pre + now s) (k + 1 + (pre + now s)) after.
Proof. unfold left_at, advance, mark_returned, mark_entered. cbn. f_equal; f_equal; lia. Qed.

Lemma endpoint_run name consume s pre after m size k :
  request_start_memory s = Some m ->
  consume (advance 1 (mark_entered (advance pre s)))
  = (Ok size, advance (k + 1) (mark_entered (advance pre s))) ->
  (response ← call_handler (handler_shape w name consume);
   elapse after;; mret response) (advance pre s)
  = (Ok (json_response
           (ServerResponse.mk name size
              (PyFloat.of_int size / 1024 / 1024)%Q
              (clock w (k + 1 + (pre + now s)) - clock w (pre + now s))%Q
              m
              (resident_mb w (1 + (k + 1) + (pre + now s)))
              (resident_mb w (1 + (k + 1) + (pre + now s)) - m)%Q)),
     left_at s (pre + now s) (k + 1 + (pre + now s)) after).
Proof.
  intros Hm Hc.
  unfold mbind at 1. unfold M_bind, Py.bind.
  rewrite (call_handler_run name consume (advance pre s) m size k Hm Hc).
  unfold mbind, M_bind, Py.bind, elapse, modify, mret, M_ret, Py.ret.
  rewrite after_handler. reflexivity.
Qed.

(** The consumption of the body, in the form [endpoint_run] asks for. *)
Lemma consume_buffered (body : list byte) s :
  (mret (len body) : M State Z) (advance 1 s) = (Ok (len body), advance (0 + 1) s).
Proof. reflexivity. Qed.

Lemma consume_chunked fuel (body : list byte) s :
  length body < fuel ->
  exists k,
    while_chunk fuel file_read {| data := body; pos := 0 |} 0 (advance 1 s)
    = (Ok (len body), advance (k + 1) s).
Proof.
  intros Hfuel.
  destruct (while_chunk_run fuel {| data := body; pos := 0 |} 0 (advance 1 s)) as [k Hk].
  { unfold remaining. cbn. lia. }
  exists (k + 1). rewrite Hk, advance_advance.
  unfold remaining, len. cbn [data pos]. rewrite Nat.sub_0_r. reflexivity.
Qed.

Lemma consume_streamed (stream : list (list byte)) s :
  for_chunk stream 0 (advance 1 s)
  = (Ok (len (concat stream)), advance (length stream + 1) s).
Proof. rewrite for_chunk_run, advance_advance. reflexivity. Qed.

Lemma bind_elapse {A} n (k : unit -> M State A) s :
  Py.bind (elapse n) k s = k tt (advance n s).
Proof. reflexivity. Qed.

Lemma bind_assoc {S A B C} (m : M S A) (f : A -> M S B) (g : B -> M S C) s :
  Py.bind (Py.bind m f) g s = Py.bind m (fun x => Py.bind (f x) g) s.
Proof. unfold Py.bind. destruct (m s) as [[a| |] s']; reflexivity. Qed.

Lemma delivered_cases request body :
  delivered request = Some body ->
  (path request = "/upload/async-stream" /\ body = concat (wire request)) \/
  (path request ∈ FORM_ROUTES /\ form_field "file" request = Some body).
Proof.
  unfold delivered. destruct (String.eqb (path request) "/upload/async-stream") eqn:E.
  - apply String.eqb_eq in E. intros [= <-]. left. split; [exact E|reflexivity].
  - apply String.eqb_neq in E. case_bool_decide as Hin; [|discriminate].
    intros Hf. right. split; [|exact Hf].
    unfold ROUTES in Hin. unfold FORM_ROUTES.
    repeat (apply elem_of_cons in Hin as [Hin|Hin];
            [rewrite Hin; set_solver|]).
    set_solver.
Qed.

Lemma app_run before after fuel request s m body :
  delivered request = Some body ->
  length body < fuel ->
  request_start_memory s = Some m ->
  exists name pre k,
    before <= pre /\
    app w before after fuel request s =
      (Ok (json_response
             (ServerResponse.mk name (len body)
                (PyFloat.of_int (len body) / 1024 / 1024)%Q
                (clock w (k + 1 + (pre + now s)) - clock w (pre + now s))%Q
                m
                (resident_mb w (1 + (k + 1) + (pre + now s)))
                (resident_mb w (1 + (k + 1) + (pre + now s)) - m)%Q)),
       left_at s (pre + now s) (k + 1 + (pre + now s)) after).
Proof.
  intros Hd Hfuel Hm. apply delivered_cases in Hd as [[Hp ->] | [Hp Hf]].
  - exists "async-stream", before, (length (wire request)).
    split; [lia|]. unfold app. unfold mbind, M_bind. rewrite bind_elapse, Hp.
    cbv [String.eqb Ascii.eqb Bool.eqb]. rewrite upload_async_stream_shape.
    apply endpoint_run; [exact Hm|]. apply consume_streamed.
  - unfold FORM_ROUTES in Hp.
    repeat (apply elem_of_cons in Hp as [Hp|Hp]); [| | | |set_solver].
    + exists "sync-file", (length (wire request) + before), 0.
      split; [lia|]. unfold app, with_form_file. unfold mbind, M_bind.
      rewrite bind_elapse, Hp. cbv [String.eqb Ascii.eqb Bool.eqb].
      rewrite bind_assoc, bind_elapse, Hf, advance_advance, upload_sync_file_shape.
      apply endpoint_run; [exact Hm|]. apply consume_buffered.
    + exists "async-file", (length (wire request) + before), 0.
      split; [lia|]. unfold app, with_form_file. unfold mbind, M_bind.
      rewrite bind_elapse, Hp. cbv [String.eqb Ascii.eqb Bool.eqb].
      rewrite bind_assoc, bind_elapse, Hf, advance_advance, upload_async_file_shape.
      apply endpoint_run; [exact Hm|]. apply consume_buffered.
    + destruct (consume_chunked fuel body
                  (mark_entered (advance (length (wire request) + before) s)) Hfuel)
        as [k Hk].
      exists "sync-uploadfile", (length (wire request) + before), k.
      split; [lia|]. unfold app, with_form_file. unfold mbind, M_bind.
      rewrite bind_elapse, Hp. cbv [String.eqb Ascii.eqb Bool.eqb].
      rewrite bind_assoc, bind_elapse, Hf, advance_advance, upload_sync_uploadfile_shape.
      apply endpoint_run; [exact Hm|]. exact Hk.
    + destruct (consume_chunked fuel body
                  (mark_entered (advance (length (wire request) + before) s)) Hfuel)
        as [k Hk].
      exists "async-uploadfile", (length (wire request) + before), k.
      split; [lia|]. unfold app, with_form_file. unfold mbind, M_bind.
      rewrite bind_elapse, Hp. cbv [String.eqb Ascii.eqb Bool.eqb].
      rewrite bind_assoc, bind_elapse, Hf, advance_advance, upload_async_uploadfile_shape.
      apply endpoint_run; [exact Hm|]. rewrite while_chunk_upload_read. exact Hk.
Qed.

(** A request through the middleware.  The handler is entered at
    [entry], after the middleware's samples and the framework's work; it
    takes its last clock sample at [h1]; the middleware takes its last
    samples [after] instants after the handler returned. *)
Lemma serve_run before after fuel request s0 body :
  delivered request = Some body ->
  length body < fuel ->
  exists name entry h1 resp s',
    serve w before after fuel request s0 = (Ok resp, s') /\
    S (S (before + now s0)) <= entry /\ entry < h1 /\
    status_code resp = 200%Z /\
    content resp =
      ServerResponse.model_dump_json
        (ServerResponse.mk name (len body)
           (PyFloat.of_int (len body) / 1024 / 1024)%Q
           (clock w h1 - clock w entry)%Q
           (resident_mb w (S (now s0)))
           (resident_mb w (S h1))
           (resident_mb w (S h1) - resident_mb w (S (now s0)))%Q) /\
    headers resp =
      <["X-Total-Memory-Delta" :=
          PyFloat.str (resident_mb w (S (after + S (S h1))) - resident_mb w (S (now s0)))%Q]>
        (<["X-Total-Duration" :=
             PyFloat.str (clock w (after + S (S h1)) - clock w (now s0))%Q]> ∅) /\
    handler_entered s' = Some entry /\
    handler_returned s' = Some (S (S h1)) /\
    now s' = S (S (after + S (S h1))) /\
    request_start_memory s' = Some (resident_mb w (S (now s0))).
Proof.
  intros Hd Hfuel.
  destruct (app_run before after fuel request (dispatched w s0)
              (resident_mb w (S (now s0))) body Hd Hfuel eq_refl)
    as (name & pre & k & Hpre & Happ).
  exists name, (pre + now (dispatched w s0)), (k + 1 + (pre + now (dispatched w s0))).
  unfold serve, dispatch.
  unfold mbind, M_bind. unfold Py.bind at 1. rewrite perf_counter_run.
  unfold Py.bind at 1. rewrite get_memory_usage_mb_run.
  unfold Py.bind at 1. unfold request_start_time_set, modify.
  unfold Py.bind at 1. unfold request_start_memory_set, modify.
  unfold Py.bind at 1.
  cbn [now advance request_start_time request_start_memory handler_entered handler_returned].
  match goal with
  | |- context [app w before after fuel request ?st] =>
      change st with (dispatched w s0)
  end.
  rewrite Happ.
  unfold Py.bind, mret, M_ret, Py.ret.
  rewrite perf_counter_run, get_memory_usage_mb_run.
  eexists. eexists. split; [reflexivity|].
  cbn [now dispatched]. split; [lia|]. split; [lia|].
  repeat split.
Qed.

End ServerRuns.

(* ===================================================================== *)
(** * The server: the claims                                                *)
(* ===================================================================== *)

(** C1, as stated, fails.  On the sample request the handler is entered at
    instant 5, when the process holds 164 MiB, and its memory sample at
    exit reads 164 MiB too; the response reports a start of 100 MiB, the
    middleware's sample of instant 1, and a delta of 64 MiB. *)
Lemma memory_start_is_not_sampled_in_handler :
  exists resp s' r entry,
    Server.serve Samples.growing 1 1 4 Samples.buffered_upload (Server.initial 0)
      = (Ok resp, s') /\
    content resp = ServerResponse.model_dump_json r /\
    Server.handler_entered s' = Some entry /\
    (Server.resident_mb Samples.growing entry == 164)%Q /\
    (ServerResponse.memory_start_mb r == 100)%Q /\
    (ServerResponse.memory_end_mb r == 164)%Q /\
    (ServerResponse.memory_delta_mb r == 64)%Q /\
    ~ (ServerResponse.memory_start_mb r == Server.resident_mb Samples.growing entry)%Q /\
    ~ (ServerResponse.memory_delta_mb r
       == ServerResponse.memory_end_mb r - Server.resident_mb Samples.growing entry)%Q.
Proof.
  eexists. eexists.
  exists (ServerResponse.mk "sync-file" 3 (3 / 1024 / 1024)%Q 1
            (104857600 / 1024 / 1024)%Q (171966464 / 1024 / 1024)%Q
            (171966464 / 1024 / 1024 - 104857600 / 1024 / 1024)%Q).
  exists 5%nat.
  split; [vm_compute; reflexivity|].
  split; [vm_compute; reflexivity|].
  split; [reflexivity|].
  repeat split; vm_compute; congruence.
Qed.

(** C1, amended.  For every request that delivers a body to one of the
    five upload routes, [memory_start_mb] is the resident memory the
    middleware sampled at request entry, before the framework's work and
    before the handler is entered, and which the handler reads from the
    request's context; [memory_end_mb] is the resident memory the handler
    samples last, one instant before it returns; [memory_delta_mb] is
    their difference. *)
Theorem memory_fields_span_from_request_entry
    (w : Server.World) (before after fuel : nat)
    (request : Server.Request) (s0 : Server.State) (body : list byte) :
  Server.delivered request = Some body ->
  length body < fuel ->
  exists resp s' r entry returned,
    Server.serve w before after fuel request s0 = (Ok resp, s') /\
    status_code resp = 200%Z /\
    content resp = ServerResponse.model_dump_json r /\
    Server.handler_entered s' = Some entry /\
    Server.handler_returned s' = Some (S returned) /\
    S (Server.now s0) < entry /\ entry < returned /\
    ServerResponse.memory_start_mb r = Server.resident_mb w (S (Server.now s0)) /\
    Server.request_start_memory s' = Some (ServerResponse.memory_start_mb r) /\
    ServerResponse.memory_end_mb r = Server.resident_mb w returned /\
    ServerResponse.memory_delta_mb r
    = (ServerResponse.memory_end_mb r - ServerResponse.memory_start_mb r)%Q.
Proof.
  intros Hd Hfuel.
  destruct (serve_run w before after fuel request s0 body Hd Hfuel)
    as (name & entry & h1 & resp & s' & Hrun & Hentry & Hh1 & Hst & Hc & _ & He & Hr & _ & Hctx).
  exists resp, s'. eexists. exists entry, (S h1).
  split; [exact Hrun|]. split; [exact Hst|]. split; [exact Hc|].
  split; [exact He|]. split; [exact Hr|].
  split; [lia|]. split; [lia|].
  cbn [ServerResponse.memory_start_mb ServerResponse.memory_end_mb
       ServerResponse.memory_delta_mb].
  repeat split. exact Hctx.
Qed.

Lemma memory_fields_span_from_request_entry_witness :
  Server.delivered Samples.buffered_upload = Some [x01; x02; x03] /\
  length [x01; x02; x03] < 4 /\
  exists resp s' r entry returned,
    Server.serve Samples.growing 1 1 4 Samples.buffered_upload (Server.initial 0)
      = (Ok resp, s') /\
    status_code resp = 200%Z /\
    content resp = ServerResponse.model_dump_json r /\
    Server.handler_entered s' = Some entry /\
    Server.handler_returned s' = Some (S returned) /\
    S (Server.now (Server.initial 0)) < entry /\ entry < returned /\
    ServerResponse.memory_start_mb r
      = Server.resident_mb Samples.growing (S (Server.now (Server.initial 0))) /\
    Server.request_start_memory s' = Some (ServerResponse.memory_start_mb r) /\
    ServerResponse.memory_end_mb r = Server.resident_mb Samples.growing returned /\
    ServerResponse.memory_delta_mb r
    = (ServerResponse.memory_end_mb r - ServerResponse.memory_start_mb r)%Q.
Proof.
  split; [reflexivity|]. split; [simpl; lia|].
  apply (memory_fields_span_from_request_entry Samples.growing 1 1 4
           Samples.buffered_upload (Server.initial 0) [x01; x02; x03]).
  - reflexivity.
  - simpl; lia.
Defined.

Section Totals.

Lemma len_concat (chunks : list (list byte)) :
  len (concat chunks) = foldr Z.add 0%Z (len <$> chunks).
Proof.
  induction chunks as [|c rest IH]; [reflexivity|].
  cbn [concat fmap list_fmap foldr]. unfold len in *.
  rewrite length_app, Nat2Z.inj_add, IH. reflexivity.
Qed.

Lemma mebibytes_of_bytes (n : Z) :
  (PyFloat.of_int n / 1024 / 1024 == PyFloat.of_int n / 1048576)%Q.
Proof. unfold PyFloat.of_int. field. Qed.

End Totals.

(** C2.  For every upload route and every body delivered to it, the
    response's [file_size_bytes] is the number of bytes of the delivered
    body (for the raw-streaming route, the sum of the lengths of the chunks
    consumed) and [file_size_mb] is that number divided by 1,048,576; a
    body of 1 MiB is reported as 1,048,576 bytes. *)
Theorem file_size_is_length_of_delivered_body
    (w : Server.World) (before after fuel : nat)
    (request : Server.Request) (s0 : Server.State) (body : list byte) :
  Server.delivered request = Some body ->
  length body < fuel ->
  exists resp s' r,
    Server.serve w before after fuel request s0 = (Ok resp, s') /\
    status_code resp = 200%Z /\
    content resp = ServerResponse.model_dump_json r /\
    ServerResponse.file_size_bytes r = len body /\
    (Server.path request = "/upload/async-stream" ->
     ServerResponse.file_size_bytes r = foldr Z.add 0%Z (len <$> Server.wire request)) /\
    (ServerResponse.file_size_mb r
     == PyFloat.of_int (ServerResponse.file_size_bytes r) / 1048576)%Q /\
    (len body = 1048576%Z ->
     ServerResponse.file_size_bytes r = 1048576%Z /\
     (ServerResponse.file_size_mb r == 1)%Q).
Proof.
  intros Hd Hfuel.
  destruct (serve_run w before after fuel request s0 body Hd Hfuel)
    as (name & entry & h1 & resp & s' & Hrun & _ & _ & Hst & Hc & _).
  exists resp, s'. eexists.
  split; [exact Hrun|]. split; [exact Hst|]. split; [exact Hc|].
  cbn [ServerResponse.file_size_bytes ServerResponse.file_size_mb].
  split; [reflexivity|]. split.
  - intros Hp. unfold Server.delivered in Hd. rewrite Hp in Hd.
    cbn in Hd. injection Hd as <-. apply len_concat.
  - split; [apply mebibytes_of_bytes|].
    intros H1M. split; [exact H1M|]. rewrite H1M. reflexivity.
Qed.

Lemma file_size_is_length_of_delivered_body_witness :
  let body := concat (Server.wire Samples.mebibyte_stream) in
  Server.delivered Samples.mebibyte_stream = Some body /\
  length body < S (length body) /\
  exists resp s' r,
    Server.serve Samples.growing 0 0 (S (length body)) Samples.mebibyte_stream
      (Server.initial 0) = (Ok resp, s') /\
    status_code resp = 200%Z /\
    content resp = ServerResponse.model_dump_json r /\
    ServerResponse.file_size_bytes r = 1048576%Z.
Proof.
  intros body.
  assert (Hd : Server.delivered Samples.mebibyte_stream = Some body) by reflexivity.
  assert (Hlen : len body = 1048576%Z).
  { unfold body, Samples.mebibyte_stream, len. cbn [Server.wire].
    rewrite length_concat. cbn [replicate map list_sum fold_right].
    rewrite !length_replicate. unfold Server.CHUNK_SIZE. lia. }
  split; [exact Hd|]. split; [lia|].
  destruct (file_size_is_length_of_delivered_body Samples.growing 0 0 (S (length body))
              Samples.mebibyte_stream (Server.initial 0) body Hd (Nat.lt_succ_diag_r _))
    as (resp & s' & r & Hrun & Hst & Hc & _ & _ & _ & H1M).
  exists resp, s', r.
  split; [exact Hrun|]. split; [exact Hst|]. split; [exact Hc|].
  exact (proj1 (H1M Hlen)).
Defined.



(* ===================================================================== *)
(** * The client: one upload, one trial                                     *)
(* ===================================================================== *)

Section ClientRuns.

Import Client.

Variable w : World.

Local Arguments Text.replace : simpl never.
Local Arguments Text.contains : simpl never.
Local Arguments Text.basename : simpl never.
Local Arguments PyFloat.of_str : simpl never.
Local Arguments PyFloat.format_f : simpl never.
Local Arguments ServerResponse.model_validate_json : simpl never.
Local Arguments String.append : simpl never.
Local Arguments pretty : simpl never.

Lemma bind_Ok {S A B} (m : M S A) (k : A -> M S B) s a s' :
  m s = (Ok a, s') -> Py.bind m k s = k a s'.
Proof. intros H. unfold Py.bind. rewrite H. reflexivity. Qed.

Lemma bind_Raise {S A B} (m : M S A) (k : A -> M S B) s e s' :
  m s = (Raise e, s') -> Py.bind m k s = (Raise e, s').
Proof. intros H. unfold Py.bind. rewrite H. reflexivity. Qed.

(** The head of [upload_file]: the clock sample, the file, the request;
    then [received] takes over. *)
Lemma upload_file_run endpoint filepath s content :
  files s !! filepath = Some content ->
  upload_file w endpoint filepath s =
    match network w (post_instant endpoint s) (request_of endpoint filepath content) with
    | Responded response =>
        received w (clock w (now s)) response (after_post endpoint filepath content s)
    | Failed e => (Raise e, after_post endpoint filepath content s)
    end.
Proof.
  intros Hfile. destruct s as [n out fs rf sn]. cbn [files now] in *.
  unfold upload_file, after_post, post_instant, request_of.
  unfold mbind, M_bind.
  erewrite bind_Ok by reflexivity.
  erewrite bind_Ok by (unfold open_rb, mbind, M_bind, Py.bind, gets; cbn; rewrite Hfile; reflexivity).
  destruct (Text.contains "stream" endpoint).
  - rewrite bind_assoc.
    erewrite bind_Ok by reflexivity.
    cbn [position name files advance default drop]. rewrite Hfile. cbn [default drop].
    unfold post at 1. unfold mbind, M_bind, Py.bind at 1, gets, modify. cbn.
    destruct (network w (S (S n)) _); reflexivity.
  - unfold post at 1. unfold mbind, M_bind, Py.bind at 1, gets, modify. cbn.
    destruct (network w (S n) _); reflexivity.
Qed.

Lemma header_float_run key response s :
  header_float key response s =
    match header_value key response with
    | Some x => (Ok x, s)
    | None =>
        (Raise (ValueError ("could not convert string to float: "
                            +:+ default "" (headers response !! key))), s)
    end.
Proof.
  unfold header_float, header_value.
  destruct (headers response !! key) as [v|]; [|reflexivity].
  destruct (PyFloat.of_str v); reflexivity.
Qed.

(** A response with another status than 200 gives the error dict. *)
Lemma received_error t0 response s :
  status_code response <> 200%Z ->
  received w t0 response s =
    (Ok (ErrorResult ("HTTP " +:+ pretty (status_code response))
           (clock w (now s) - t0)%Q),
     advance 1 s).
Proof.
  intros Hst. unfold received. unfold mbind, M_bind.
  erewrite bind_Ok by reflexivity.
  apply Z.eqb_neq in Hst. rewrite Hst. reflexivity.
Qed.

(** A response with status 200 whose body validates and whose two headers
    are absent or are decimal text gives the merged dict. *)
Lemma received_metrics t0 response s sr d md :
  status_code response = 200%Z ->
  ServerResponse.model_validate_json (content response) = Some sr ->
  header_value "X-Total-Duration" response = Some d ->
  header_value "X-Total-Memory-Delta" response = Some md ->
  received w t0 response s =
    (Ok (MetricsResult sr (clock w (now s) - t0)%Q d md), advance 1 s).
Proof.
  intros Hst Hv Hd Hmd. unfold received. unfold mbind, M_bind.
  erewrite bind_Ok by reflexivity.
  rewrite Hst, Hv. cbn [Z.eqb Pos.eqb negb].
  erewrite bind_Ok by reflexivity.
  erewrite bind_Ok by (rewrite header_float_run, Hd; reflexivity).
  erewrite bind_Ok by (rewrite header_float_run, Hmd; reflexivity).
  reflexivity.
Qed.

(** A response with status 200 whose body validates and one of whose two
    headers is present but is not decimal text makes [float] raise. *)
Lemma received_malformed t0 response s sr :
  status_code response = 200%Z ->
  ServerResponse.model_validate_json (content response) = Some sr ->
  header_value "X-Total-Duration" response = None \/
  header_value "X-Total-Memory-Delta" response = None ->
  exists msg, received w t0 response s = (Raise (ValueError msg), advance 1 s).
Proof.
  intros Hst Hv Hbad. unfold received. unfold mbind, M_bind.
  erewrite bind_Ok by reflexivity.
  rewrite Hst, Hv. cbn [Z.eqb Pos.eqb negb].
  erewrite bind_Ok by reflexivity.
  destruct (header_value "X-Total-Duration" response) as [d|] eqn:Hd.
  - destruct Hbad as [Hbad|Hbad]; [discriminate|].
    erewrite bind_Ok by (rewrite header_float_run, Hd; reflexivity).
    eexists. erewrite bind_Raise by (rewrite header_float_run, Hbad; reflexivity).
    reflexivity.
  - eexists. erewrite bind_Raise by (rewrite header_float_run, Hd; reflexivity).
    reflexivity.
Qed.

(** Whatever the response, [received] returns or raises, one instant
    later, and touches nothing else. *)
Lemma received_cases t0 response s :
  (exists r, received w t0 response s = (Ok r, advance 1 s)) \/
  (exists e, received w t0 response s = (Raise e, advance 1 s)).
Proof.
  destruct (Z.eq_dec (status_code response) 200%Z) as [Hst|Hst].
  2:{ left. eexists. apply received_error, Hst. }
  destruct (ServerResponse.model_validate_json (content response)) as [sr|] eqn:Hv.
  - destruct (header_value "X-Total-Duration" response) as [d|] eqn:Hd.
    + destruct (header_value "X-Total-Memory-Delta" response) as [md|] eqn:Hmd.
      * left. eexists. eapply received_metrics; eassumption.
      * right. destruct (received_malformed t0 response s sr Hst Hv (or_intror Hmd)) as [msg H].
        eexists. exact H.
    + right. destruct (received_malformed t0 response s sr Hst Hv (or_introl Hd)) as [msg H].
      eexists. exact H.
  - right. eexists. unfold received. unfold mbind, M_bind.
    erewrite bind_Ok by reflexivity.
    rewrite Hst, Hv. cbn [Z.eqb Pos.eqb negb].
    erewrite bind_Raise by reflexivity. reflexivity.
Qed.

(** The guarded quotient never raises. *)
Lemma throughput_run file_size_mb total_duration s :
  throughput file_size_mb total_duration s =
    (Ok (if Qlt_le_dec 0 total_duration then (file_size_mb / total_duration)%Q else 0%Q), s).
Proof.
  unfold throughput. destruct (Qlt_le_dec 0 total_duration) as [Hpos|Hneg]; [|reflexivity].
  unfold lift, truediv.
  destruct (Qeq_bool total_duration 0) eqn:Hz; [|reflexivity].
  apply Qeq_bool_iff in Hz. rewrite Hz in Hpos. exfalso. exact (Qlt_irrefl 0 Hpos).
Qed.

Lemma try_except_Ok {S A} (body : M S A) (handler : exn -> M S A) s a s' :
  body s = (Ok a, s') -> try_except body handler s = (Ok a, s').
Proof. intros H. unfold try_except. rewrite H. reflexivity. Qed.

Lemma try_except_Raise {S A} (body : M S A) (handler : exn -> M S A) s e s' :
  body s = (Raise e, s') -> try_except body handler s = handler e s'.
Proof. intros H. unfold try_except. rewrite H. reflexivity. Qed.

(** *** The three ways a trial ends *)

Lemma trial_raise filepath endpoint endpoint_results s e s1 :
  upload_file w endpoint filepath (announced endpoint s) = (Raise e, s1) ->
  trial w filepath endpoint endpoint_results s =
    (Ok endpoint_results, emit (("✗ Error: " +:+ exn_str e) +:+ nl) s1).
Proof.
  intros Hup. unfold trial. unfold mbind, M_bind.
  erewrite bind_Ok by reflexivity.
  erewrite try_except_Raise; [reflexivity|].
  apply bind_Raise. exact Hup.
Qed.

Lemma trial_error filepath endpoint endpoint_results s error client_duration s1 :
  upload_file w endpoint filepath (announced endpoint s)
  = (Ok (ErrorResult error client_duration), s1) ->
  trial w filepath endpoint endpoint_results s =
    (Ok endpoint_results, emit (("✗ " +:+ error) +:+ nl) s1).
Proof.
  intros Hup. unfold trial. unfold mbind, M_bind.
  erewrite bind_Ok by reflexivity.
  erewrite try_except_Ok; [reflexivity|].
  rewrite (bind_Ok _ _ _ _ _ Hup). reflexivity.
Qed.

Lemma trial_metrics filepath endpoint endpoint_results s sr cd d md s1 :
  upload_file w endpoint filepath (announced endpoint s)
  = (Ok (MetricsResult sr cd d md), s1) ->
  trial w filepath endpoint endpoint_results s =
    (Ok (<[endpoint_name endpoint := merged endpoint sr cd d md]> endpoint_results),
     emit (success_line (merged endpoint sr cd d md) +:+ nl) s1).
Proof.
  intros Hup. unfold trial. unfold mbind, M_bind.
  erewrite bind_Ok by reflexivity.
  erewrite try_except_Ok; [reflexivity|].
  rewrite (bind_Ok _ _ _ _ _ Hup). cbv beta iota.
  erewrite bind_Ok by apply throughput_run.
  erewrite bind_Ok by apply throughput_run.
  reflexivity.
Qed.

(** Without the test file, [open] raises. *)
Lemma upload_file_missing endpoint filepath s :
  files s !! filepath = None ->
  exists e, upload_file w endpoint filepath s = (Raise e, advance 1 s).
Proof.
  intros Hfile. eexists. unfold upload_file. unfold mbind, M_bind.
  erewrite bind_Ok by reflexivity.
  erewrite bind_Raise; [reflexivity|].
  unfold open_rb, mbind, M_bind, Py.bind, gets. cbn [files advance].
  rewrite Hfile. reflexivity.
Qed.

(** A trial always returns: with the dict it was given, or with that dict
    and one entry under the name of its endpoint.  It leaves the files
    alone. *)
Ltac frame :=
  unfold undisturbed;
  cbn [files results_file now emit advance after_post announced];
  unfold post_instant;
  cbn [files results_file now emit advance after_post announced];
  repeat split; try reflexivity; try (destruct (Text.contains _ _)); lia.

Lemma undisturbed_trans s1 s2 s3 :
  undisturbed s1 s2 -> undisturbed s2 s3 -> undisturbed s1 s3.
Proof. unfold undisturbed. intros (? & ? & ?) (? & ? & ?). repeat split; try congruence. lia. Qed.

Lemma trial_cases filepath endpoint endpoint_results s :
  exists m s',
    trial w filepath endpoint endpoint_results s = (Ok m, s') /\
    undisturbed s s' /\
    (m = endpoint_results \/
     exists metrics, m = <[endpoint_name endpoint := metrics]> endpoint_results).
Proof.
  destruct (files (announced endpoint s) !! filepath) as [content|] eqn:Hfile.
  - pose proof (upload_file_run endpoint filepath (announced endpoint s) content Hfile) as Hrun.
    destruct (network w _ _) as [response|e] in Hrun.
    + destruct (received_cases (clock w (now (announced endpoint s))) response
                  (after_post endpoint filepath content (announced endpoint s)))
        as [[r Hr]|[e He]].
      * rewrite Hr in Hrun. destruct r as [error cd|sr cd d md].
        -- eexists. eexists. split; [eapply trial_error; exact Hrun|].
           split; [frame|]. left. reflexivity.
        -- eexists. eexists. split; [eapply trial_metrics; exact Hrun|].
           split; [frame|]. right. eexists. reflexivity.
      * rewrite He in Hrun.
        eexists. eexists. split; [eapply trial_raise; exact Hrun|].
        split; [frame|]. left. reflexivity.
    + eexists. eexists. split; [eapply trial_raise; exact Hrun|].
      split; [frame|]. left. reflexivity.
  - destruct (upload_file_missing endpoint filepath (announced endpoint s) Hfile) as [e He].
    eexists. eexists. split; [eapply trial_raise; exact He|].
    split; [frame|]. left. reflexivity.
Qed.

(** The loop over the endpoints of one file always runs to its end, and
    touches no entry but those of its endpoints. *)
Lemma for_endpoints_runs filepath endpoints : forall endpoint_results s,
  exists m s',
    for_endpoints w filepath endpoints endpoint_results s = (Ok m, s') /\
    undisturbed s s' /\
    (forall name : string,
       name ∉ endpoint_name <$> endpoints -> m !! name = endpoint_results !! name).
Proof.
  induction endpoints as [|endpoint rest IH]; intros endpoint_results s.
  - exists endpoint_results, s. split; [reflexivity|]. split; [frame|]. reflexivity.
  - destruct (trial_cases filepath endpoint endpoint_results s) as (m1 & s1 & Ht & Hf1 & Hm1).
    destruct (IH m1 s1) as (m & s' & Hrest & Hf & Hm).
    exists m, s'. cbn [for_endpoints]. unfold mbind, M_bind.
    rewrite (bind_Ok _ _ _ _ _ Ht). split; [exact Hrest|].
    split; [exact (undisturbed_trans _ _ _ Hf1 Hf)|].
    intros name Hname. rewrite fmap_cons in Hname.
    apply not_elem_of_cons in Hname as [Hne Hname].
    rewrite (Hm name Hname).
    destruct Hm1 as [->|[metrics ->]]; [reflexivity|].
    apply lookup_insert_ne. congruence.
Qed.

Lemma for_endpoints_app filepath pre post endpoint_results s m1 s1 :
  for_endpoints w filepath pre endpoint_results s = (Ok m1, s1) ->
  for_endpoints w filepath (pre ++ post) endpoint_results s
  = for_endpoints w filepath post m1 s1.
Proof.
  revert endpoint_results s. induction pre as [|endpoint pre IH]; intros endpoint_results s H.
  - cbn in H. injection H as <- <-. reflexivity.
  - cbn [for_endpoints app] in *. unfold mbind, M_bind in *.
    destruct (trial_cases filepath endpoint endpoint_results s) as (m0 & s0 & Ht & _).
    rewrite (bind_Ok _ _ _ _ _ Ht) in H. rewrite (bind_Ok _ _ _ _ _ Ht).
    apply IH, H.
Qed.

(** The loop over the test files runs to its end when the files are there,
    whatever the trials meet, with one record a file. *)
Lemma for_test_files_runs test_files : forall test_results s,
  Forall (fun p : string * string => is_Some (files s !! p.2)) test_files ->
  exists rs s',
    for_test_files w test_files test_results s = (Ok rs, s') /\
    undisturbed s s' /\
    length rs = length test_results + length test_files.
Proof.
  induction test_files as [|[size_name filepath] rest IH]; intros test_results s Hfiles.
  - exists test_results, s. split; [reflexivity|]. split; [frame|]. cbn. lia.
  - apply Forall_cons in Hfiles as [[b Hb] Hrest]. cbn [snd] in Hb.
    destruct (for_endpoints_runs filepath ENDPOINTS ∅
                (emit (("Testing " +:+ size_name +:+ " file:") +:+ nl) s))
      as (m & s1 & Hloop & Hf1 & _).
    destruct (IH (test_results ++ [FileSizeTest.mk size_name (len b) m])%list
                (emit ("" +:+ nl) s1)) as (rs & s' & Hrun & Hf & Hlen).
    { cbn [files emit]. rewrite (proj1 Hf1). exact Hrest. }
    exists rs, s'. cbn [for_test_files]. unfold mbind, M_bind.
    erewrite bind_Ok.
    2:{ unfold stat_size, mbind, M_bind, Py.bind, gets. rewrite Hb. reflexivity. }
    erewrite bind_Ok by reflexivity.
    rewrite (bind_Ok _ _ _ _ _ Hloop).
    erewrite bind_Ok by reflexivity.
    split; [exact Hrun|]. split.
    + eapply undisturbed_trans; [|exact Hf].
      eapply undisturbed_trans; [|frame].
      eapply undisturbed_trans; [|exact Hf1]. frame.
    + rewrite Hlen, length_app. cbn [length]. lia.
Qed.

End ClientRuns.

(* ===================================================================== *)
(** * The client: the claims                                                *)
(* ===================================================================== *)

(** C5.  A trial whose exchange fails (the transport raises, as on a
    connection failure or a timeout, or the status is not 200) returns
    normally with the dict of results it was given, after printing a
    diagnostic line; the loop goes on with the next endpoints, and at its
    end the failed endpoint has no key in the dict of results of that file
    size, while the entries of the endpoints before it are as they were. *)
Theorem failed_trial_records_no_entry
    (w : Client.World) (filepath : string) (pre : list string) (endpoint : string)
    (post : list string) (s s1 : Client.State) (m1 : gmap string EndpointMetrics.t)
    (o : Http.Outcome) :
  Client.for_endpoints w filepath pre ∅ s = (Ok m1, s1) ->
  Client.exchange w endpoint filepath s1 = Some o ->
  Client.failed o ->
  Client.endpoint_name endpoint ∉ Client.endpoint_name <$> pre ->
  Client.endpoint_name endpoint ∉ Client.endpoint_name <$> post ->
  exists line s2 m s',
    Client.trial w filepath endpoint m1 s1 = (Ok m1, s2) /\
    Client.stdout s2
    = (Client.stdout s1
       ++ [("  " +:+ Client.endpoint_name endpoint +:+ "...") +:+ " "; line])%list /\
    String.prefix "✗ " line = true /\
    Client.for_endpoints w filepath post m1 s2 = (Ok m, s') /\
    Client.for_endpoints w filepath (pre ++ endpoint :: post) ∅ s = (Ok m, s') /\
    m !! Client.endpoint_name endpoint = None /\
    (forall name : string,
       name ∉ Client.endpoint_name <$> post -> m !! name = m1 !! name) /\
    (forall test_files test_results st,
       Forall (fun p : string * string => is_Some (Client.files st !! p.2)) test_files ->
       exists rs st',
         Client.for_test_files w test_files test_results st = (Ok rs, st') /\
         length rs = length test_results + length test_files).
Proof.
  intros Hpre Hex Hfail Hnpre Hnpost.
  unfold Client.exchange in Hex.
  destruct (Client.files s1 !! filepath) as [content|] eqn:Hfile; [|discriminate].
  cbn in Hex. injection Hex as Hnet.
  pose proof (upload_file_run w endpoint filepath (Client.announced endpoint s1) content Hfile)
    as Hrun.
  change (Client.post_instant endpoint (Client.announced endpoint s1))
    with (Client.post_instant endpoint s1) in Hrun.
  rewrite Hnet in Hrun.
  assert (Htrial : exists line s2,
             Client.trial w filepath endpoint m1 s1 = (Ok m1, s2) /\
             Client.stdout s2
             = (Client.stdout s1
                ++ [("  " +:+ Client.endpoint_name endpoint +:+ "...") +:+ " "; line])%list /\
             String.prefix "✗ " line = true).
  { destruct o as [response|e]; cbn [Client.failed] in Hfail.
    - rewrite received_error in Hrun by exact Hfail.
      eexists. eexists. split; [eapply trial_error; exact Hrun|].
      split;
        [cbn [Client.stdout Client.emit Client.advance Client.after_post Client.announced];
         rewrite <- app_assoc; reflexivity
        |reflexivity].
    - eexists. eexists. split; [eapply trial_raise; exact Hrun|].
      split;
        [cbn [Client.stdout Client.emit Client.advance Client.after_post Client.announced];
         rewrite <- app_assoc; reflexivity
        |reflexivity]. }
  destruct Htrial as (line & s2 & Htrial & Hout & Hline).
  destruct (for_endpoints_runs w filepath post m1 s2) as (m & s' & Hpost & _ & Hm).
  exists line, s2, m, s'.
  split; [exact Htrial|]. split; [exact Hout|]. split; [exact Hline|].
  split; [exact Hpost|]. split.
  - rewrite (for_endpoints_app w filepath pre (endpoint :: post) ∅ s m1 s1 Hpre).
    cbn [Client.for_endpoints]. unfold mbind, M_bind.
    rewrite (bind_Ok _ _ _ _ _ Htrial). exact Hpost.
  - split; [|split; [exact Hm|]].
    + rewrite (Hm _ Hnpost).
      destruct (for_endpoints_runs w filepath pre ∅ s) as (m1' & s1' & Hpre' & _ & Hm1).
      rewrite Hpre in Hpre'. injection Hpre' as <- <-.
      rewrite (Hm1 _ Hnpre). apply lookup_empty.
    + intros test_files test_results st Hfiles.
      destruct (for_test_files_runs w test_files test_results st Hfiles)
        as (rs & st' & Hrun' & _ & Hlen).
      exists rs, st'. split; assumption.
Qed.

Lemma failed_trial_records_no_entry_witness :
  let filepath := "test_files/test_1KB.bin" in
  let pre := ["/upload/sync-file"; "/upload/async-file"] in
  let endpoint := "/upload/sync-uploadfile" in
  let post := ["/upload/async-uploadfile"; "/upload/async-stream"] in
  exists m1 s1 o,
    Client.for_endpoints Samples.flaky filepath pre ∅ Samples.fresh = (Ok m1, s1) /\
    Client.exchange Samples.flaky endpoint filepath s1 = Some o /\
    Client.failed o /\
    (Client.endpoint_name endpoint ∉ Client.endpoint_name <$> pre) /\
    (Client.endpoint_name endpoint ∉ Client.endpoint_name <$> post) /\
    exists m s',
      Client.for_endpoints Samples.flaky filepath Client.ENDPOINTS ∅ Samples.fresh
        = (Ok m, s') /\
      m !! "sync-uploadfile" = None.
Proof.
  intros filepath pre endpoint post.
  destruct (for_endpoints_runs Samples.flaky filepath pre ∅ Samples.fresh)
    as (m1 & s1 & Hpre & (Hfiles & _) & _).
  assert (Hex : Client.exchange Samples.flaky endpoint filepath s1
                = Some (Responded (Samples.response_with 500 []))).
  { unfold Client.exchange. rewrite Hfiles. reflexivity. }
  assert (Hfail : Client.failed (Responded (Samples.response_with 500 []))).
  { cbn. discriminate. }
  assert (Hnpre : Client.endpoint_name endpoint ∉ Client.endpoint_name <$> pre).
  { unfold pre, endpoint. cbn [fmap list_fmap]. intros H.
    repeat (apply elem_of_cons in H as [H|H]; [vm_compute in H; discriminate|]).
    exact (not_elem_of_nil _ H). }
  assert (Hnpost : Client.endpoint_name endpoint ∉ Client.endpoint_name <$> post).
  { unfold post, endpoint. cbn [fmap list_fmap]. intros H.
    repeat (apply elem_of_cons in H as [H|H]; [vm_compute in H; discriminate|]).
    exact (not_elem_of_nil _ H). }
  exists m1, s1, (Responded (Samples.response_with 500 [])).
  split; [exact Hpre|]. split; [exact Hex|]. split; [exact Hfail|].
  split; [exact Hnpre|]. split; [exact Hnpost|].
  destruct (failed_trial_records_no_entry Samples.flaky filepath pre endpoint post
              Samples.fresh s1 m1 _ Hpre Hex Hfail Hnpre Hnpost)
    as (line & s2 & m & s' & _ & _ & _ & _ & Hall & Hnone & _).
  exists m, s'. split; [exact Hall|exact Hnone].
Defined.

(** C4.  For a successful trial the throughput recorded is the size in MiB
    divided by the total duration when that duration is positive, and 0
    when it is zero; the trial returns its record in either case, so the
    zero duration raises no division error. *)
Theorem throughput_is_size_over_total_duration
    (w : Client.World) (filepath endpoint : string)
    (endpoint_results : gmap string EndpointMetrics.t) (s : Client.State)
    (response : Http.Response) (sr : ServerResponse.t) (d md : Q) :
  Client.exchange w endpoint filepath s = Some (Responded response) ->
  status_code response = 200%Z ->
  ServerResponse.model_validate_json (content response) = Some sr ->
  Client.header_value "X-Total-Duration" response = Some d ->
  Client.header_value "X-Total-Memory-Delta" response = Some md ->
  exists metrics s',
    Client.trial w filepath endpoint endpoint_results s
    = (Ok (<[Client.endpoint_name endpoint := metrics]> endpoint_results), s') /\
    EndpointMetrics.file_size_mb metrics = ServerResponse.file_size_mb sr /\
    EndpointMetrics.total_duration_seconds metrics = d /\
    ((0 < EndpointMetrics.total_duration_seconds metrics)%Q ->
     EndpointMetrics.total_throughput_mbps metrics
     = (EndpointMetrics.file_size_mb metrics
        / EndpointMetrics.total_duration_seconds metrics)%Q) /\
    ((EndpointMetrics.total_duration_seconds metrics == 0)%Q ->
     EndpointMetrics.total_throughput_mbps metrics = 0%Q).
Proof.
  intros Hex Hst Hv Hd Hmd.
  unfold Client.exchange in Hex.
  destruct (Client.files s !! filepath) as [content|] eqn:Hfile; [|discriminate].
  cbn in Hex. injection Hex as Hnet.
  pose proof (upload_file_run w endpoint filepath (Client.announced endpoint s) content Hfile)
    as Hrun.
  change (Client.post_instant endpoint (Client.announced endpoint s))
    with (Client.post_instant endpoint s) in Hrun.
  rewrite Hnet in Hrun.
  rewrite (received_metrics w _ response _ sr d md Hst Hv Hd Hmd) in Hrun.
  eexists. eexists. split; [eapply trial_metrics; exact Hrun|].
  cbn [Client.merged EndpointMetrics.file_size_mb EndpointMetrics.total_duration_seconds
       EndpointMetrics.total_throughput_mbps].
  split; [reflexivity|]. split; [reflexivity|]. split.
  - intros Hpos. destruct (Qlt_le_dec 0 d) as [_|Hle]; [reflexivity|].
    exfalso. exact (Qlt_not_le _ _ Hpos Hle).
  - intros Hzero. destruct (Qlt_le_dec 0 d) as [Hpos|_]; [|reflexivity].
    rewrite Hzero in Hpos. exfalso. exact (Qlt_irrefl 0 Hpos).
Qed.

Lemma throughput_is_size_over_total_duration_witness :
  let w := Samples.answering [("X-Total-Duration", "0.25"); ("X-Total-Memory-Delta", "64.0")] in
  let response := Samples.response_with 200
                    [("X-Total-Duration", "0.25"); ("X-Total-Memory-Delta", "64.0")] in
  Client.exchange w "/upload/sync-file" "test_files/test_1KB.bin" Samples.fresh
    = Some (Responded response) /\
  status_code response = 200%Z /\
  ServerResponse.model_validate_json (content response) = Some Samples.server_response /\
  Client.header_value "X-Total-Duration" response = Some (1 # 4)%Q /\
  Client.header_value "X-Total-Memory-Delta" response = Some 64%Q /\
  exists metrics s',
    Client.trial w "test_files/test_1KB.bin" "/upload/sync-file" ∅ Samples.fresh
    = (Ok (<["sync-file" := metrics]> ∅), s') /\
    EndpointMetrics.total_throughput_mbps metrics
    = (ServerResponse.file_size_mb Samples.server_response / (1 # 4))%Q.
Proof.
  intros w response.
  assert (H1 : Client.exchange w "/upload/sync-file" "test_files/test_1KB.bin" Samples.fresh
               = Some (Responded response)) by (vm_compute; reflexivity).
  assert (H2 : status_code response = 200%Z) by reflexivity.
  assert (H3 : ServerResponse.model_validate_json (content response)
               = Some Samples.server_response) by (vm_compute; reflexivity).
  assert (H4 : Client.header_value "X-Total-Duration" response = Some (1 # 4)%Q)
    by (vm_compute; reflexivity).
  assert (H5 : Client.header_value "X-Total-Memory-Delta" response = Some 64%Q)
    by (vm_compute; reflexivity).
  repeat (split; [assumption|]).
  destruct (throughput_is_size_over_total_duration w "test_files/test_1KB.bin"
              "/upload/sync-file" ∅ Samples.fresh response Samples.server_response
              (1 # 4)%Q 64%Q H1 H2 H3 H4 H5)
    as (metrics & s' & Htrial & Hmb & Hd & Hpos & _).
  exists metrics, s'. split; [exact Htrial|].
  rewrite Hpos, Hmb, Hd; [reflexivity|]. rewrite Hd. reflexivity.
Defined.




(** C10.  For an endpoint whose path contains ["stream"] the client reads
    the whole test file into memory first and sends those bytes as the raw
    body of the request; for every other endpoint it hands the file
    object, opened and not yet read, to the form encoder as the one field
    ["file"].  Each upload sends exactly one request. *)
Theorem stream_endpoints_send_buffered_bytes
    (w : Client.World) (endpoint filepath : string) (s : Client.State)
    (content : list byte) :
  Client.files s !! filepath = Some content ->
  exists r s' request,
    Client.upload_file w endpoint filepath s = (r, s') /\
    Client.sent s' = (Client.sent s ++ [request])%list /\
    url request = Client.BASE_URL +:+ endpoint /\
    (Text.contains "stream" endpoint = true ->
     payload request = Content content /\
     Client.post_instant endpoint s = 2 + Client.now s) /\
    (Text.contains "stream" endpoint = false ->
     payload request
     = Files [("file", (Text.basename filepath,
                        {| name := filepath; position := 0 |},
                        "application/octet-stream"))]).
Proof.
  intros Hfile.
  pose proof (upload_file_run w endpoint filepath s content Hfile) as Hrun.
  assert (Hsent : exists r s',
            Client.upload_file w endpoint filepath s = (r, s') /\
            Client.sent s'
            = (Client.sent s ++ [Client.request_of endpoint filepath content])%list).
  { destruct (Client.network w _ _) as [response|e] in Hrun.
    - destruct (received_cases w (Client.clock w (Client.now s)) response
                  (Client.after_post endpoint filepath content s)) as [[r Hr]|[e He]].
      + rewrite Hr in Hrun. eexists. eexists. split; [exact Hrun|reflexivity].
      + rewrite He in Hrun. eexists. eexists. split; [exact Hrun|reflexivity].
    - eexists. eexists. split; [exact Hrun|reflexivity]. }
  destruct Hsent as (r & s' & Hup & Hsent).
  exists r, s', (Client.request_of endpoint filepath content).
  split; [exact Hup|]. split; [exact Hsent|]. split; [reflexivity|].
  unfold Client.request_of, Client.post_instant. cbn [payload].
  split; intros Hc; rewrite Hc; [split|]; reflexivity.
Qed.

Lemma stream_endpoints_send_buffered_bytes_witness :
  Client.files Samples.fresh !! "test_files/test_1KB.bin" = Some [x01; x02; x03] /\
  exists r s',
    Client.upload_file Samples.flaky "/upload/async-stream" "test_files/test_1KB.bin"
      Samples.fresh = (r, s') /\
    Client.sent s'
    = [{| url := "http://localhost:8000/upload/async-stream";
          payload := Content [x01; x02; x03] |}].
Proof.
  assert (Hfile : Client.files Samples.fresh !! "test_files/test_1KB.bin"
                  = Some [x01; x02; x03]) by (vm_compute; reflexivity).
  split; [exact Hfile|].
  destruct (stream_endpoints_send_buffered_bytes Samples.flaky "/upload/async-stream"
              "test_files/test_1KB.bin" Samples.fresh [x01; x02; x03] Hfile)
    as (r & s' & request & Hup & Hsent & Hurl & Hstream & _).
  exists r, s'. split; [exact Hup|].
  rewrite Hsent. destruct request as [u p]. cbn [url payload] in *.
  destruct (Hstream eq_refl) as [-> _]. rewrite Hurl. reflexivity.
Defined.

(* ===================================================================== *)
(** * The orchestrator and the store                                        *)
(* ===================================================================== *)

Section Orchestrator.

Import Client.

Variable w : World.

Lemma stored_history_same s s' :
  results_file s' = results_file s -> stored_history s' = stored_history s.
Proof. unfold stored_history. intros ->. reflexivity. Qed.

Lemma provisioned_same file_sizes s s' :
  files s' = files s -> provisioned file_sizes s -> provisioned file_sizes s'.
Proof. unfold provisioned. intros ->. trivial. Qed.




Lemma bind_print {A} text (k : unit -> M State A) s :
  Py.bind (print text) k s = k tt (emit (text +:+ nl) s).
Proof. reflexivity. Qed.

Lemma save_results_state run s h :
  stored_history s = Some h ->
  save_results run s =
    (Ok tt,
     emit ((nl +:+ "✓ Results saved to " +:+ RESULTS_FILE) +:+ nl)
       (write_results
          (BenchmarkHistory.model_dump_json (BenchmarkHistory.add_run h run)) s)).
Proof.
  unfold stored_history, save_results. intros Hs.
  unfold mbind, M_bind, Py.bind, gets.
  destruct (results_file s) as [j|].
  - rewrite Hs. reflexivity.
  - injection Hs as <-. reflexivity.
Qed.




End Orchestrator.



(* ===================================================================== *)
(** * Server and client together                                            *)
(* ===================================================================== *)

(** The answer of the sample server, brought back to the client, is merged
    into a record: three bytes, one second in the handler, nine seconds in
    all, and 64 MiB of growth seen by the handler and by the middleware. *)
Example served_response_is_merged :
  exists metrics s',
    Client.trial Samples.relaying "test_files/test_1KB.bin" "/upload/sync-file" ∅
      Samples.fresh = (Ok (<["sync-file" := metrics]> ∅), s') /\
    EndpointMetrics.file_size_bytes metrics = 3%Z /\
    (EndpointMetrics.handler_duration_seconds metrics == 1)%Q /\
    (EndpointMetrics.total_duration_seconds metrics == 9)%Q /\
    (EndpointMetrics.total_throughput_mbps metrics == 3 / 1048576 / 9)%Q /\
    (EndpointMetrics.memory_delta_mb metrics == 64)%Q /\
    (EndpointMetrics.total_memory_delta_mb metrics == 64)%Q.
Proof.
  eexists. eexists. split; [vm_compute; reflexivity|].
  cbn [EndpointMetrics.file_size_bytes EndpointMetrics.handler_duration_seconds
       EndpointMetrics.total_duration_seconds EndpointMetrics.total_throughput_mbps
       EndpointMetrics.memory_delta_mb EndpointMetrics.total_memory_delta_mb].
  repeat split; vm_compute; reflexivity.
Qed.

(* ===================================================================== *)
(** * The history: looking runs up                                          *)
(* ===================================================================== *)

Section HistoryLookups.

Import BenchmarkHistory.

Lemma find_snoc {A} (f : A -> bool) (l : list A) (x : A) :
  find f (l ++ [x]) =
    match find f l with
    | Some y => Some y
    | None => if f x then Some x else None
    end.
Proof.
  induction l as [|a l IH]; cbn [find app].
  - reflexivity.
  - destruct (f a); [reflexivity|exact IH].
Qed.

Lemma find_first {A} (f : A -> bool) (l : list A) (x : A) :
  find f l = Some x ->
  exists i, l !! i = Some x /\ f x = true /\
            forall j y, j < i -> l !! j = Some y -> f y = false.
Proof.
  induction l as [|a l IH]; cbn [find]; [discriminate|].
  destruct (f a) eqn:Ha.
  - intros [= ->]. exists 0. split; [reflexivity|]. split; [exact Ha|]. intros j y Hj. lia.
  - intros H. destruct (IH H) as (i & Hi & Hx & Hbefore).
    exists (S i). split; [exact Hi|]. split; [exact Hx|].
    intros [|j] y Hj Hy.
    + cbn in Hy. injection Hy as <-. exact Ha.
    + apply (Hbefore j y); [lia|exact Hy].
Qed.

Lemma find_none {A} (f : A -> bool) (l : list A) :
  find f l = None <-> Forall (fun y => f y = false) l.
Proof.
  induction l as [|a l IH]; cbn [find].
  - split; [constructor|reflexivity].
  - destruct (f a) eqn:Ha.
    + split; [discriminate|]. intros H. apply Forall_cons in H as [H _]. congruence.
    + rewrite IH. split.
      * intros H. constructor; assumption.
      * intros H. apply Forall_cons in H as [_ H]. exact H.
Qed.

End HistoryLookups.

(** X1.  The latest run of a history is the run added last: after
    [add_run] it is the run just added, whatever the history held; a
    history has no latest run exactly when it holds no run; and a latest
    run is always the last element of the list of runs. *)
Theorem get_latest_is_the_run_added_last (h : BenchmarkHistory.t) (r : BenchmarkRun.t) :
  BenchmarkHistory.get_latest (BenchmarkHistory.add_run h r) = Some r /\
  (BenchmarkHistory.get_latest h = None <-> BenchmarkHistory.runs h = []) /\
  (forall r0, BenchmarkHistory.get_latest h = Some r0 ->
     exists earlier, BenchmarkHistory.runs h = (earlier ++ [r0])%list) /\
  length (BenchmarkHistory.runs (BenchmarkHistory.add_run h r))
  = S (length (BenchmarkHistory.runs h)).
Proof.
  unfold BenchmarkHistory.get_latest, BenchmarkHistory.add_run.
  cbn [BenchmarkHistory.runs].
  split; [apply last_snoc|]. split; [apply last_None|]. split.
  - intros r0 H. apply last_Some in H. exact H.
  - rewrite length_app. cbn. lia.
Qed.

(** X2.  [get_run_by_timestamp] returns the first run, in the order of the
    history, whose timestamp is the one asked for, and nothing exactly
    when no run has it.  Adding a run never changes the answer for a
    timestamp the history already had: of two runs with one timestamp the
    older one is found; the run added is found under its own timestamp
    only when that timestamp is new. *)
Theorem get_run_by_timestamp_finds_first_match
    (h : BenchmarkHistory.t) (r : BenchmarkRun.t) (timestamp : Datetime.datetime) :
  (forall r0, BenchmarkHistory.get_run_by_timestamp h timestamp = Some r0 ->
     exists i,
       BenchmarkHistory.runs h !! i = Some r0 /\
       BenchmarkRun.timestamp r0 = timestamp /\
       forall j r1, j < i -> BenchmarkHistory.runs h !! j = Some r1 ->
                    BenchmarkRun.timestamp r1 <> timestamp) /\
  (BenchmarkHistory.get_run_by_timestamp h timestamp = None <->
   Forall (fun r0 => BenchmarkRun.timestamp r0 <> timestamp) (BenchmarkHistory.runs h)) /\
  BenchmarkHistory.get_run_by_timestamp (BenchmarkHistory.add_run h r) timestamp =
    match BenchmarkHistory.get_run_by_timestamp h timestamp with
    | Some r0 => Some r0
    | None => if decide (BenchmarkRun.timestamp r = timestamp) then Some r else None
    end.
Proof.
  unfold BenchmarkHistory.get_run_by_timestamp, BenchmarkHistory.add_run.
  cbn [BenchmarkHistory.runs].
  split; [|split].
  - intros r0 H. apply find_first in H as (i & Hi & Hx & Hbefore).
    exists i. split; [exact Hi|]. split.
    + apply bool_decide_eq_true in Hx. exact Hx.
    + intros j r1 Hj Hr1. specialize (Hbefore j r1 Hj Hr1).
      apply bool_decide_eq_false in Hbefore. exact Hbefore.
  - rewrite find_none. apply Forall_iff. intros r0.
    apply bool_decide_eq_false.
  - rewrite find_snoc.
    destruct (find _ (BenchmarkHistory.runs h)); [reflexivity|].
    unfold bool_decide. destruct (decide_rel eq _ _) as [H|H];
      destruct (decide _) as [H'|H']; try reflexivity; contradiction.
Qed.


(** X4.  Of the members of a run's document only [summary] may be
    missing: a document with the timestamp, the tests and the endpoints
    but no summary validates to the run with the empty summary, the one
    the orchestrator builds; a document that lacks one of the three other
    members is refused. *)
Theorem absent_summary_defaults_to_empty
    (timestamp : Datetime.datetime) (test_files : list FileSizeTest.t)
    (endpoints : list string) :
  Datetime.valid timestamp = true ->
  BenchmarkRun.model_validate_json
    (JObj [ ("timestamp", JStr (Datetime.isoformat timestamp));
            ("test_files", JArr (FileSizeTest.model_dump_json <$> test_files));
            ("endpoints", JArr (JStr <$> endpoints)) ])
  = Some (BenchmarkRun.make timestamp test_files endpoints) /\
  (forall ms,
     member "timestamp" ms = None \/ member "test_files" ms = None \/
     member "endpoints" ms = None ->
     BenchmarkRun.model_validate_json (JObj ms) = None).
Proof.
  intros Ht. split.
  - unfold BenchmarkRun.model_validate_json.
    change (member "timestamp" _) with (Some (JStr (Datetime.isoformat timestamp))).
    change (member "test_files" _)
      with (Some (JArr (FileSizeTest.model_dump_json <$> test_files))).
    change (member "endpoints" _) with (Some (JArr (JStr <$> endpoints))).
    change (member "summary" _) with (@None json).
    cbn [mbind option_bind as_str from_option].
    rewrite (fromisoformat_isoformat timestamp Ht). cbn [mbind option_bind].
    rewrite (as_list_fmap FileSizeTest.model_validate_json FileSizeTest.model_dump_json)
      by (apply Forall_true, FileSizeTest_roundtrip).
    cbn [mbind option_bind].
    rewrite (as_list_fmap as_str JStr) by (apply Forall_true; reflexivity).
    reflexivity.
  - intros ms H. unfold BenchmarkRun.model_validate_json.
    destruct H as [H|[H|H]]; rewrite H; cbn [mbind option_bind].
    + reflexivity.
    + destruct (_ ≫= Datetime.fromisoformat); reflexivity.
    + destruct (_ ≫= Datetime.fromisoformat); [|reflexivity]. cbn [mbind option_bind].
      destruct (member "test_files" ms ≫= _); reflexivity.
Qed.

Lemma absent_summary_defaults_to_empty_witness :
  Datetime.valid (Datetime.mk 2024 1 15 10 30 0 123456) = true /\
  BenchmarkRun.model_validate_json
    (JObj [ ("timestamp", JStr (Datetime.isoformat (Datetime.mk 2024 1 15 10 30 0 123456)));
            ("test_files", JArr (FileSizeTest.model_dump_json <$> []));
            ("endpoints", JArr (JStr <$> Client.ENDPOINTS)) ])
  = Some (BenchmarkRun.make (Datetime.mk 2024 1 15 10 30 0 123456) [] Client.ENDPOINTS).
Proof.
  split; [reflexivity|].
  apply (absent_summary_defaults_to_empty (Datetime.mk 2024 1 15 10 30 0 123456) []
           Client.ENDPOINTS).
  reflexivity.
Defined.
(* ===================================================================== *)
(** * The server: the middleware, the context and the chunked loop          *)
(* ===================================================================== *)

Section ServerEdges.

Import Server.

Variable w : World.

Lemma dispatch_head request (call_next : Request -> M State Response) s :
  dispatch w request call_next s =
    Py.bind (call_next request)
      (fun response =>
         end_time ← perf_counter w;
         end_memory ← get_memory_usage_mb w;
         mret {| status_code := status_code response;
                 content := content response;
                 headers :=
                   <["X-Total-Memory-Delta" :=
                       PyFloat.str (end_memory - resident_mb w (S (now s)))]>
                     (<["X-Total-Duration" :=
                          PyFloat.str (end_time - clock w (now s))]>
                        (headers response)) |})
      (dispatched w s).
Proof. reflexivity. Qed.

(** A handler that finds the context variable unset raises before it
    takes any sample. *)
Lemma handler_shape_unset name consume s :
  request_start_memory s = None ->
  handler_shape w name consume s = (Raise (LookupError "request_start_memory"), s).
Proof.
  intros H. unfold handler_shape, request_start_memory_get.
  unfold mbind, M_bind, Py.bind, gets. rewrite H. reflexivity.
Qed.

Lemma call_handler_unset name consume s :
  request_start_memory s = None ->
  call_handler (handler_shape w name consume) s
  = (Raise (LookupError "request_start_memory"), mark_entered s).
Proof.
  intros H. unfold call_handler. unfold mbind, M_bind, Py.bind, modify.
  rewrite handler_shape_unset by exact H. reflexivity.
Qed.

Lemma ceil_chunks_0 c : 0 < c -> (0 + (c - 1)) / c = 0.
Proof. intros Hc. apply Nat.div_small. lia. Qed.

Lemma ceil_chunks_step c r :
  0 < c -> 0 < r ->
  (r + (c - 1)) / c = S ((r - Nat.min c r + (c - 1)) / c).
Proof.
  intros Hc Hr. destruct (Nat.le_gt_cases c r) as [Hle|Hlt].
  - rewrite Nat.min_l by exact Hle.
    replace (r + (c - 1)) with ((r - c + (c - 1)) + 1 * c) by lia.
    rewrite Nat.div_add by lia. lia.
  - rewrite Nat.min_r by lia. rewrite Nat.sub_diag.
    rewrite ceil_chunks_0 by exact Hc.
    replace (r + (c - 1)) with ((r - 1) + 1 * c) by lia.
    rewrite Nat.div_add by lia. rewrite Nat.div_small by lia. reflexivity.
Qed.

(** The chunked loop, read by read. *)
Lemma while_chunk_reads fuel : forall f file_size s,
  reads f <= fuel ->
  while_chunk fuel file_read f file_size s
  = (Ok (file_size + Z.of_nat (remaining f))%Z, advance (reads f) s).
Proof.
  induction fuel as [|fuel IH]; intros f file_size s Hfuel;
    [unfold reads in Hfuel; lia|].
  cbn [while_chunk]. unfold mbind, M_bind, Py.bind.
  unfold file_read at 1.
  unfold mbind, M_bind, Py.bind, elapse, modify, mret, M_ret, Py.ret.
  cbn [fst snd].
  pose proof CHUNK_SIZE_pos as HC.
  assert (Hlen : length (take (Z.to_nat CHUNK_SIZE) (drop (pos f) (data f)))
                 = Nat.min (Z.to_nat CHUNK_SIZE) (remaining f)).
  { unfold remaining. rewrite length_take, length_drop. reflexivity. }
  destruct (take (Z.to_nat CHUNK_SIZE) (drop (pos f) (data f))) as [|b chunk] eqn:Hchunk.
  - assert (Hrem : remaining f = 0) by (cbn [length] in Hlen; lia).
    unfold reads. rewrite Hrem, ceil_chunks_0 by exact HC.
    rewrite Z.add_0_r. reflexivity.
  - assert (Hpos : 0 < remaining f) by (cbn [length] in Hlen; lia).
    set (f' := {| data := data f; pos := pos f + length (b :: chunk) |}).
    assert (Hrem' : remaining f' = remaining f - Nat.min (Z.to_nat CHUNK_SIZE) (remaining f)).
    { unfold remaining, f'. cbn [data pos]. rewrite Hlen. unfold remaining. lia. }
    assert (Hreads : reads f = S (reads f')).
    { unfold reads. rewrite Hrem'. f_equal. apply ceil_chunks_step; assumption. }
    rewrite IH by lia.
    rewrite advance_advance, Hreads, Hrem'. unfold len. rewrite Hlen.
    f_equal; [f_equal; lia|f_equal; lia].
Qed.

End ServerEdges.

(** X5.  The middleware is transparent but for its two headers.  When the
    rest of the application answers, the response goes out with its status
    and its body untouched and with every header it had, other than the
    two the middleware sets; [X-Total-Duration] is the text of the clock
    difference and [X-Total-Memory-Delta] that of the resident-memory
    difference between the middleware's first samples and its last ones,
    taken after the answer came back, and the rest of the application ran
    with the two context variables set to the first samples.  When the
    rest of the application raises, the exception goes through and no
    last sample is taken. *)
Theorem middleware_stamps_every_response
    (w : Server.World) (request : Server.Request)
    (call_next : Server.Request -> M Server.State Response) (s : Server.State) :
  Server.request_start_time (Server.dispatched w s) = Some (Server.clock w (Server.now s)) /\
  Server.request_start_memory (Server.dispatched w s)
  = Some (Server.resident_mb w (S (Server.now s))) /\
  (forall response s1,
     call_next request (Server.dispatched w s) = (Ok response, s1) ->
     exists out s',
       Server.dispatch w request call_next s = (Ok out, s') /\
       status_code out = status_code response /\
       content out = content response /\
       headers out !! "X-Total-Duration"
       = Some (PyFloat.str (Server.clock w (Server.now s1) - Server.clock w (Server.now s))) /\
       headers out !! "X-Total-Memory-Delta"
       = Some (PyFloat.str (Server.resident_mb w (S (Server.now s1))
                            - Server.resident_mb w (S (Server.now s)))) /\
       (forall key, key <> "X-Total-Duration" -> key <> "X-Total-Memory-Delta" ->
                    headers out !! key = headers response !! key) /\
       Server.now s' = S (S (Server.now s1))) /\
  (forall e s1,
     call_next request (Server.dispatched w s) = (Raise e, s1) ->
     Server.dispatch w request call_next s = (Raise e, s1)).
Proof.
  split; [reflexivity|]. split; [reflexivity|]. split.
  - intros response s1 H. rewrite dispatch_head. rewrite (bind_Ok _ _ _ _ _ H).
    eexists. eexists. split; [reflexivity|].
    cbn [status_code content headers].
    split; [reflexivity|]. split; [reflexivity|]. split.
    { rewrite lookup_insert_ne by discriminate. apply lookup_insert_eq. }
    split; [apply lookup_insert_eq|]. split.
    { intros key H1 H2. rewrite !lookup_insert_ne by congruence. reflexivity. }
    reflexivity.
  - intros e s1 H. rewrite dispatch_head. apply bind_Raise. exact H.
Qed.

Lemma middleware_stamps_every_response_witness :
  exists out s',
    Server.dispatch Samples.growing Samples.buffered_upload
      (fun _ => mret (Server.error_response 404 "Not Found")) (Server.initial 0)
    = (Ok out, s') /\
    status_code out = 404%Z /\
    headers out !! "X-Total-Duration" = Some "2.0" /\
    headers out !! "X-Total-Memory-Delta" = Some "64.0".
Proof.
  destruct (middleware_stamps_every_response Samples.growing Samples.buffered_upload
              (fun _ => mret (Server.error_response 404 "Not Found")) (Server.initial 0))
    as (_ & _ & Hok & _).
  destruct (Hok (Server.error_response 404 "Not Found")
              (Server.dispatched Samples.growing (Server.initial 0)) eq_refl)
    as (out & s' & Hrun & Hst & _ & Hd & Hm & _).
  exists out, s'. split; [exact Hrun|]. split; [exact Hst|].
  split; [rewrite Hd; vm_compute; reflexivity|rewrite Hm; vm_compute; reflexivity].
Defined.

(** X6.  The handlers depend on the middleware: each of the five, run
    with the context variable of the request's memory unset, raises
    [LookupError] at once, before it takes a sample or reads a byte; and
    a request that reaches its route without having gone through the
    middleware fails in that way once the framework has entered the
    handler, which never returns. *)
Theorem handlers_require_the_request_context
    (w : Server.World) (before after fuel : nat) (request : Server.Request)
    (file : list byte) (upload : Server.SpooledFile) (s : Server.State) :
  Server.request_start_memory s = None ->
  (exists msg, Server.upload_sync_file w file s = (Raise (LookupError msg), s)) /\
  (exists msg, Server.upload_async_file w file s = (Raise (LookupError msg), s)) /\
  (exists msg, Server.upload_sync_uploadfile w fuel upload s = (Raise (LookupError msg), s)) /\
  (exists msg, Server.upload_async_uploadfile w fuel upload s = (Raise (LookupError msg), s)) /\
  (exists msg, Server.upload_async_stream w (Server.wire request) s
               = (Raise (LookupError msg), s)) /\
  (forall body, Server.delivered request = Some body ->
     exists msg s',
       Server.app w before after fuel request s = (Raise (LookupError msg), s') /\
       is_Some (Server.handler_entered s') /\
       Server.handler_returned s' = Server.handler_returned s).
Proof.
  intros H.
  split; [eexists; rewrite upload_sync_file_shape; apply handler_shape_unset, H|].
  split; [eexists; rewrite upload_async_file_shape; apply handler_shape_unset, H|].
  split; [eexists; rewrite upload_sync_uploadfile_shape; apply handler_shape_unset, H|].
  split; [eexists; rewrite upload_async_uploadfile_shape; apply handler_shape_unset, H|].
  split; [eexists; rewrite upload_async_stream_shape; apply handler_shape_unset, H|].
  intros body Hd. exists "request_start_memory".
  apply delivered_cases in Hd as [[Hp ->] | [Hp Hf]].
  - eexists. split.
    + unfold Server.app. unfold mbind, M_bind. rewrite bind_elapse, Hp.
      cbv [String.eqb Ascii.eqb Bool.eqb]. rewrite upload_async_stream_shape.
      apply bind_Raise. apply call_handler_unset. exact H.
    + split; [eexists; reflexivity|reflexivity].
  - unfold Server.FORM_ROUTES in Hp.
    repeat (apply elem_of_cons in Hp as [Hp|Hp]); [| | | |set_solver].
    all: eexists; split;
      [ unfold Server.app, Server.with_form_file; unfold mbind, M_bind;
        rewrite bind_elapse, Hp; cbv [String.eqb Ascii.eqb Bool.eqb];
        rewrite bind_assoc, bind_elapse, Hf;
        first [ rewrite upload_sync_file_shape | rewrite upload_async_file_shape
              | rewrite upload_sync_uploadfile_shape | rewrite upload_async_uploadfile_shape ];
        apply bind_Raise; apply call_handler_unset; exact H
      | split; [eexists; reflexivity|reflexivity] ].
Qed.

Lemma handlers_require_the_request_context_witness :
  Server.request_start_memory (Server.initial 0) = None /\
  exists msg s',
    Server.app Samples.growing 1 1 4 Samples.buffered_upload (Server.initial 0)
    = (Raise (LookupError msg), s') /\
    is_Some (Server.handler_entered s').
Proof.
  split; [reflexivity|].
  destruct (handlers_require_the_request_context Samples.growing 1 1 4
              Samples.buffered_upload [] {| Server.data := []; Server.pos := 0 |}
              (Server.initial 0) eq_refl)
    as (_ & _ & _ & _ & _ & Happ).
  destruct (Happ [x01; x02; x03] eq_refl) as (msg & s' & Hrun & He & _).
  exists msg, s'. split; [exact Hrun|exact He].
Defined.

(** X7.  The chunked loop of the two [UploadFile] routes reads the file
    to its end in steps of [CHUNK_SIZE]: from any read position it counts
    exactly the bytes left, in one read for each chunk begun and a last
    read that comes back empty; as many iterations of fuel as there are
    reads are enough, and the synchronous and the asynchronous read
    behave alike. *)
Theorem chunked_loop_reads_in_chunk_size_steps
    (w : Server.World) (fuel : nat) (f : Server.SpooledFile) (file_size : Z)
    (s : Server.State) :
  Server.reads f <= fuel ->
  Server.while_chunk fuel Server.file_read f file_size s
  = (Ok (file_size + Z.of_nat (Server.remaining f))%Z, Server.advance (Server.reads f) s) /\
  Server.while_chunk fuel Server.UploadFile_read f file_size s
  = (Ok (file_size + Z.of_nat (Server.remaining f))%Z, Server.advance (Server.reads f) s).
Proof.
  intros Hfuel. split.
  - apply while_chunk_reads, Hfuel.
  - change (Server.while_chunk fuel Server.UploadFile_read f file_size s)
      with (Server.while_chunk fuel Server.file_read f file_size s).
    apply while_chunk_reads, Hfuel.
Qed.

Lemma chunked_loop_reads_in_chunk_size_steps_witness :
  Server.reads {| Server.data := [x01; x02; x03]; Server.pos := 1 |} <= 2 /\
  Server.while_chunk 2 Server.file_read
    {| Server.data := [x01; x02; x03]; Server.pos := 1 |} 0 (Server.initial 0)
  = (Ok 2%Z, Server.advance 2 (Server.initial 0)).
Proof.
  assert (Hr : Server.reads {| Server.data := [x01; x02; x03]; Server.pos := 1 |} = 2)
    by (vm_compute; reflexivity).
  split; [rewrite Hr; lia|].
  destruct (chunked_loop_reads_in_chunk_size_steps Samples.growing 2
              {| Server.data := [x01; x02; x03]; Server.pos := 1 |} 0
              (Server.initial 0)) as [H _].
  { rewrite Hr. lia. }
  rewrite H, Hr. reflexivity.
Defined.
(* ===================================================================== *)
(** * The client: generating the test files                                 *)
(* ===================================================================== *)

Section Generation.

Import Client.

Variable w : World.

Local Arguments String.append : simpl never.
Local Arguments Z.mul : simpl never.
Local Arguments Z.div : simpl never.

Lemma writes_nonpositive remaining : (remaining <= 0)%Z -> writes remaining = 0.
Proof.
  intros H. unfold writes. rewrite Z.max_l by exact H.
  change (0 + (1024 * 1024 - 1))%Z with 1048575%Z.
  change (1024 * 1024)%Z with 1048576%Z.
  rewrite Z.div_small by lia. reflexivity.
Qed.

Lemma writes_step remaining :
  (0 < remaining)%Z ->
  writes remaining = S (writes (remaining - Z.min (1024 * 1024) remaining)).
Proof.
  intros H. unfold writes.
  change (1024 * 1024 - 1)%Z with 1048575%Z.
  change (1024 * 1024)%Z with 1048576%Z.
  rewrite (Z.max_r 0 remaining) by lia.
  destruct (Z.le_gt_cases 1048576 remaining) as [Hle|Hlt].
  - rewrite Z.min_l by exact Hle. rewrite Z.max_r by lia.
    replace (remaining + 1048575)%Z with ((remaining - 1048576 + 1048575) + 1 * 1048576)%Z by lia.
    rewrite Z.div_add by lia.
    rewrite Z2Nat.inj_add; [|apply Z.div_pos; lia|lia].
    change (Z.to_nat 1) with 1. lia.
  - rewrite Z.min_r by lia. rewrite Z.sub_diag. rewrite Z.max_l by lia.
    change (0 + 1048575)%Z with 1048575%Z.
    rewrite (Z.div_small 1048575) by lia.
    replace (remaining + 1048575)%Z with ((remaining - 1) + 1 * 1048576)%Z by lia.
    rewrite Z.div_add by lia. rewrite Z.div_small by lia. reflexivity.
Qed.

Lemma written_written filepath b1 b2 n m s :
  written filepath b2 n (written filepath b1 m s) = written filepath b2 (n + m) s.
Proof.
  unfold written. cbn [now stdout files results_file sent]. f_equal; [lia|].
  apply insert_insert_eq.
Qed.

(** The loop of [generate_test_file]: what is left to write is appended to
    the file in writes of at most one MiB, one instant each. *)
Lemma write_random_run fuel filepath : forall remaining s b,
  files s !! filepath = Some b ->
  (remaining <= Z.of_nat fuel * (1024 * 1024))%Z ->
  exists data,
    write_random w (S fuel) filepath (1024 * 1024) remaining s
    = (Ok tt, written filepath (b ++ data) (writes remaining) s) /\
    len data = Z.max 0 remaining.
Proof.
  induction fuel as [|fuel IH]; intros remaining s b Hb Hfuel.
  - exists []. cbn [write_random].
    assert (Hle : (remaining <= 0)%Z) by lia.
    apply Z.ltb_ge in Hle as Hle'. rewrite Hle'.
    rewrite writes_nonpositive by exact Hle. rewrite Z.max_l by exact Hle.
    split; [|reflexivity].
    unfold mret, M_ret, Py.ret, written. rewrite app_nil_r. f_equal.
    destruct s as [n out fs rf sn]. cbn in *. f_equal.
    symmetry. apply insert_id. exact Hb.
  - cbn [write_random].
    destruct (0 <? remaining)%Z eqn:Hpos.
    + apply Z.ltb_lt in Hpos.
      set (write_size := Z.min (1024 * 1024) remaining).
      set (data1 := random_byte w (now s) <$> seq 0 (Z.to_nat write_size)).
      set (s1 := append_file filepath data1 (advance 1 s)).
      assert (Hs1 : files s1 !! filepath = Some (b ++ data1)%list).
      { unfold s1, append_file. cbn [files advance]. rewrite Hb. cbn [default].
        apply lookup_insert_eq. }
      destruct (IH (remaining - write_size)%Z s1 (b ++ data1)%list Hs1) as (data & Hrun & Hlen).
      { unfold write_size. lia. }
      exists (data1 ++ data)%list. split.
      * unfold mbind, M_bind. unfold Py.bind at 1.
        unfold os_urandom. unfold mbind, M_bind, Py.bind, gets, modify, mret, M_ret, Py.ret.
        fold data1. fold s1.
        change (write_random w (S fuel) filepath (1024 * 1024) (remaining - write_size) s1
                = (Ok tt, written filepath (b ++ data1 ++ data) (writes remaining) s)).
        rewrite Hrun. f_equal.
        rewrite (writes_step remaining Hpos). fold write_size.
        unfold written, s1, append_file.
        cbn [now stdout files results_file sent advance].
        rewrite Hb. cbn [default]. rewrite insert_insert_eq, <- app_assoc.
        f_equal. lia.
      * rewrite len_app, Hlen. unfold len, data1.
        rewrite length_fmap, length_seq. unfold write_size in *. lia.
    + apply Z.ltb_ge in Hpos. exists [].
      rewrite writes_nonpositive by exact Hpos. rewrite Z.max_l by exact Hpos.
      split; [|reflexivity].
      unfold mret, M_ret, Py.ret, written. rewrite app_nil_r. f_equal.
      destruct s as [n out fs rf sn]. cbn in *. f_equal.
      symmetry. apply insert_id. exact Hb.
Qed.

Lemma exists_with_size_run filepath size_bytes s :
  exists_with_size filepath size_bytes s = (Ok (in_place filepath size_bytes s), s).
Proof. reflexivity. Qed.

(** A file that is there with the size asked for is left as it is. *)
Lemma generate_test_file_reuse fuel size_bytes filename s :
  in_place (TEST_FILES_DIR +:+ "/" +:+ filename) size_bytes s = true ->
  generate_test_file w fuel size_bytes filename s
  = (Ok (TEST_FILES_DIR +:+ "/" +:+ filename), s).
Proof.
  intros H. unfold generate_test_file.
  rewrite (bind_Ok _ _ _ _ _ (exists_with_size_run _ _ _)). rewrite H. reflexivity.
Qed.

(** Otherwise the file is made anew. *)
Lemma generate_test_file_fresh fuel size_bytes filename s :
  in_place (TEST_FILES_DIR +:+ "/" +:+ filename) size_bytes s = false ->
  (size_bytes <= Z.of_nat fuel * (1024 * 1024))%Z ->
  exists content,
    generate_test_file w (S fuel) size_bytes filename s
    = (Ok (TEST_FILES_DIR +:+ "/" +:+ filename),
       written (TEST_FILES_DIR +:+ "/" +:+ filename) content (writes size_bytes) s) /\
    len content = Z.max 0 size_bytes.
Proof.
  intros H Hfuel. unfold generate_test_file.
  rewrite (bind_Ok _ _ _ _ _ (exists_with_size_run _ _ _)). rewrite H.
  set (filepath := TEST_FILES_DIR +:+ "/" +:+ filename).
  destruct (write_random_run fuel filepath size_bytes (truncate_file filepath s) [])
    as (data & Hrun & Hlen).
  { unfold truncate_file. cbn [files]. apply lookup_insert_eq. }
  { exact Hfuel. }
  exists data. split; [|exact Hlen].
  unfold mbind, M_bind. unfold Py.bind at 1. unfold modify.
  rewrite (bind_Ok _ _ _ _ _ Hrun). unfold mret, M_ret, Py.ret. f_equal.
  unfold written, truncate_file. cbn [now stdout files results_file sent app].
  rewrite insert_insert_eq. reflexivity.
Qed.

Lemma in_place_written filepath content n s size_bytes :
  len content = size_bytes ->
  in_place filepath size_bytes (written filepath content n s) = true.
Proof.
  intros H. unfold in_place, written. cbn [files]. rewrite lookup_insert_eq.
  apply Z.eqb_eq, H.
Qed.

End Generation.

(** X8.  [generate_test_file] always leaves, at the path it returns, a file
    of the size asked for (an empty one when that size is negative), and
    touches no other file, the results store or the output.  A file that
    was there with that size is kept, bytes and all, and costs nothing;
    otherwise the file is made anew from random bytes in one write for
    each MiB begun.  One iteration of fuel a write, and one more, is
    enough. *)
Theorem generate_test_file_leaves_a_file_of_the_size
    (w : Client.World) (fuel : nat) (size_bytes : Z) (filename : string)
    (s : Client.State) :
  (size_bytes <= Z.of_nat fuel * (1024 * 1024))%Z ->
  exists content s',
    Client.generate_test_file w (S fuel) size_bytes filename s
    = (Ok (Client.TEST_FILES_DIR +:+ "/" +:+ filename), s') /\
    Client.files s' !! (Client.TEST_FILES_DIR +:+ "/" +:+ filename) = Some content /\
    len content = Z.max 0 size_bytes /\
    (forall other, other <> Client.TEST_FILES_DIR +:+ "/" +:+ filename ->
                   Client.files s' !! other = Client.files s !! other) /\
    Client.results_file s' = Client.results_file s /\
    Client.stdout s' = Client.stdout s /\
    Client.sent s' = Client.sent s /\
    (Client.in_place (Client.TEST_FILES_DIR +:+ "/" +:+ filename) size_bytes s = true ->
     s' = s) /\
    (Client.in_place (Client.TEST_FILES_DIR +:+ "/" +:+ filename) size_bytes s = false ->
     Client.now s' = Client.writes size_bytes + Client.now s).
Proof.
  intros Hfuel.
  destruct (Client.in_place (Client.TEST_FILES_DIR +:+ "/" +:+ filename) size_bytes s) eqn:Hin.
  - pose proof Hin as Hin'. unfold Client.in_place in Hin'.
    destruct (Client.files s !! _) as [b|] eqn:Hb; [|discriminate].
    apply Z.eqb_eq in Hin'.
    exists b, s. split; [apply generate_test_file_reuse, Hin|].
    split; [exact Hb|]. split; [unfold len in *; lia|].
    repeat split; try reflexivity. discriminate.
  - destruct (generate_test_file_fresh w fuel size_bytes filename s Hin Hfuel)
      as (content & Hrun & Hlen).
    exists content. eexists. split; [exact Hrun|].
    unfold Client.written. cbn [Client.files Client.results_file Client.stdout Client.sent Client.now].
    split; [apply lookup_insert_eq|]. split; [exact Hlen|].
    split; [intros other Hne; apply lookup_insert_ne; congruence|].
    repeat split; try reflexivity. discriminate.
Qed.

Lemma generate_test_file_leaves_a_file_of_the_size_witness :
  (3 <= Z.of_nat 1 * (1024 * 1024))%Z /\
  exists content s',
    Client.generate_test_file Samples.flaky 2 3 "test_3B.bin" Samples.fresh
    = (Ok "test_files/test_3B.bin", s') /\
    Client.files s' !! "test_files/test_3B.bin" = Some content /\
    len content = 3%Z /\
    Client.files s' !! "test_files/test_1KB.bin" = Some [x01; x02; x03].
Proof.
  split; [lia|].
  destruct (generate_test_file_leaves_a_file_of_the_size Samples.flaky 1 3 "test_3B.bin"
              Samples.fresh) as (content & s' & Hrun & Hfile & Hlen & Hother & _).
  { lia. }
  exists content, s'. split; [exact Hrun|]. split; [exact Hfile|].
  split; [exact Hlen|].
  rewrite (Hother "test_files/test_1KB.bin") by discriminate. reflexivity.
Defined.

(** X9.  Generating a test file twice is generating it once: the second
    call finds the file of the first with the size asked for, returns the
    same path and leaves the state exactly as it found it, drawing no
    random byte and needing no fuel. *)
Theorem generate_test_file_is_idempotent
    (w : Client.World) (fuel fuel' : nat) (size_bytes : Z) (filename : string)
    (s : Client.State) :
  (0 <= size_bytes <= Z.of_nat fuel * (1024 * 1024))%Z ->
  exists filepath s',
    Client.generate_test_file w (S fuel) size_bytes filename s = (Ok filepath, s') /\
    Client.generate_test_file w fuel' size_bytes filename s' = (Ok filepath, s').
Proof.
  intros [Hpos Hfuel].
  destruct (Client.in_place (Client.TEST_FILES_DIR +:+ "/" +:+ filename) size_bytes s) eqn:Hin.
  - exists (Client.TEST_FILES_DIR +:+ "/" +:+ filename), s.
    split; apply generate_test_file_reuse, Hin.
  - destruct (generate_test_file_fresh w fuel size_bytes filename s Hin Hfuel)
      as (content & Hrun & Hlen).
    eexists. eexists. split; [exact Hrun|].
    apply generate_test_file_reuse. apply in_place_written. lia.
Qed.

Lemma generate_test_file_is_idempotent_witness :
  (0 <= 3 <= Z.of_nat 1 * (1024 * 1024))%Z /\
  exists filepath s',
    Client.generate_test_file Samples.flaky 2 3 "test_3B.bin" Samples.fresh
    = (Ok filepath, s') /\
    Client.generate_test_file Samples.flaky 0 3 "test_3B.bin" s' = (Ok filepath, s').
Proof.
  split; [lia|].
  apply (generate_test_file_is_idempotent Samples.flaky 1 0 3 "test_3B.bin" Samples.fresh).
  lia.
Defined.
(* ===================================================================== *)
(** * The client: what a trial files, and the run as a whole                *)
(* ===================================================================== *)

Section Trials.

Import Client.

Variable w : World.

Local Arguments Text.replace : simpl never.
Local Arguments Text.contains : simpl never.
Local Arguments Text.basename : simpl never.
Local Arguments PyFloat.of_str : simpl never.
Local Arguments PyFloat.format_f : simpl never.
Local Arguments ServerResponse.model_validate_json : simpl never.
Local Arguments String.append : simpl never.
Local Arguments pretty : simpl never.

Ltac framed :=
  unfold undisturbed;
  cbn [files results_file now sent emit advance after_post announced];
  unfold post_instant;
  cbn [files results_file now sent emit advance after_post announced];
  repeat split; try reflexivity; try (destruct (Text.contains _ _)); lia.

(** A body that does not validate makes [received] raise. *)
Lemma received_invalid t0 response s :
  status_code response = 200%Z ->
  ServerResponse.model_validate_json (content response) = None ->
  exists msg, received w t0 response s = (Raise (ValidationError msg), advance 1 s).
Proof.
  intros Hst Hv. eexists. unfold received. unfold mbind, M_bind.
  erewrite bind_Ok by reflexivity.
  rewrite Hst, Hv. cbn [Z.eqb Pos.eqb negb].
  erewrite bind_Raise by reflexivity. reflexivity.
Qed.

(** A trial, in full: it returns the entries [filed] describes, sends the
    one request of its upload when the test file is there, and leaves the
    files and the store alone. *)
Lemma trial_run filepath endpoint endpoint_results s :
  exists s',
    trial w filepath endpoint endpoint_results s
    = (Ok (filed endpoint (exchange w endpoint filepath s ≫= accepted)
             (clock w (S (post_instant endpoint s)) - clock w (now s))%Q
             endpoint_results), s') /\
    undisturbed s s' /\
    sent s' = (sent s ++ requests_of endpoint filepath s)%list.
Proof.
  unfold exchange, requests_of.
  destruct (files s !! filepath) as [bytes|] eqn:Hfile.
  - assert (Hfile' : files (announced endpoint s) !! filepath = Some bytes) by exact Hfile.
    pose proof (upload_file_run w endpoint filepath (announced endpoint s) bytes Hfile') as Hrun.
    change (post_instant endpoint (announced endpoint s)) with (post_instant endpoint s) in Hrun.
    cbn [mbind option_bind].
    destruct (network w (post_instant endpoint s) (request_of endpoint filepath bytes))
      as [response|e] eqn:Hnet.
    + cbn [accepted].
      destruct (Z.eq_dec (status_code response) 200%Z) as [Hst|Hst].
      * rewrite Hst. cbn [Z.eqb Pos.eqb].
        destruct (ServerResponse.model_validate_json (content response)) as [sr|] eqn:Hv.
        -- destruct (header_value "X-Total-Duration" response) as [d|] eqn:Hd.
           ++ destruct (header_value "X-Total-Memory-Delta" response) as [md|] eqn:Hmd.
              ** rewrite (received_metrics w _ response _ sr d md Hst Hv Hd Hmd) in Hrun.
                 eexists. split; [eapply trial_metrics; exact Hrun|].
                 split; [framed|]. reflexivity.
              ** destruct (received_malformed w (clock w (now (announced endpoint s))) response
                             (after_post endpoint filepath bytes (announced endpoint s))
                             sr Hst Hv (or_intror Hmd)) as [msg Hm].
                 rewrite Hm in Hrun.
                 eexists. split; [eapply trial_raise; exact Hrun|].
                 split; [framed|]. reflexivity.
           ++ destruct (received_malformed w (clock w (now (announced endpoint s))) response
                          (after_post endpoint filepath bytes (announced endpoint s))
                          sr Hst Hv (or_introl Hd)) as [msg Hm].
              rewrite Hm in Hrun.
              eexists. split; [eapply trial_raise; exact Hrun|].
              split; [framed|]. reflexivity.
        -- destruct (received_invalid (clock w (now (announced endpoint s))) response
                       (after_post endpoint filepath bytes (announced endpoint s))
                       Hst Hv) as [msg Hm].
           rewrite Hm in Hrun.
           eexists. split; [eapply trial_raise; exact Hrun|].
           split; [framed|]. reflexivity.
      * pose proof Hst as Hst'. apply Z.eqb_neq in Hst'. rewrite Hst'.
        rewrite (received_error w _ response _ Hst) in Hrun.
        eexists. split; [eapply trial_error; exact Hrun|].
        split; [framed|]. reflexivity.
    + eexists. split; [eapply trial_raise; exact Hrun|].
      split; [framed|]. reflexivity.
  - assert (Hfile' : files (announced endpoint s) !! filepath = None) by exact Hfile.
    destruct (upload_file_missing w endpoint filepath (announced endpoint s) Hfile') as [e He].
    eexists. split; [eapply trial_raise; exact He|].
    split; [framed|]. cbn [sent emit advance announced]. rewrite app_nil_r. reflexivity.
Qed.

Lemma requests_of_same endpoint filepath s s' :
  files s' = files s -> requests_of endpoint filepath s' = requests_of endpoint filepath s.
Proof. unfold requests_of. intros ->. reflexivity. Qed.

Lemma merged_consistent endpoint sr cd d md :
  endpoint ∈ ENDPOINTS ->
  consistent (endpoint_name endpoint) (merged endpoint sr cd d md).
Proof.
  intros Hin. unfold consistent, merged.
  cbn [EndpointMetrics.endpoint EndpointMetrics.total_throughput_mbps
       EndpointMetrics.total_duration_seconds EndpointMetrics.file_size_mb].
  split; [reflexivity|]. split; [|reflexivity].
  apply list_elem_of_fmap. exists endpoint. split; [reflexivity|exact Hin].
Qed.

Lemma filed_consistent endpoint o cd endpoint_results :
  endpoint ∈ ENDPOINTS ->
  map_Forall consistent endpoint_results ->
  map_Forall consistent (filed endpoint o cd endpoint_results).
Proof.
  intros Hin Hres. unfold filed. destruct o as [[[sr d] md]|]; [|exact Hres].
  apply map_Forall_insert_2; [|exact Hres]. apply merged_consistent, Hin.
Qed.

Lemma filed_other endpoint o cd endpoint_results name :
  name <> endpoint_name endpoint ->
  filed endpoint o cd endpoint_results !! name = endpoint_results !! name.
Proof.
  intros Hne. unfold filed. destruct o as [[[sr d] md]|]; [|reflexivity].
  apply lookup_insert_ne. congruence.
Qed.

(** The loop over the endpoints of one file keeps the entries
    [consistent], sends the requests of its uploads in the order of the
    endpoints, and touches no other entry. *)
Lemma for_endpoints_files filepath endpoints : forall endpoint_results s,
  Forall (fun e => e ∈ ENDPOINTS) endpoints ->
  map_Forall consistent endpoint_results ->
  exists m s',
    for_endpoints w filepath endpoints endpoint_results s = (Ok m, s') /\
    undisturbed s s' /\
    map_Forall consistent m /\
    sent s' = (sent s ++ concat ((fun e => requests_of e filepath s) <$> endpoints))%list /\
    (forall name : string,
       name ∉ endpoint_name <$> endpoints -> m !! name = endpoint_results !! name).
Proof.
  induction endpoints as [|endpoint rest IH]; intros endpoint_results s Hin Hres.
  - exists endpoint_results, s. split; [reflexivity|]. split; [framed|].
    split; [exact Hres|]. split; [cbn; rewrite app_nil_r; reflexivity|]. reflexivity.
  - apply Forall_cons in Hin as [Hin Hrest].
    destruct (trial_run filepath endpoint endpoint_results s) as (s1 & Ht & Hf1 & Hs1).
    match type of Ht with
    | _ = (Ok ?m1, _) =>
        destruct (IH m1 s1 Hrest (filed_consistent endpoint _ _ _ Hin Hres))
          as (m & s' & Hloop & Hf & Hm & Hs & Hother)
    end.
    exists m, s'. cbn [for_endpoints]. unfold mbind, M_bind.
    rewrite (bind_Ok _ _ _ _ _ Ht). split; [exact Hloop|].
    split; [exact (undisturbed_trans _ _ _ Hf1 Hf)|]. split; [exact Hm|]. split.
    + rewrite Hs, Hs1. rewrite fmap_cons. cbn [concat]. rewrite <- app_assoc.
      f_equal. f_equal. f_equal. apply list_fmap_ext. intros i e _.
      apply requests_of_same. exact (proj1 Hf1).
    + intros name Hname. rewrite fmap_cons in Hname.
      apply not_elem_of_cons in Hname as [Hne Hname].
      rewrite (Hother name Hname). apply filed_other. exact Hne.
Qed.

(** What the orchestrator records of a test file. *)
Lemma for_test_files_records test_files : forall test_results s,
  Forall (fun p : string * string => is_Some (files s !! p.2)) test_files ->
  exists news s',
    for_test_files w test_files test_results s = (Ok (test_results ++ news)%list, s') /\
    undisturbed s s' /\
    Forall2 (fun (p : string * string) (t : FileSizeTest.t) =>
               FileSizeTest.file_size_label t = p.1 /\
               (exists b, files s !! p.2 = Some b /\ FileSizeTest.file_size_bytes t = len b) /\
               map_Forall consistent (FileSizeTest.results t))
            test_files news /\
    sent s' =
      (sent s ++
       concat ((fun p : string * string =>
                  concat ((fun e => requests_of e p.2 s) <$> ENDPOINTS)) <$> test_files))%list.
Proof.
  induction test_files as [|[size_name filepath] rest IH]; intros test_results s Hfiles.
  - exists [], s. cbn [for_test_files]. rewrite app_nil_r.
    split; [reflexivity|]. split; [framed|]. split; [constructor|].
    cbn. rewrite app_nil_r. reflexivity.
  - apply Forall_cons in Hfiles as [[b Hb] Hrest]. cbn [snd] in Hb.
    destruct (for_endpoints_files filepath ENDPOINTS ∅
                (emit (("Testing " +:+ size_name +:+ " file:") +:+ nl) s))
      as (m & s1 & Hloop & Hf1 & Hm & Hs1 & _).
    { apply Forall_forall. intros e He. exact He. }
    { apply map_Forall_empty. }
    destruct (IH (test_results ++ [FileSizeTest.mk size_name (len b) m])%list
                (emit ("" +:+ nl) s1)) as (news & s' & Hrun & Hf & Hrec & Hs).
    { cbn [files emit]. rewrite (proj1 Hf1). exact Hrest. }
    exists (FileSizeTest.mk size_name (len b) m :: news), s'.
    cbn [for_test_files]. unfold mbind, M_bind.
    erewrite bind_Ok.
    2:{ unfold stat_size, mbind, M_bind, Py.bind, gets. rewrite Hb. reflexivity. }
    erewrite bind_Ok by reflexivity.
    rewrite (bind_Ok _ _ _ _ _ Hloop).
    erewrite bind_Ok by reflexivity.
    assert (Hfs : files (emit ("" +:+ nl) s1) = files s).
    { cbn [files emit]. rewrite (proj1 Hf1). reflexivity. }
    split.
    { rewrite Hrun, <- app_assoc. reflexivity. }
    split.
    { eapply undisturbed_trans; [|exact Hf].
      eapply undisturbed_trans; [|framed].
      eapply undisturbed_trans; [|exact Hf1]. framed. }
    split.
    { constructor.
      - cbn [FileSizeTest.file_size_label FileSizeTest.file_size_bytes FileSizeTest.results fst snd].
        split; [reflexivity|]. split; [exists b; split; [exact Hb|reflexivity]|exact Hm].
      - eapply Forall2_impl; [exact Hrec|].
        intros p t (Hl & (b' & Hb' & Hbytes) & Hc).
        split; [exact Hl|]. split; [|exact Hc].
        exists b'. split; [rewrite <- Hfs; exact Hb'|exact Hbytes]. }
    rewrite Hs. cbn [sent emit]. rewrite Hs1. cbn [sent emit].
    rewrite fmap_cons. cbn [concat snd]. rewrite <- app_assoc.
    f_equal. f_equal. f_equal.
    apply list_fmap_ext. intros i p _. f_equal.
    apply list_fmap_ext. intros j e _. apply requests_of_same. exact Hfs.
Qed.

(** The preparation, whatever is there at the start: every file of the
    list is reused or generated, so that all are in place at the end. *)
Lemma for_file_sizes_run fuel file_sizes : forall test_files s,
  NoDup ((fun p : string * Z => test_file_path p.1) <$> file_sizes) ->
  Forall (fun p : string * Z => (0 <= p.2 <= Z.of_nat fuel * (1024 * 1024))%Z) file_sizes ->
  exists s',
    for_file_sizes w (S fuel) file_sizes test_files s
    = (Ok (prepared_files file_sizes test_files), s') /\
    provisioned file_sizes s' /\
    (forall path, path ∉ (fun p : string * Z => test_file_path p.1) <$> file_sizes ->
                  files s' !! path = files s !! path) /\
    results_file s' = results_file s /\
    sent s' = sent s /\
    now s <= now s'.
Proof.
  induction file_sizes as [|[size_name size_bytes] rest IH]; intros test_files s Hnd Hsz.
  - exists s. split; [reflexivity|]. split; [constructor|]. repeat split; reflexivity.
  - rewrite fmap_cons in Hnd. apply NoDup_cons in Hnd as [Hhead Hnd]. cbn [fst] in Hhead.
    apply Forall_cons in Hsz as [[Hpos Hfuel] Hsz]. cbn [snd] in Hpos, Hfuel.
    assert (Hstep : exists s1 b,
      for_file_sizes w (S fuel) ((size_name, size_bytes) :: rest) test_files s
      = for_file_sizes w (S fuel) rest
          (dict_set test_files size_name (test_file_path size_name)) s1 /\
      files s1 !! test_file_path size_name = Some b /\ len b = size_bytes /\
      (forall path, path <> test_file_path size_name -> files s1 !! path = files s !! path) /\
      results_file s1 = results_file s /\ sent s1 = sent s /\ now s <= now s1).
    { destruct (in_place (test_file_path size_name) size_bytes s) eqn:Hin.
      - pose proof Hin as Hin'. unfold in_place in Hin'.
        destruct (files s !! test_file_path size_name) as [b|] eqn:Hb; [|discriminate].
        apply Z.eqb_eq in Hin'.
        exists (emit (("  " +:+ size_name +:+ " file... ✓ (reusing existing)") +:+ nl) s), b.
        split.
        { cbn [for_file_sizes].
          rewrite (bind_Ok _ _ _ _ _ (exists_with_size_run _ _ _)).
          change (TEST_FILES_DIR +:+ "/" +:+ "test_" +:+ size_name +:+ ".bin")
            with (test_file_path size_name).
          rewrite Hin. reflexivity. }
        cbn [files results_file sent now emit].
        split; [exact Hb|]. split; [exact Hin'|]. repeat split; try reflexivity.
      - destruct (generate_test_file_fresh w fuel size_bytes
                    ("test_" +:+ size_name +:+ ".bin")
                    (emit (("  Generating " +:+ size_name +:+ " file...") +:+ " ") s))
          as (content & Hgen & Hlen).
        { exact Hin. }
        { exact Hfuel. }
        eexists. exists content. split.
        { cbn [for_file_sizes].
          rewrite (bind_Ok _ _ _ _ _ (exists_with_size_run _ _ _)).
          change (TEST_FILES_DIR +:+ "/" +:+ "test_" +:+ size_name +:+ ".bin")
            with (test_file_path size_name).
          rewrite Hin. unfold mbind, M_bind.
          erewrite bind_Ok by reflexivity.
          rewrite (bind_Ok _ _ _ _ _ Hgen).
          erewrite bind_Ok by reflexivity.
          reflexivity. }
        change (TEST_FILES_DIR +:+ "/" +:+ "test_" +:+ size_name +:+ ".bin")
          with (test_file_path size_name).
        unfold written. cbn [files results_file sent now emit].
        split; [apply lookup_insert_eq|]. split; [lia|].
        split; [intros path Hne; apply lookup_insert_ne; congruence|].
        repeat split; try reflexivity. lia. }
    destruct Hstep as (s1 & b & Hhd & Hb & Hlen & Hother1 & Hrf1 & Hsent1 & Hnow1).
    destruct (IH (dict_set test_files size_name (test_file_path size_name)) s1 Hnd Hsz)
      as (s' & Hrun & Hprov & Hother & Hrf & Hsent & Hnow).
    exists s'. split.
    { rewrite Hhd. exact Hrun. }
    split.
    { constructor; [|exact Hprov]. cbn [fst snd].
      exists b. split; [|exact Hlen]. rewrite (Hother _ Hhead). exact Hb. }
    split.
    { intros path Hpath. rewrite fmap_cons in Hpath.
      apply not_elem_of_cons in Hpath as [Hne Hpath]. cbn [fst] in Hne.
      rewrite (Hother _ Hpath). apply Hother1, Hne. }
    split; [congruence|]. split; [congruence|lia].
Qed.

Lemma matrix_paths_distinct :
  NoDup ((fun p : string * Z => test_file_path p.1) <$> FILE_SIZES).
Proof. apply (bool_decide_unpack _). vm_compute. exact I. Qed.

Lemma matrix_sizes_bounded fuel :
  1024 <= fuel ->
  Forall (fun p : string * Z => (0 <= p.2 <= Z.of_nat fuel * (1024 * 1024))%Z) FILE_SIZES.
Proof.
  intros Hfuel.
  assert (H : Forall (fun p : string * Z => (0 <= p.2 <= 1024 * (1024 * 1024))%Z) FILE_SIZES).
  { apply (bool_decide_unpack _). vm_compute. exact I. }
  eapply Forall_impl; [exact H|]. cbn. intros p Hp. nia.
Qed.

Lemma prepared_matrix_files : prepared_files FILE_SIZES [] = matrix_files.
Proof. vm_compute. reflexivity. Qed.

Lemma provisioned_there file_sizes s :
  provisioned file_sizes s ->
  Forall (fun p : string * string => is_Some (files s !! p.2))
         ((fun p : string * Z => (p.1, test_file_path p.1)) <$> file_sizes).
Proof.
  intros Hp. apply Forall_fmap. eapply Forall_impl; [exact Hp|].
  cbn. intros p (b & Hb & _). rewrite Hb. eexists. reflexivity.
Qed.

Lemma records_match file_sizes s : forall news,
  provisioned file_sizes s ->
  Forall2 (fun (p : string * string) (t : FileSizeTest.t) =>
             FileSizeTest.file_size_label t = p.1 /\
             (exists b, files s !! p.2 = Some b /\ FileSizeTest.file_size_bytes t = len b) /\
             map_Forall consistent (FileSizeTest.results t))
          ((fun p : string * Z => (p.1, test_file_path p.1)) <$> file_sizes) news ->
  (fun t => (FileSizeTest.file_size_label t, FileSizeTest.file_size_bytes t)) <$> news
  = file_sizes /\
  Forall (fun t => map_Forall consistent (FileSizeTest.results t)) news.
Proof.
  induction file_sizes as [|[size_name size_bytes] rest IH]; intros news Hp Hrec.
  - rewrite fmap_nil in Hrec. apply Forall2_nil_inv_l in Hrec as ->.
    split; [reflexivity|constructor].
  - rewrite fmap_cons in Hrec.
    apply Forall2_cons_inv_l in Hrec as (t & news' & (Hl & (b & Hb & Hbytes) & Hc) & Hrec & ->).
    apply Forall_cons in Hp as [(b' & Hb' & Hlen) Hp]. cbn [fst snd] in *.
    destruct (IH news' Hp Hrec) as [Heq Hall].
    split.
    + rewrite fmap_cons, Heq. f_equal.
      rewrite Hl, Hbytes. f_equal. congruence.
    + constructor; assumption.
Qed.

Lemma requests_count (test_files : list (string * string)) s :
  Forall (fun p : string * string => is_Some (files s !! p.2)) test_files ->
  length (concat ((fun p : string * string =>
                     concat ((fun e => requests_of e p.2 s) <$> ENDPOINTS)) <$> test_files))
  = length test_files * length ENDPOINTS.
Proof.
  induction test_files as [|p rest IH]; intros H; [reflexivity|].
  apply Forall_cons in H as [[b Hb] Hrest].
  rewrite fmap_cons. cbn [concat]. rewrite length_app, (IH Hrest).
  unfold requests_of. rewrite Hb. reflexivity.
Qed.

Lemma save_results_invalid run s j :
  results_file s = Some j ->
  BenchmarkHistory.model_validate_json j = None ->
  save_results run s
  = (Raise (ValidationError "validation error for BenchmarkHistory"), s).
Proof.
  intros Hj Hv. unfold save_results. unfold mbind, M_bind, Py.bind, gets.
  rewrite Hj, Hv. reflexivity.
Qed.

(** A run of the orchestrator up to the save: whatever is on disk at the
    start and whatever the network does, it reaches [save_results] with
    every test file in place, the store as it was, and one record for each
    size of the matrix. *)
Lemma run_benchmark_prefix fuel s :
  1024 <= fuel ->
  exists i test_results s5 (k : unit -> M State unit),
    run_benchmark w (S fuel) s
    = Py.bind (save_results (BenchmarkRun.make (wall_clock w i) test_results ENDPOINTS)) k s5 /\
    (forall st, exists st',
       k tt st = (Ok tt, st') /\ results_file st' = results_file st /\
       files st' = files st /\ sent st' = sent st) /\
    results_file s5 = results_file s /\
    provisioned FILE_SIZES s5 /\
    (forall path, path ∉ (fun p : string * Z => test_file_path p.1) <$> FILE_SIZES ->
                  files s5 !! path = files s !! path) /\
    (fun t => (FileSizeTest.file_size_label t, FileSizeTest.file_size_bytes t))
      <$> test_results = FILE_SIZES /\
    Forall (fun t => map_Forall consistent (FileSizeTest.results t)) test_results /\
    length (sent s5) = length (sent s) + length FILE_SIZES * length ENDPOINTS /\
    now s <= i /\ i < now s5.
Proof.
  intros Hfuel. unfold run_benchmark. unfold mbind, M_bind.
  rewrite !bind_print.
  match goal with
  | |- context [Py.bind (for_file_sizes w (S fuel) FILE_SIZES []) _ ?st] =>
      destruct (for_file_sizes_run fuel FILE_SIZES [] st matrix_paths_distinct
                  (matrix_sizes_bounded fuel Hfuel))
        as (s2 & Hprep & Hprov & Hother & Hrf2 & Hsent2 & Hnow2)
  end.
  rewrite (bind_Ok _ _ _ _ _ Hprep). rewrite !bind_print.
  rewrite prepared_matrix_files.
  match goal with
  | |- context [Py.bind (for_test_files w matrix_files []) _ ?st] =>
      assert (Hprov3 : provisioned FILE_SIZES st)
        by (eapply provisioned_same; [|exact Hprov]; reflexivity);
      destruct (for_test_files_records matrix_files [] st (provisioned_there _ _ Hprov3))
        as (news & s4 & Hloop & Hu4 & Hrec & Hsent4)
  end.
  rewrite (bind_Ok _ _ _ _ _ Hloop).
  erewrite bind_Ok by reflexivity.
  destruct (records_match FILE_SIZES _ news Hprov3 Hrec) as [Hmatch Hcons].
  destruct Hu4 as (Hf4 & Hrf4 & Hnow4).
  exists (now s4), news. eexists. eexists.
  split; [reflexivity|].
  split.
  { intros st. rewrite !bind_print. eexists. split; [reflexivity|].
    repeat split. }
  cbn [results_file files sent now emit advance] in *.
  split; [congruence|].
  split; [eapply provisioned_same; [|exact Hprov]; cbn [files advance]; exact Hf4|].
  split; [intros path Hpath; rewrite Hf4; apply Hother, Hpath|].
  split; [exact Hmatch|]. split; [exact Hcons|].
  split.
  { rewrite Hsent4, length_app.
    rewrite (requests_count matrix_files _ (provisioned_there _ _ Hprov3)).
    rewrite Hsent2. unfold matrix_files. rewrite length_fmap. reflexivity. }
  split; lia.
Qed.

End Trials.

(** X11.  For one test file the orchestrator sends one request an
    endpoint, in the order of [ENDPOINTS] and with no retry, each built
    from the file as it is on disk; it always reaches the end of the
    list; and every entry it has filed by then is under the name of an
    endpoint of the list, names that endpoint in its own [endpoint]
    field, and carries the throughput of its own size and total
    duration. *)
Theorem each_file_gets_one_request_per_endpoint
    (w : Client.World) (filepath : string) (content : list byte) (s : Client.State) :
  Client.files s !! filepath = Some content ->
  exists m s',
    Client.for_endpoints w filepath Client.ENDPOINTS ∅ s = (Ok m, s') /\
    Client.sent s' =
      (Client.sent s ++
       ((fun endpoint => Client.request_of endpoint filepath content) <$> Client.ENDPOINTS))%list /\
    map_Forall Client.consistent m /\
    Client.files s' = Client.files s /\
    Client.results_file s' = Client.results_file s.
Proof.
  intros Hfile.
  destruct (for_endpoints_files w filepath Client.ENDPOINTS ∅ s)
    as (m & s' & Hrun & Hu & Hm & Hsent & _).
  { apply Forall_forall. intros e He. exact He. }
  { apply map_Forall_empty. }
  exists m, s'. split; [exact Hrun|]. split.
  { rewrite Hsent. f_equal. unfold Client.requests_of. rewrite Hfile. reflexivity. }
  split; [exact Hm|]. split; [exact (proj1 Hu)|exact (proj1 (proj2 Hu))].
Qed.

Lemma each_file_gets_one_request_per_endpoint_witness :
  Client.files Samples.fresh !! "test_files/test_1KB.bin" = Some [x01; x02; x03] /\
  exists m s',
    Client.for_endpoints Samples.flaky "test_files/test_1KB.bin" Client.ENDPOINTS ∅
      Samples.fresh = (Ok m, s') /\
    url <$> Client.sent s' =
      [ "http://localhost:8000/upload/sync-file";
        "http://localhost:8000/upload/async-file";
        "http://localhost:8000/upload/sync-uploadfile";
        "http://localhost:8000/upload/async-uploadfile";
        "http://localhost:8000/upload/async-stream" ] /\
    map_Forall Client.consistent m.
Proof.
  split; [reflexivity|].
  destruct (each_file_gets_one_request_per_endpoint Samples.flaky "test_files/test_1KB.bin"
              [x01; x02; x03] Samples.fresh eq_refl)
    as (m & s' & Hrun & Hsent & Hm & _).
  exists m, s'. split; [exact Hrun|]. split; [rewrite Hsent; reflexivity|exact Hm].
Defined.

(** X12.  The preparation of a run puts every test file of the matrix in
    place, whatever is on disk when it starts: files that are there with
    their size are reused, the others are generated, none is clobbered
    by the generation of another, and at the end each of the 21 paths
    holds a file of its size.  It returns the paths in the order of the
    matrix, sends nothing, and touches neither the store nor any file
    that is not a test file.  1025 iterations of fuel are enough. *)
Theorem preparation_puts_every_test_file_in_place
    (w : Client.World) (fuel : nat) (s : Client.State) :
  1024 <= fuel ->
  exists s',
    Client.for_file_sizes w (S fuel) Client.FILE_SIZES [] s
    = (Ok Client.matrix_files, s') /\
    Client.provisioned Client.FILE_SIZES s' /\
    (forall path,
       path ∉ (fun p : string * Z => Client.test_file_path p.1) <$> Client.FILE_SIZES ->
       Client.files s' !! path = Client.files s !! path) /\
    Client.results_file s' = Client.results_file s /\
    Client.sent s' = Client.sent s.
Proof.
  intros Hfuel.
  destruct (for_file_sizes_run w fuel Client.FILE_SIZES [] s matrix_paths_distinct
              (matrix_sizes_bounded fuel Hfuel))
    as (s' & Hrun & Hprov & Hother & Hrf & Hsent & _).
  exists s'. rewrite prepared_matrix_files in Hrun.
  split; [exact Hrun|]. split; [exact Hprov|]. split; [exact Hother|].
  split; [exact Hrf|exact Hsent].
Qed.

Lemma preparation_puts_every_test_file_in_place_witness :
  1024 <= 1024 /\
  exists s',
    Client.for_file_sizes Samples.flaky 1025 Client.FILE_SIZES [] Samples.fresh
    = (Ok Client.matrix_files, s') /\
    Client.provisioned Client.FILE_SIZES s'.
Proof.
  split; [lia|].
  destruct (preparation_puts_every_test_file_in_place Samples.flaky 1024 Samples.fresh)
    as (s' & Hrun & Hprov & _).
  { lia. }
  exists s'. split; [exact Hrun|exact Hprov].
Defined.

(** X13.  A run of the orchestrator always completes when the store is
    absent or holds a history: whatever is on disk at the start and
    whatever the network does, [run_benchmark] returns, having sent one
    request for each size and endpoint of the matrix; the store then holds
    the history it held followed by one run, whose endpoints are
    [ENDPOINTS], whose summary is empty and whose tests are, in the order
    of the matrix, one for each size with its label and its number of
    bytes, each with entries under names of endpoints only; and every test
    file is left in place for the next run. *)
Theorem run_benchmark_always_completes
    (w : Client.World) (fuel : nat) (s : Client.State) (h : BenchmarkHistory.t) :
  1024 <= fuel ->
  Client.stored_history s = Some h ->
  exists run s',
    Client.run_benchmark w (S fuel) s = (Ok tt, s') /\
    Client.results_file s'
    = Some (BenchmarkHistory.model_dump_json (BenchmarkHistory.add_run h run)) /\
    BenchmarkRun.endpoints run = Client.ENDPOINTS /\
    BenchmarkRun.summary run = ∅ /\
    (fun t => (FileSizeTest.file_size_label t, FileSizeTest.file_size_bytes t))
      <$> BenchmarkRun.test_files run = Client.FILE_SIZES /\
    Forall (fun t => map_Forall Client.consistent (FileSizeTest.results t))
           (BenchmarkRun.test_files run) /\
    length (Client.sent s') = length (Client.sent s) + 105 /\
    Client.provisioned Client.FILE_SIZES s'.
Proof.
  intros Hfuel Hs.
  destruct (run_benchmark_prefix w fuel s Hfuel)
    as (i & test_results & s5 & k & Hrun & Hk & Hrf & Hprov & _ & Hmatch & Hcons & Hsent & _).
  rewrite Hrun.
  erewrite bind_Ok.
  2:{ apply (save_results_state _ _ h). rewrite <- Hs. apply stored_history_same, Hrf. }
  match goal with
  | |- context [k tt ?st] => destruct (Hk st) as (s' & Hend & Hrf' & Hf' & Hsent')
  end.
  exists (BenchmarkRun.make (Client.wall_clock w i) test_results Client.ENDPOINTS), s'.
  split; [exact Hend|].
  split; [rewrite Hrf'; reflexivity|].
  split; [reflexivity|]. split; [reflexivity|].
  split; [exact Hmatch|]. split; [exact Hcons|].
  split; [rewrite Hsent'; cbn [Client.sent Client.emit Client.write_results]; exact Hsent|].
  eapply provisioned_same; [|exact Hprov]. rewrite Hf'. reflexivity.
Qed.

Lemma run_benchmark_always_completes_witness :
  1024 <= 1024 /\
  Client.stored_history Samples.fresh = Some (BenchmarkHistory.mk []) /\
  exists run s',
    Client.run_benchmark Samples.flaky 1025 Samples.fresh = (Ok tt, s') /\
    Client.results_file s'
    = Some (BenchmarkHistory.model_dump_json (BenchmarkHistory.mk [run])) /\
    length (BenchmarkRun.test_files run) = 21.
Proof.
  split; [lia|]. split; [reflexivity|].
  destruct (run_benchmark_always_completes Samples.flaky 1024 Samples.fresh
              (BenchmarkHistory.mk [])) as (run & s' & Hrun & Hrf & _ & _ & Hmatch & _).
  { lia. }
  { reflexivity. }
  exists run, s'. split; [exact Hrun|]. split; [exact Hrf|].
  apply (f_equal length) in Hmatch. rewrite length_fmap in Hmatch. exact Hmatch.
Defined.

(** X14.  A store that does not validate costs the run.  When the results
    file exists and does not hold a history, [save_results] raises the
    validation error and writes nothing; [run_benchmark] makes every
    upload of the matrix first and then ends with that error, the
    measurements of the run being lost and the file left as it was. *)
Theorem store_that_does_not_validate_loses_the_run
    (w : Client.World) (fuel : nat) (s : Client.State) (j : json)
    (benchmark_run : BenchmarkRun.t) :
  1024 <= fuel ->
  Client.results_file s = Some j ->
  BenchmarkHistory.model_validate_json j = None ->
  (exists msg, Client.save_results benchmark_run s = (Raise (ValidationError msg), s)) /\
  exists msg s',
    Client.run_benchmark w (S fuel) s = (Raise (ValidationError msg), s') /\
    Client.results_file s' = Some j /\
    length (Client.sent s') = length (Client.sent s) + 105.
Proof.
  intros Hfuel Hj Hv. split.
  { eexists. apply save_results_invalid with (j := j); assumption. }
  destruct (run_benchmark_prefix w fuel s Hfuel)
    as (i & test_results & s5 & k & Hrun & _ & Hrf & _ & _ & _ & _ & Hsent & _).
  eexists. exists s5. split.
  { rewrite Hrun. apply bind_Raise. apply save_results_invalid with (j := j); [|exact Hv].
    rewrite Hrf. exact Hj. }
  split; [rewrite Hrf; exact Hj|exact Hsent].
Qed.

Lemma store_that_does_not_validate_loses_the_run_witness :
  1024 <= 1024 /\
  BenchmarkHistory.model_validate_json (JArr []) = None /\
  exists msg s',
    Client.run_benchmark Samples.flaky 1025
      (Client.write_results (JArr []) Samples.fresh)
    = (Raise (ValidationError msg), s') /\
    Client.results_file s' = Some (JArr []).
Proof.
  split; [lia|]. split; [reflexivity|].
  destruct (store_that_does_not_validate_loses_the_run Samples.flaky 1024
              (Client.write_results (JArr []) Samples.fresh) (JArr []) Samples.first_run)
    as (_ & msg & s' & Hrun & Hrf & _).
  { lia. }
  { reflexivity. }
  { reflexivity. }
  exists msg, s'. split; [exact Hrun|exact Hrf].
Defined.
(* ===================================================================== *)
(** * The text of a number, read back                                       *)
(* ===================================================================== *)

Section FloatText.

Import PyFloat.

Lemma digit_of_pretty_N_char d :
  (d < 10)%N -> Text.digit_of (pretty_N_char d) = Some d.
Proof.
  intros H.
  assert (d = 0 \/ d = 1 \/ d = 2 \/ d = 3 \/ d = 4 \/ d = 5 \/ d = 6 \/ d = 7 \/ d = 8 \/ d = 9)%N
    as Hd by lia.
  repeat (destruct Hd as [->|Hd]; [reflexivity|]). subst. reflexivity.
Qed.

Lemma digitpart_go_digit c d s acc cnt :
  Text.digit_of c = Some d ->
  digitpart_go (String c s) acc cnt = digitpart_go s (acc * 10 + d)%N (S cnt).
Proof. intros H. cbn [digitpart_go]. rewrite H. reflexivity. Qed.

(** The digits [pretty] writes are read back as the number. *)
Lemma digitpart_go_pretty n :
  exists L, forall s acc cnt,
    digitpart_go (pretty_N_go n s) acc cnt
    = digitpart_go s (acc * 10 ^ N.of_nat L + n)%N (cnt + L).
Proof.
  induction (N.lt_wf_0 n) as [n _ IH].
  destruct (decide (n = 0)%N) as [->|Hn].
  - exists 0. intros s acc cnt. rewrite pretty_N_go_0.
    f_equal; [|lia]. change (10 ^ N.of_nat 0)%N with 1%N. lia.
  - destruct (IH (n / 10)%N) as [L HL]; [apply N.div_lt; lia|].
    exists (S L). intros s acc cnt.
    rewrite pretty_N_go_step by lia. rewrite HL.
    rewrite (digitpart_go_digit _ (n mod 10)%N)
      by (apply digit_of_pretty_N_char, N.mod_lt; lia).
    f_equal; [|lia].
    rewrite Nat2N.inj_succ, N.pow_succ_r by lia.
    pose proof (N.div_mod n 10 ltac:(lia)). nia.
Qed.

Lemma pretty_N_go_app n : forall s t, pretty_N_go n s +:+ t = pretty_N_go n (s +:+ t).
Proof.
  induction (N.lt_wf_0 n) as [n _ IH]. intros s t.
  destruct (decide (n = 0)%N) as [->|Hn]; [rewrite !pretty_N_go_0; reflexivity|].
  rewrite (pretty_N_go_step n s), (pretty_N_go_step n (s +:+ t)) by lia.
  rewrite IH by (apply N.div_lt; lia). reflexivity.
Qed.

Lemma pretty_N_go_headed n : forall s, digit_headed s -> digit_headed (pretty_N_go n s).
Proof.
  induction (N.lt_wf_0 n) as [n _ IH]. intros s Hs.
  destruct (decide (n = 0)%N) as [->|Hn]; [rewrite pretty_N_go_0; exact Hs|].
  rewrite pretty_N_go_step by lia.
  apply IH; [apply N.div_lt; lia|].
  exists (n mod 10)%N. eexists. split; [apply N.mod_lt; lia|reflexivity].
Qed.

Lemma digitpart_headed s :
  digit_headed s -> digitpart s = Some (digitpart_go s 0 0).
Proof.
  intros (d & rest & Hd & ->). cbn [digitpart digitpart_go].
  rewrite (digit_of_pretty_N_char d Hd). reflexivity.
Qed.

Lemma digit_headed_sign s :
  digit_headed s -> lstrip s = s /\ read_sign s = (false, s).
Proof.
  intros (d & rest & Hd & ->).
  assert (d = 0 \/ d = 1 \/ d = 2 \/ d = 3 \/ d = 4 \/ d = 5 \/ d = 6 \/ d = 7 \/ d = 8 \/ d = 9)%N
    as Hc by lia.
  repeat (destruct Hc as [->|Hc]; [split; reflexivity|]). subst. split; reflexivity.
Qed.

(** The integer part: the digits of a number that is not negative, before
    a point, are read back as that number. *)
Lemma digitpart_pretty (z : Z) (rest : string) :
  (0 <= z)%Z ->
  digit_headed (pretty z +:+ String "." rest) /\
  exists k, digitpart (pretty z +:+ String "." rest) = Some (Z.to_N z, k, String "." rest).
Proof.
  intros Hz. destruct z as [|p|p]; [| |lia].
  - split; [exists 0%N; eexists; split; [lia|reflexivity]|].
    exists 1. reflexivity.
  - change (pretty (Z.pos p)) with (pretty (N.pos p)).
    unfold pretty, pretty_N. destruct (decide (N.pos p = 0%N)) as [H|_]; [discriminate|].
    rewrite pretty_N_go_app. change ("" +:+ String "." rest) with (String "." rest).
    assert (Hh : digit_headed (pretty_N_go (N.pos p) (String "." rest))).
    { rewrite pretty_N_go_step by lia. apply pretty_N_go_headed.
      exists (N.pos p mod 10)%N. eexists. split; [apply N.mod_lt; lia|reflexivity]. }
    split; [exact Hh|].
    rewrite (digitpart_headed _ Hh).
    destruct (digitpart_go_pretty (N.pos p)) as [L HL]. rewrite HL.
    exists (0 + L). cbn [digitpart_go Text.digit_of]. cbn. 
    f_equal.
Qed.

(** The fraction: the digits [frac_digits] writes for a remainder whose
    expansion ends within the fuel are read back as that fraction. *)
Lemma digitpart_go_frac (d : Z) fuel : forall r acc cnt,
  (0 <= r < d)%Z ->
  (d | r * 10 ^ Z.of_nat fuel)%Z ->
  1 <= fuel ->
  digit_headed (frac_digits fuel r d) /\
  exists m fp,
    digitpart_go (frac_digits fuel r d) acc cnt
    = ((acc * 10 ^ N.of_nat m + fp)%N, cnt + m, "") /\
    (Z.of_N fp * d = r * 10 ^ Z.of_nat m)%Z.
Proof.
  induction fuel as [|fuel IH]; intros r acc cnt Hr Hdiv Hfuel; [lia|].
  cbn [frac_digits].
  set (q := (r * 10 / d)%Z). set (r' := (r * 10 mod d)%Z).
  assert (Hd : (0 < d)%Z) by lia.
  assert (Hq : (0 <= q < 10)%Z).
  { unfold q. split; [apply Z.div_pos; lia|].
    apply Z.div_lt_upper_bound; lia. }
  assert (Hr' : (0 <= r' < d)%Z) by (apply Z.mod_pos_bound; lia).
  assert (Hqr : (r * 10 = d * q + r')%Z) by (apply Z.div_mod; lia).
  assert (Hdigit : Text.digit_of (Text.digit_char (Z.to_N q)) = Some (Z.to_N q))
    by (apply digit_of_digit_char; lia).
  assert (Hchar : Text.digit_char (Z.to_N q) = pretty_N_char (Z.to_N q)).
  { assert (q = 0 \/ q = 1 \/ q = 2 \/ q = 3 \/ q = 4 \/ q = 5 \/ q = 6 \/ q = 7 \/ q = 8
            \/ q = 9)%Z as Hc by lia.
    repeat (destruct Hc as [->|Hc]; [reflexivity|]). rewrite Hc. reflexivity. }
  split.
  { exists (Z.to_N q). eexists. split; [lia|]. rewrite Hchar. reflexivity. }
  rewrite (digitpart_go_digit _ _ _ _ _ Hdigit).
  destruct (r' =? 0)%Z eqn:Hz.
  - apply Z.eqb_eq in Hz. exists 1, (Z.to_N q). split.
    + cbn [digitpart_go]. apply f_equal2; [apply f_equal2|reflexivity]; [|lia].
      change (10 ^ N.of_nat 1)%N with 10%N. reflexivity.
    + rewrite Z2N.id by lia. change (10 ^ Z.of_nat 1)%Z with 10%Z. lia.
  - apply Z.eqb_neq in Hz.
    assert (Hdiv' : (d | r' * 10 ^ Z.of_nat fuel)%Z).
    { replace (r' * 10 ^ Z.of_nat fuel)%Z
        with (r * 10 ^ Z.of_nat (S fuel) - d * (q * 10 ^ Z.of_nat fuel))%Z.
      - apply Z.divide_sub_r; [exact Hdiv|]. apply Z.divide_factor_l.
      - rewrite Nat2Z.inj_succ, Z.pow_succ_r by lia. nia. }
    assert (Hfuel' : 1 <= fuel).
    { destruct fuel; [|lia]. exfalso. change (10 ^ Z.of_nat 0)%Z with 1%Z in Hdiv'.
      rewrite Z.mul_1_r in Hdiv'. apply Z.divide_pos_le in Hdiv'; lia. }
    destruct (IH r' (acc * 10 + Z.to_N q)%N (S cnt) Hr' Hdiv' Hfuel')
      as (_ & m & fp & Hgo & Hfp).
    exists (S m), (Z.to_N q * 10 ^ N.of_nat m + fp)%N. split.
    + rewrite Hgo. apply f_equal2; [apply f_equal2|reflexivity]; [|lia].
      rewrite Nat2N.inj_succ, N.pow_succ_r by lia. lia.
    + rewrite N2Z.inj_add, N2Z.inj_mul, N2Z.inj_pow, Z2N.id, nat_N_Z by lia.
      change (Z.of_N 10) with 10%Z.
      rewrite Nat2Z.inj_succ, Z.pow_succ_r by lia. nia.
Qed.

(** The value of the digits read. *)
Lemma mantissa_value (ip fp a r : Z) (d : positive) (m : nat) :
  (fp * Z.pos d = r * 10 ^ Z.of_nat m)%Z ->
  (a = Z.pos d * ip + r)%Z ->
  (inject_Z (ip * 10 ^ Z.of_nat m + fp) * Qpower 10 (0 - Z.of_nat m) == a # d)%Q.
Proof.
  intros Hfp Ha.
  assert (Hpow : (0 < 10 ^ Z.of_nat m)%Z) by (apply Z.pow_pos_nonneg; lia).
  change (0 - Z.of_nat m)%Z with (- Z.of_nat m)%Z.
  rewrite Qpower_opp.
  change 10%Q with (inject_Z 10). rewrite <- Zpower_Qpower by lia.
  assert (H : (inject_Z (ip * 10 ^ Z.of_nat m + fp)
               == (a # d) * inject_Z (10 ^ Z.of_nat m))%Q).
  { unfold Qeq, Qmult, inject_Z. cbn [Qnum Qden]. subst a. nia. }
  rewrite H. field.
  intros E. unfold Qeq, inject_Z in E. cbn [Qnum Qden] in E. lia.
Qed.

(** [float(str(x))] is [x], for a value whose expansion ends within the
    places written. *)
Lemma of_str_str (x : Q) : decimal x -> of_str (str x) = Some (Qred x).
Proof.
  intros Hdec. unfold decimal in Hdec. unfold str.
  pose proof (Qred_correct x) as Hx.
  destruct (Qred x) as [n d] eqn:Hred. cbn [Qnum Qden] in *.
  set (ip := (Z.abs n / Z.pos d)%Z).
  set (r := (Z.abs n mod Z.pos d)%Z).
  assert (Hip : (0 <= ip)%Z) by (apply Z.div_pos; lia).
  assert (Hr : (0 <= r < Z.pos d)%Z) by (apply Z.mod_pos_bound; lia).
  assert (Habs : (Z.abs n = Z.pos d * ip + r)%Z) by (apply Z.div_mod; lia).
  destruct (digitpart_go_frac (Z.pos d) MAX_PLACES r 0 0 Hr)
    as (HF & m & fp & Hgo & Hfp).
  { apply Z.divide_mul_r. exact Hdec. }
  { unfold MAX_PLACES. lia. }
  set (F := frac_digits MAX_PLACES r (Z.pos d)) in *.
  destruct (digitpart_pretty ip F Hip) as [Hh [k Hk]].
  change ("." +:+ F) with (String "." F).
  assert (Hv : (inject_Z (Z.of_N (Z.to_N ip) * 10 ^ Z.of_nat (0 + m)
                          + Z.of_N (0 * 10 ^ N.of_nat m + fp))
                * Qpower 10 (0 - Z.of_nat (0 + m)) == Z.abs n # d)%Q).
  { rewrite Z2N.id by exact Hip. cbn [Nat.add].
    replace (0 * 10 ^ N.of_nat m + fp)%N with fp by lia.
    apply (mantissa_value ip (Z.of_N fp) (Z.abs n) r d m Hfp Habs). }
  assert (Hn : Qred (n # d) = n # d) by (rewrite <- Hred; apply Qred_complete, Qred_correct).
  unfold of_str.
  destruct (n <? 0)%Z eqn:Hneg.
  - change ("-" +:+ ?s) with (String "-" s).
    change (lstrip (String "-" ?s)) with (String "-" s).
    change (read_sign (String "-" ?s)) with (true, s).
    cbv beta iota zeta. rewrite Hk. cbn [mbind option_bind].
    rewrite (digitpart_headed F HF), Hgo. cbn [mbind option_bind read_exponent only_space].
    f_equal. etransitivity; [|exact Hn]. apply Qred_complete. rewrite Hv.
    apply Z.ltb_lt in Hneg. rewrite Z.abs_neq by lia.
    unfold Qeq, Qopp. cbn [Qnum Qden]. lia.
  - change ("" +:+ ?s) with s.
    destruct (digit_headed_sign _ Hh) as [Hl Hs]. rewrite Hl, Hs.
    cbv beta iota zeta. rewrite Hk. cbn [mbind option_bind].
    rewrite (digitpart_headed F HF), Hgo. cbn [mbind option_bind read_exponent only_space].
    f_equal. etransitivity; [|exact Hn]. apply Qred_complete. rewrite Hv.
    apply Z.ltb_ge in Hneg. rewrite Z.abs_eq by lia. reflexivity.
Qed.

End FloatText.
(** X22.  A number written as text is read back as itself:
    [float(str(x))] is [x], in lowest terms, for every value whose
    decimal expansion ends within the places written, and such are all the
    values whose denominator in lowest terms is a power of two up to
    2^1074, as that of every binary64 value is. *)
Theorem float_reads_back_the_text_of_a_number (x : Q) :
  PyFloat.decimal x ->
  PyFloat.of_str (PyFloat.str x) = Some (Qred x) /\
  (Qred x == x)%Q /\
  (forall (y : Q) (k : nat),
     k <= 1074 -> Z.pos (Qden (Qred y)) = (2 ^ Z.of_nat k)%Z -> PyFloat.decimal y).
Proof.
  intros Hdec. split; [apply of_str_str, Hdec|]. split; [apply Qred_correct|].
  intros y k Hk Hden. unfold PyFloat.decimal, PyFloat.MAX_PLACES. rewrite Hden.
  exists (2 ^ (1080 - Z.of_nat k) * 5 ^ 1080)%Z.
  change 10%Z with (2 * 5)%Z. rewrite Z.pow_mul_l.
  replace (Z.of_nat 1080) with ((1080 - Z.of_nat k) + Z.of_nat k)%Z at 1 by lia.
  rewrite Z.pow_add_r by lia. change (Z.of_nat 1080) with 1080%Z. ring.
Qed.

Lemma float_reads_back_the_text_of_a_number_witness :
  PyFloat.decimal (- (3 # 8)) /\
  PyFloat.str (- (3 # 8)) = "-0.375" /\
  PyFloat.of_str "-0.375" = Some (- (3 # 8))%Q.
Proof.
  assert (Hdec : PyFloat.decimal (- (3 # 8))).
  { unfold PyFloat.decimal. exists (10 ^ 1080 / 8)%Z. vm_compute. reflexivity. }
  split; [exact Hdec|]. split; [vm_compute; reflexivity|].
  destruct (float_reads_back_the_text_of_a_number (- (3 # 8)) Hdec) as (H & _).
  replace "-0.375" with (PyFloat.str (- (3 # 8))) by (vm_compute; reflexivity).
  rewrite H. reflexivity.
Defined.

(** X23.  The client files what the server measured.  When the exchange
    of a trial is answered by the response the server makes of a request
    that delivers a body to one of its routes, and the differences of the
    server's clock and memory readings have decimal text, the trial files
    an entry for its endpoint: the body validates, the two headers are
    read back as the middleware's totals, and the entry carries the
    number of bytes the handler counted, the handler's duration and memory
    figures as the handler reported them, and the total duration and
    memory delta the middleware measured from its first samples to its
    last. *)
Theorem client_files_what_the_server_measured
    (ws : Server.World) (before after fuel : nat) (request : Server.Request)
    (s0 : Server.State) (body : list byte) (response : Response)
    (wc : Client.World) (filepath endpoint : string) (content : list byte)
    (endpoint_results : gmap string EndpointMetrics.t) (s : Client.State) :
  Server.delivered request = Some body ->
  length body < fuel ->
  (forall i j, PyFloat.decimal (Server.clock ws j - Server.clock ws i)) ->
  (forall i j, PyFloat.decimal (Server.resident_mb ws j - Server.resident_mb ws i)) ->
  (Server.serve ws before after fuel request s0).1 = Ok response ->
  Client.files s !! filepath = Some content ->
  Client.network wc (Client.post_instant endpoint s)
    (Client.request_of endpoint filepath content) = Responded response ->
  exists m s' metrics last,
    Client.trial wc filepath endpoint endpoint_results s = (Ok m, s') /\
    m !! Client.endpoint_name endpoint = Some metrics /\
    EndpointMetrics.file_size_bytes metrics = len body /\
    (EndpointMetrics.total_duration_seconds metrics
     == Server.clock ws last - Server.clock ws (Server.now s0))%Q /\
    (EndpointMetrics.total_memory_delta_mb metrics
     == Server.resident_mb ws (S last) - Server.resident_mb ws (S (Server.now s0)))%Q /\
    EndpointMetrics.memory_start_mb metrics = Server.resident_mb ws (S (Server.now s0)) /\
    (EndpointMetrics.memory_delta_mb metrics
     = EndpointMetrics.memory_end_mb metrics - EndpointMetrics.memory_start_mb metrics)%Q /\
    Server.now s0 < last.
Proof.
  intros Hd Hfuel Hclock Hmem Hserve Hfile Hnet.
  destruct (serve_run ws before after fuel request s0 body Hd Hfuel)
    as (name & entry & h1 & resp & s1 & Hrun & Hentry & Hh1 & Hst & Hc & Hh & _).
  rewrite Hrun in Hserve. cbn [fst] in Hserve. injection Hserve as ->.
  destruct (trial_run wc filepath endpoint endpoint_results s) as (s' & Ht & _).
  unfold Client.exchange in Ht. rewrite Hfile in Ht. cbn [mbind option_bind] in Ht.
  rewrite Hnet in Ht.
  assert (Hacc : Client.accepted (Responded response)
                 = Some (ServerResponse.mk name (len body)
                           (PyFloat.of_int (len body) / 1024 / 1024)%Q
                           (Server.clock ws h1 - Server.clock ws entry)%Q
                           (Server.resident_mb ws (S (Server.now s0)))
                           (Server.resident_mb ws (S h1))
                           (Server.resident_mb ws (S h1)
                            - Server.resident_mb ws (S (Server.now s0)))%Q,
                         Qred (Server.clock ws (after + S (S h1))
                               - Server.clock ws (Server.now s0)),
                         Qred (Server.resident_mb ws (S (after + S (S h1)))
                               - Server.resident_mb ws (S (Server.now s0))))).
  { assert (HD : headers response !! "X-Total-Duration"
                 = Some (PyFloat.str (Server.clock ws (after + S (S h1))
                                      - Server.clock ws (Server.now s0)))).
    { rewrite Hh. rewrite lookup_insert_ne by discriminate. apply lookup_insert_eq. }
    assert (HMD : headers response !! "X-Total-Memory-Delta"
                  = Some (PyFloat.str (Server.resident_mb ws (S (after + S (S h1)))
                                       - Server.resident_mb ws (S (Server.now s0))))).
    { rewrite Hh. apply lookup_insert_eq. }
    unfold Client.accepted. rewrite Hst, Hc, ServerResponse_roundtrip.
    cbn [Z.eqb Pos.eqb mbind option_bind].
    unfold Client.header_value. rewrite HD, HMD.
    rewrite (of_str_str _ (Hclock _ _)). cbn [mbind option_bind].
    rewrite (of_str_str _ (Hmem _ _)). reflexivity. }
  rewrite Hacc in Ht. cbn [Client.filed] in Ht.
  eexists. exists s'. eexists. exists (after + S (S h1)).
  split; [exact Ht|]. split; [apply lookup_insert_eq|].
  unfold Client.merged.
  cbn [EndpointMetrics.file_size_bytes EndpointMetrics.total_duration_seconds
       EndpointMetrics.total_memory_delta_mb EndpointMetrics.memory_start_mb
       EndpointMetrics.memory_delta_mb EndpointMetrics.memory_end_mb
       ServerResponse.file_size_bytes ServerResponse.memory_start_mb
       ServerResponse.memory_end_mb ServerResponse.memory_delta_mb].
  split; [reflexivity|]. split; [apply Qred_correct|]. split; [apply Qred_correct|].
  split; [reflexivity|]. split; [reflexivity|]. lia.
Qed.
Section SampleReadings.

Lemma growing_clock_decimal i j :
  PyFloat.decimal (Server.clock Samples.growing j - Server.clock Samples.growing i).
Proof.
  unfold PyFloat.decimal, Samples.growing. cbn [Server.clock].
  assert (H : Qden (Qred (inject_Z (Z.of_nat j) - inject_Z (Z.of_nat i))) = 1%positive).
  { unfold Qminus, Qplus, Qopp, inject_Z. cbn [Qnum Qden].
    generalize (Z.of_nat j * 1 + - Z.of_nat i * 1)%Z. intros a.
    unfold Qred. change (Z.pos (1 * 1)) with 1%Z.
    pose proof (Z.ggcd_gcd a 1) as Hg. pose proof (Z.ggcd_correct_divisors a 1) as Hc.
    destruct (Z.ggcd a 1) as [g [aa bb]]. cbn [fst snd] in *.
    rewrite Z.gcd_1_r in Hg. subst g. destruct Hc as [_ Hb].
    cbn [Qden]. rewrite Z.mul_1_l in Hb. rewrite <- Hb. reflexivity. }
  rewrite H. apply Z.divide_1_l.
Qed.

Lemma growing_memory_decimal i j :
  PyFloat.decimal (Server.resident_mb Samples.growing j
                   - Server.resident_mb Samples.growing i).
Proof.
  unfold Server.resident_mb, Samples.growing. cbn [Server.rss].
  destruct (j <=? 1)%nat; destruct (i <=? 1)%nat;
    unfold PyFloat.decimal;
    match goal with
    | |- (Z.pos ?d | _)%Z => let v := eval vm_compute in d in change d with v
    end;
    apply Z.divide_1_l.
Qed.

End SampleReadings.

Lemma client_files_what_the_server_measured_witness :
  Server.delivered Samples.buffered_upload = Some [x01; x02; x03] /\
  length [x01; x02; x03] < 4 /\
  (Server.serve Samples.growing 1 1 4 Samples.buffered_upload (Server.initial 0)).1
  = Ok Samples.served /\
  Client.files Samples.fresh !! "test_files/test_1KB.bin" = Some [x01; x02; x03] /\
  Client.network Samples.relaying (Client.post_instant "/upload/sync-file" Samples.fresh)
    (Client.request_of "/upload/sync-file" "test_files/test_1KB.bin" [x01; x02; x03])
  = Responded Samples.served /\
  exists m s' metrics,
    Client.trial Samples.relaying "test_files/test_1KB.bin" "/upload/sync-file" ∅
      Samples.fresh = (Ok m, s') /\
    m !! "sync-file" = Some metrics /\
    EndpointMetrics.file_size_bytes metrics = 3%Z.
Proof.
  split; [reflexivity|]. split; [simpl; lia|].
  assert (Hserve : (Server.serve Samples.growing 1 1 4 Samples.buffered_upload
                      (Server.initial 0)).1 = Ok Samples.served)
    by (vm_compute; reflexivity).
  split; [exact Hserve|]. split; [reflexivity|]. split; [reflexivity|].
  destruct (client_files_what_the_server_measured Samples.growing 1 1 4
              Samples.buffered_upload (Server.initial 0) [x01; x02; x03] Samples.served
              Samples.relaying "test_files/test_1KB.bin" "/upload/sync-file"
              [x01; x02; x03] ∅ Samples.fresh)
    as (m & s' & metrics & last & Ht & Hm & Hbytes & _).
  - reflexivity.
  - simpl; lia.
  - exact growing_clock_decimal.
  - exact growing_memory_decimal.
  - exact Hserve.
  - reflexivity.
  - reflexivity.
  - exists m, s', metrics. split; [exact Ht|]. split; [exact Hm|exact Hbytes].
Defined.
(* ===================================================================== *)
(** * The viewer                                                            *)
(* ===================================================================== *)

Section Tables.

Import Visualize.

Local Arguments Text.replace : simpl never.
Local Arguments PyFloat.format_fixed : simpl never.
Local Arguments String.append : simpl never.

Lemma pretty_N_char_plain d s : plain (String (pretty_N_char d) s).
Proof.
  exists (pretty_N_char d), s. split; [reflexivity|].
  unfold pretty_N_char. repeat case_match; discriminate.
Qed.

Lemma pretty_N_go_plain x : forall s, plain s -> plain (pretty_N_go x s).
Proof.
  induction (N.lt_wf_0 x) as [x _ IH]. intros s Hs.
  destruct (decide (x = 0)%N) as [->|Hx]; [rewrite pretty_N_go_0; exact Hs|].
  rewrite pretty_N_go_step by lia.
  apply IH; [apply N.div_lt; lia|]. apply pretty_N_char_plain.
Qed.

Lemma pretty_Z_plain (z : Z) : plain (pretty z).
Proof.
  destruct z as [|p|p].
  - exists "0"%char, "". split; [reflexivity|discriminate].
  - change (pretty (Z.pos p)) with (pretty (N.pos p)).
    unfold pretty, pretty_N. destruct (decide (N.pos p = 0%N)) as [H|_]; [discriminate|].
    rewrite pretty_N_go_step by lia. apply pretty_N_go_plain, pretty_N_char_plain.
  - exists "-"%char. eexists. split; [reflexivity|discriminate].
Qed.

Lemma plain_app s t : plain s -> plain (s +:+ t).
Proof. intros (c & rest & -> & Hc). exists c, (rest +:+ t). split; [reflexivity|exact Hc]. Qed.

(** The text of a number never starts with a bracket. *)
Lemma format_fixed_plain places x : plain (PyFloat.format_fixed places x).
Proof.
  unfold PyFloat.format_fixed.
  destruct (Qnum x <? 0)%Z.
  - exists "-"%char. eexists. split; [reflexivity|discriminate].
  - change ("" +:+ ?a) with a. apply plain_app, pretty_Z_plain.
Qed.

Lemma plain_not_available s : plain s -> s <> NOT_AVAILABLE.
Proof. intros (c & rest & -> & Hc) H. injection H as H _. contradiction. Qed.

Lemma timing_cell_available metrics : timing_cell metrics <> NOT_AVAILABLE.
Proof. apply plain_not_available. unfold timing_cell. apply plain_app, format_fixed_plain. Qed.

Lemma memory_cell_available metrics : memory_cell metrics <> NOT_AVAILABLE.
Proof.
  unfold memory_cell. cbv zeta.
  destruct (Qlt_le_dec 0 _); [discriminate|].
  destruct (Qlt_le_dec _ 0); [discriminate|].
  apply plain_not_available, plain_app, format_fixed_plain.
Qed.

(** *** The loops that build a table *)

Lemma add_columns_run (l : list string) : forall table,
  fold_left (fun table endpoint =>
               add_column table (Text.replace "/upload/" "" endpoint) None "right" 20) l table
  = {| title := title table; show_header := show_header table;
       header_style := header_style table;
       columns := columns table ++ (endpoint_column <$> l);
       rows := rows table |}.
Proof.
  induction l as [|e l IH]; intros table; cbn [fold_left fmap list_fmap].
  - rewrite app_nil_r. destruct table. reflexivity.
  - rewrite IH. unfold add_column. cbn [title show_header header_style columns rows].
    rewrite <- app_assoc. reflexivity.
Qed.

Lemma add_rows_run {A} (f : A -> list string) (l : list A) : forall table,
  fold_left (fun table test => add_row table (f test)) l table
  = {| title := title table; show_header := show_header table;
       header_style := header_style table;
       columns := columns table;
       rows := rows table ++ (f <$> l) |}.
Proof.
  induction l as [|e l IH]; intros table; cbn [fold_left fmap list_fmap].
  - rewrite app_nil_r. destruct table. reflexivity.
  - rewrite IH. unfold add_row. cbn [title show_header header_style columns rows].
    rewrite <- app_assoc. reflexivity.
Qed.

Lemma cells_run (cell : EndpointMetrics.t -> string) (results : gmap string EndpointMetrics.t)
    (l : list string) : forall row,
  fold_left (fun row endpoint =>
               match results !! Text.replace "/upload/" "" endpoint with
               | Some metrics => (row ++ [cell metrics])%list
               | None => (row ++ ["[dim]N/A[/dim]"])%list
               end) l row
  = (row ++ ((fun endpoint =>
                from_option cell NOT_AVAILABLE (results !! Client.endpoint_name endpoint))
             <$> l))%list.
Proof.
  induction l as [|e l IH]; intros row; cbn [fold_left fmap list_fmap].
  - rewrite app_nil_r. reflexivity.
  - rewrite IH. unfold Client.endpoint_name.
    destruct (results !! Text.replace "/upload/" "" e); cbn [from_option];
      rewrite <- app_assoc; reflexivity.
Qed.

Lemma fold_left_ext {A B} (f g : A -> B -> A) (l : list B) (a : A) :
  (forall a b, f a b = g a b) -> fold_left f l a = fold_left g l a.
Proof.
  intros H. revert a. induction l as [|b l IH]; intros a; [reflexivity|].
  cbn [fold_left]. rewrite H. apply IH.
Qed.

(** The two tables, written out. *)
Lemma create_total_timing_table_run run :
  create_total_timing_table run
  = {| title := "Total Request Time (Handler + FastAPI Processing)";
       show_header := true;
       header_style := "bold cyan";
       columns :=
         {| header := "File Size"; style := Some "dim"; justify := "left"; width := 12 |}
         :: (endpoint_column <$> BenchmarkRun.endpoints run);
       rows := row_of timing_cell run <$> BenchmarkRun.test_files run |}.
Proof.
  unfold create_total_timing_table. cbv zeta.
  rewrite add_columns_run.
  rewrite (fold_left_ext _ (fun table test => add_row table (row_of timing_cell run test))).
  - rewrite add_rows_run. reflexivity.
  - intros table test. f_equal.
    exact (cells_run timing_cell (FileSizeTest.results test) (BenchmarkRun.endpoints run)
             [FileSizeTest.file_size_label test]).
Qed.

Lemma create_memory_table_run run :
  create_memory_table run
  = {| title := "Memory Usage (Delta)";
       show_header := true;
       header_style := "bold cyan";
       columns :=
         {| header := "File Size"; style := Some "dim"; justify := "left"; width := 12 |}
         :: (endpoint_column <$> BenchmarkRun.endpoints run);
       rows := row_of memory_cell run <$> BenchmarkRun.test_files run |}.
Proof.
  unfold create_memory_table. cbv zeta.
  rewrite add_columns_run.
  rewrite (fold_left_ext _ (fun table test => add_row table (row_of memory_cell run test))).
  - rewrite add_rows_run. reflexivity.
  - intros table test. f_equal.
    exact (cells_run memory_cell (FileSizeTest.results test) (BenchmarkRun.endpoints run)
             [FileSizeTest.file_size_label test]).
Qed.

(** A table with those columns and rows is laid out for the run. *)
Lemma rows_laid_out run cell t h :
  (forall metrics, cell metrics <> NOT_AVAILABLE) ->
  laid_out run
    {| title := t; show_header := true; header_style := h;
       columns :=
         {| header := "File Size"; style := Some "dim"; justify := "left"; width := 12 |}
         :: (endpoint_column <$> BenchmarkRun.endpoints run);
       rows := row_of cell run <$> BenchmarkRun.test_files run |}.
Proof.
  intros Hcell. unfold laid_out. cbn [columns rows].
  split.
  { rewrite fmap_cons, <- list_fmap_compose. reflexivity. }
  split; [apply length_fmap|].
  split.
  { apply Forall_fmap, Forall_true. intros test. cbn.
    unfold row_of. cbn [length]. rewrite !length_fmap. reflexivity. }
  intros i test Hi. exists (row_of cell run test).
  split; [rewrite list_lookup_fmap, Hi; reflexivity|].
  split; [reflexivity|].
  intros j endpoint Hj. eexists. split.
  { unfold row_of. rewrite lookup_cons, list_lookup_fmap, Hj. reflexivity. }
  destruct (FileSizeTest.results test !! Client.endpoint_name endpoint) as [metrics|];
    cbn [from_option].
  - split; [intros H; destruct (Hcell metrics H)|discriminate].
  - split; reflexivity.
Qed.

End Tables.

(** X15.  The two tables of the viewer are laid out alike for a run:
    after the column of the file size, one column for each endpoint of
    the run, under its name; one row for each test of the run, in their
    order, with exactly one cell for each column; and the cell of a test
    and an endpoint reads [N/A] exactly when the run has no result for
    that pair, so that a trial that failed shows as missing and never as
    a number. *)
Theorem tables_have_a_cell_for_every_size_and_endpoint (run : BenchmarkRun.t) :
  Visualize.laid_out run (Visualize.create_total_timing_table run) /\
  Visualize.laid_out run (Visualize.create_memory_table run).
Proof.
  rewrite create_total_timing_table_run, create_memory_table_run.
  split; apply rows_laid_out.
  - apply timing_cell_available.
  - apply memory_cell_available.
Qed.

(** X16.  What the cells show of a result that is there: in the timing
    table the total duration to four places and the throughput to one; in
    the memory table the handler's memory delta to two places, in red and
    with a plus sign when it is positive, in green when it is negative,
    and unmarked when it is zero. *)
Theorem cells_show_the_recorded_metrics
    (run : BenchmarkRun.t) (i j : nat) (test : FileSizeTest.t) (endpoint : string)
    (metrics : EndpointMetrics.t) :
  BenchmarkRun.test_files run !! i = Some test ->
  BenchmarkRun.endpoints run !! j = Some endpoint ->
  FileSizeTest.results test !! Client.endpoint_name endpoint = Some metrics ->
  exists timing memory,
    (Visualize.rows (Visualize.create_total_timing_table run) !! i) ≫= (.!! S j)
    = Some timing /\
    (Visualize.rows (Visualize.create_memory_table run) !! i) ≫= (.!! S j)
    = Some memory /\
    timing =
      PyFloat.format_fixed 4 (EndpointMetrics.total_duration_seconds metrics) +:+ "s (" +:+
      PyFloat.format_fixed 1 (EndpointMetrics.total_throughput_mbps metrics) +:+ "MB/s)" /\
    ((0 < EndpointMetrics.memory_delta_mb metrics)%Q ->
     memory = "[red]+" +:+ PyFloat.format_fixed 2 (EndpointMetrics.memory_delta_mb metrics)
              +:+ " MB[/red]") /\
    ((EndpointMetrics.memory_delta_mb metrics < 0)%Q ->
     memory = "[green]" +:+ PyFloat.format_fixed 2 (EndpointMetrics.memory_delta_mb metrics)
              +:+ " MB[/green]") /\
    ((EndpointMetrics.memory_delta_mb metrics == 0)%Q ->
     memory = PyFloat.format_fixed 2 (EndpointMetrics.memory_delta_mb metrics) +:+ " MB").
Proof.
  intros Hi Hj Hm.
  rewrite create_total_timing_table_run, create_memory_table_run.
  cbn [Visualize.rows].
  exists (Visualize.timing_cell metrics), (Visualize.memory_cell metrics).
  rewrite !list_lookup_fmap, Hi. cbn [fmap option_fmap option_map mbind option_bind].
  unfold Visualize.row_of. rewrite !lookup_cons, !list_lookup_fmap, Hj.
  cbn [fmap option_fmap option_map]. rewrite Hm. cbn [from_option].
  split; [reflexivity|]. split; [reflexivity|]. split; [reflexivity|].
  unfold Visualize.memory_cell. cbv zeta.
  destruct (Qlt_le_dec 0 (EndpointMetrics.memory_delta_mb metrics)) as [Hpos|Hnp].
  - split; [reflexivity|]. split; intros H; exfalso.
    + apply (Qlt_irrefl 0). eapply Qlt_trans; eassumption.
    + rewrite H in Hpos. exact (Qlt_irrefl 0 Hpos).
  - destruct (Qlt_le_dec (EndpointMetrics.memory_delta_mb metrics) 0) as [Hneg|Hnn].
    + split; [intros H; exfalso; apply (Qlt_irrefl 0); eapply Qlt_le_trans; eassumption|].
      split; [reflexivity|]. intros H. exfalso. rewrite H in Hneg. exact (Qlt_irrefl 0 Hneg).
    + split; [intros H; exfalso; apply (Qlt_irrefl 0); eapply Qlt_le_trans; eassumption|].
      split; [|reflexivity]. intros H. exfalso.
      apply (Qlt_irrefl 0). eapply Qle_lt_trans; eassumption.
Qed.
Section Viewer.

Import Visualize.

Local Arguments String.append : simpl never.
Local Arguments pretty : simpl never.
Local Arguments create_total_timing_table : simpl never.
Local Arguments create_memory_table : simpl never.
Local Arguments Datetime.strftime : simpl never.
Local Arguments BenchmarkHistory.model_validate_json : simpl never.

Lemma load_results_run s :
  load_results s =
    match results_file s with
    | None => (Ok None, s)
    | Some j =>
        match BenchmarkHistory.model_validate_json j with
        | Some h => (Ok (Some h), s)
        | None => (Raise (ValidationError "validation error for BenchmarkHistory"), s)
        end
    end.
Proof.
  unfold load_results. unfold mbind, M_bind, Py.bind, gets.
  destruct (results_file s) as [j|]; [|reflexivity].
  destruct (BenchmarkHistory.model_validate_json j); reflexivity.
Qed.

Lemma showing_showing a b s : showing b (showing a s) = showing (a ++ b) s.
Proof. unfold showing. cbn [results_file console]. rewrite <- app_assoc. reflexivity. Qed.

Lemma console_print_run r s : console_print r s = (Ok tt, showing [r] s).
Proof. reflexivity. Qed.

Lemma visualize_run_run run s : visualize_run run s = (Ok tt, showing (shown run) s).
Proof.
  unfold visualize_run. cbv zeta. unfold mbind, M_bind, Py.bind.
  rewrite !console_print_run, !showing_showing. reflexivity.
Qed.

(** [main], case by case. *)
Lemma main_nothing s :
  results_file s = None \/
  (exists j, results_file s = Some j /\
             BenchmarkHistory.model_validate_json j = Some (BenchmarkHistory.mk [])) ->
  main s = (Ok (SystemExit 1), showing NO_RESULTS s).
Proof.
  intros H. unfold main. unfold mbind, M_bind. unfold Py.bind at 1.
  rewrite load_results_run.
  destruct H as [H|(j & H & Hv)]; rewrite H; [|rewrite Hv; cbn [BenchmarkHistory.runs]].
  all: unfold Py.bind; rewrite !console_print_run, showing_showing; reflexivity.
Qed.

Lemma main_invalid s j :
  results_file s = Some j ->
  BenchmarkHistory.model_validate_json j = None ->
  main s = (Raise (ValidationError "validation error for BenchmarkHistory"), s).
Proof.
  intros H Hv. unfold main. unfold mbind, M_bind. unfold Py.bind at 1.
  rewrite load_results_run, H, Hv. reflexivity.
Qed.

Lemma main_latest s j earlier r :
  results_file s = Some j ->
  BenchmarkHistory.model_validate_json j = Some (BenchmarkHistory.mk (earlier ++ [r])) ->
  main s = (Ok Returned, showing (shown r ++ footer (S (length earlier))) s).
Proof.
  intros H Hv. unfold main. unfold mbind, M_bind. unfold Py.bind at 1.
  rewrite load_results_run, H, Hv. cbn [BenchmarkHistory.runs].
  destruct (earlier ++ [r])%list as [|r0 rest] eqn:Hruns.
  { destruct earlier; discriminate. }
  rewrite <- Hruns. unfold BenchmarkHistory.get_latest. cbn [BenchmarkHistory.runs].
  rewrite last_snoc. unfold Py.bind at 1. rewrite visualize_run_run.
  rewrite length_app. cbn [length]. rewrite Nat.add_1_r.
  unfold footer.
  destruct (1 <? Z.of_nat (S (length earlier)))%Z.
  - unfold Py.bind. rewrite !console_print_run, !showing_showing. reflexivity.
  - unfold Py.bind, mret, M_ret, Py.ret. rewrite app_nil_r. reflexivity.
Qed.

(** The last element of a list that is not empty. *)
Lemma snoc_cases {A} (l : list A) : l = [] \/ exists earlier r, l = (earlier ++ [r])%list.
Proof.
  destruct l as [|a l] using rev_ind; [left; reflexivity|].
  right. exists l, a. reflexivity.
Qed.

End Viewer.

(** X17.  The viewer shows the latest run or says why it cannot.  With
    no results file, or with a history that holds no run, [main] shows
    its two lines of advice and leaves with status 1; with a file that
    does not hold a history it ends with the validation error, having
    shown nothing; otherwise it returns, having shown the panel and the
    two tables of the run added last and, when the history holds more
    than one run, the count of the runs.  It never writes to the store,
    and the line of its remaining branch, for a history with runs but no
    latest run, is never shown. *)
Theorem viewer_shows_the_latest_run_or_leaves (s : Visualize.State) :
  (Visualize.results_file s = None \/
   (exists j, Visualize.results_file s = Some j /\
              BenchmarkHistory.model_validate_json j = Some (BenchmarkHistory.mk [])) ->
   Visualize.main s
   = (Ok (Visualize.SystemExit 1), Visualize.showing Visualize.NO_RESULTS s)) /\
  (forall j,
     Visualize.results_file s = Some j ->
     BenchmarkHistory.model_validate_json j = None ->
     exists msg, Visualize.main s = (Raise (ValidationError msg), s)) /\
  (forall j earlier r,
     Visualize.results_file s = Some j ->
     BenchmarkHistory.model_validate_json j
     = Some (BenchmarkHistory.mk (earlier ++ [r])) ->
     Visualize.main s
     = (Ok Visualize.Returned,
        Visualize.showing
          (Visualize.shown r ++ Visualize.footer (S (length earlier))) s) /\
     (Visualize.footer (S (length earlier)) = [] <-> earlier = [])) /\
  (forall out s',
     Visualize.main s = (out, s') ->
     Visualize.results_file s' = Visualize.results_file s /\
     (Visualize.NO_RUNS ∈ Visualize.console s' -> Visualize.NO_RUNS ∈ Visualize.console s)).
Proof.
  split; [apply main_nothing|].
  split; [intros j H Hv; eexists; apply main_invalid with (j := j); assumption|].
  split.
  { intros j earlier r H Hv. split; [apply main_latest with (j := j); assumption|].
    unfold Visualize.footer. destruct earlier as [|r0 earlier].
    - split; reflexivity.
    - cbn [length]. destruct (1 <? Z.of_nat (S (S (length earlier))))%Z eqn:E.
      + split; discriminate.
      + apply Z.ltb_ge in E. lia. }
  intros out s' Hmain.
  destruct (Visualize.results_file s) as [j|] eqn:H.
  2:{ rewrite main_nothing in Hmain by (left; exact H). injection Hmain as _ <-.
      split; [exact H|].
      unfold Visualize.showing, Visualize.NO_RESULTS, Visualize.NO_RUNS.
      cbn [Visualize.console]. rewrite elem_of_app. intros [Hin|Hin]; [exact Hin|].
      do 2 (apply elem_of_cons in Hin as [Hin|Hin]; [discriminate|]).
      apply elem_of_nil in Hin. contradiction. }
  destruct (BenchmarkHistory.model_validate_json j) as [[runs]|] eqn:Hv.
  2:{ rewrite (main_invalid s j H Hv) in Hmain. injection Hmain as _ <-.
      split; [exact H|]. trivial. }
  destruct (snoc_cases runs) as [->|(earlier & r & ->)].
  - rewrite main_nothing in Hmain by (right; exists j; split; assumption).
    injection Hmain as _ <-. split; [exact H|].
    unfold Visualize.showing, Visualize.NO_RESULTS, Visualize.NO_RUNS.
    cbn [Visualize.console]. rewrite elem_of_app. intros [Hin|Hin]; [exact Hin|].
    do 2 (apply elem_of_cons in Hin as [Hin|Hin]; [discriminate|]).
    apply elem_of_nil in Hin. contradiction.
  - rewrite (main_latest s j earlier r H Hv) in Hmain. injection Hmain as _ <-.
    split; [exact H|].
    unfold Visualize.showing, Visualize.shown, Visualize.footer, Visualize.NO_RUNS.
    cbn [Visualize.console]. rewrite !elem_of_app. intros [Hin|Hin]; [exact Hin|].
    do 6 (apply elem_of_cons in Hin as [Hin|Hin]; [discriminate|]).
    + destruct (1 <? Z.of_nat (S (length earlier)))%Z.
      * apply elem_of_cons in Hin as [Hin|Hin]; [discriminate|].
        apply elem_of_cons in Hin as [Hin|Hin].
        { exfalso. injection Hin as Hin. revert Hin.
          change "[red]No benchmark runs available.[/red]"
            with (String "[" (String "r" "ed]No benchmark runs available.[/red]")).
          change ("[dim]Total runs available: " +:+ ?x)
            with (String "[" (String "d" ("im]Total runs available: " +:+ x))).
          discriminate. }
        apply elem_of_cons in Hin as [Hin|Hin]; [discriminate|].
        apply elem_of_nil in Hin. contradiction.
      * apply elem_of_nil in Hin. contradiction.
Qed.
Lemma cells_show_the_recorded_metrics_witness :
  BenchmarkRun.test_files Samples.first_run !! 0
  = Some (FileSizeTest.mk "1KB" 1024
            {[ "sync-file" :=
                 Client.merged "/upload/sync-file" Samples.server_response (1 # 2) (1 # 4) 64 ]}) /\
  BenchmarkRun.endpoints Samples.first_run !! 0 = Some "/upload/sync-file" /\
  (Visualize.rows (Visualize.create_total_timing_table Samples.first_run) !! 0) ≫= (.!! 1)
  = Some "0.2500s (0.0MB/s)" /\
  (Visualize.rows (Visualize.create_memory_table Samples.first_run) !! 0) ≫= (.!! 1)
  = Some "[red]+64.00 MB[/red]".
Proof.
  split; [reflexivity|]. split; [reflexivity|].
  destruct (cells_show_the_recorded_metrics Samples.first_run 0 0
              (FileSizeTest.mk "1KB" 1024
                 {[ "sync-file" :=
                      Client.merged "/upload/sync-file" Samples.server_response
                        (1 # 2) (1 # 4) 64 ]})
              "/upload/sync-file"
              (Client.merged "/upload/sync-file" Samples.server_response (1 # 2) (1 # 4) 64)
              eq_refl eq_refl eq_refl)
    as (timing & memory & Ht & Hm & Htext & Hred & _).
  split.
  - rewrite Ht, Htext. vm_compute. reflexivity.
  - rewrite Hm, Hred; [vm_compute; reflexivity|]. vm_compute. reflexivity.
Defined.


(* ===================================================================== *)
(** * The plots of the large files                                          *)
(* ===================================================================== *)

Section Plots.

Import PlotLargeFiles.

Local Arguments Text.replace : simpl never.
Local Arguments String.append : simpl never.
Local Arguments Datetime.strftime : simpl never.
Local Arguments BenchmarkHistory.model_validate_json : simpl never.

Lemma empty_series_lookup endpoints e :
  e ∈ endpoints -> empty_series endpoints !! e = Some [].
Proof.
  unfold empty_series. induction endpoints as [|e0 rest IH]; intros Hin.
  - apply elem_of_nil in Hin. contradiction.
  - rewrite fmap_cons. cbn [list_to_map foldr fst snd].
    destruct (decide (e = e0)) as [->|Hne].
    + apply lookup_insert_eq.
    + rewrite lookup_insert_ne by congruence. apply IH.
      apply elem_of_cons in Hin as [Hin|Hin]; [contradiction|exact Hin].
Qed.

(** One pass of the inner loop over endpoints that are all different adds
    one value to the series of each. *)
Lemma append_each (v : string -> Q) (l : list string) : forall data,
  NoDup l ->
  forall e,
    fold_left (fun data endpoint => append_to data endpoint (v endpoint)) l data !! e
    = if bool_decide (e ∈ l) then Some (default [] (data !! e) ++ [v e])%list
      else data !! e.
Proof.
  induction l as [|e0 rest IH]; intros data Hnd e.
  - cbn [fold_left]. rewrite bool_decide_eq_false_2 by apply not_elem_of_nil. reflexivity.
  - apply NoDup_cons in Hnd as [Hhead Hnd]. cbn [fold_left].
    rewrite (IH _ Hnd). unfold append_to at 1 2.
    destruct (decide (e = e0)) as [->|Hne].
    + rewrite (bool_decide_eq_false_2 _ Hhead).
      rewrite bool_decide_eq_true_2 by apply list_elem_of_here.
      apply lookup_insert_eq.
    + rewrite lookup_insert_ne by congruence.
      destruct (decide (e ∈ rest)) as [Hin|Hnin].
      * rewrite !bool_decide_eq_true_2; [reflexivity|apply list_elem_of_further, Hin|exact Hin].
      * rewrite !bool_decide_eq_false_2; [reflexivity| |exact Hnin].
        intros H. apply elem_of_cons in H as [H|H]; contradiction.
Qed.

(** The series of an endpoint after the two loops. *)
Lemma gather_lookup quantity endpoints e (tests : list FileSizeTest.t) : forall data pre,
  NoDup endpoints -> e ∈ endpoints ->
  data !! e = Some pre ->
  gather quantity tests endpoints data !! e = Some (pre ++ series quantity tests e)%list.
Proof.
  induction tests as [|test rest IH]; intros data pre Hnd Hin Hdata.
  - cbn. rewrite app_nil_r. exact Hdata.
  - unfold gather. cbn [fold_left].
    change (fold_left _ rest ?d) with (gather quantity rest endpoints d).
    rewrite (IH _ (pre ++ [from_option quantity 0%Q (FileSizeTest.results test !! e)])%list Hnd Hin).
    + unfold series. rewrite fmap_cons, <- app_assoc. reflexivity.
    + rewrite (append_each (fun endpoint =>
                 from_option quantity 0%Q (FileSizeTest.results test !! endpoint))
                 endpoints data Hnd e).
      rewrite bool_decide_eq_true_2 by exact Hin. rewrite Hdata. reflexivity.
Qed.

(** The three dicts are filled alike. *)
Lemma collect_inner test (endpoints : list string) : forall t m d,
  fold_left
    (fun '(throughput_data, memory_data, duration_data) endpoint =>
       match FileSizeTest.results test !! endpoint with
       | Some metrics =>
           (append_to throughput_data endpoint (EndpointMetrics.total_throughput_mbps metrics),
            append_to memory_data endpoint (EndpointMetrics.memory_delta_mb metrics),
            append_to duration_data endpoint (EndpointMetrics.total_duration_seconds metrics))
       | None =>
           (append_to throughput_data endpoint 0%Q,
            append_to memory_data endpoint 0%Q,
            append_to duration_data endpoint 0%Q)
       end)
    endpoints (t, m, d)
  = (gather EndpointMetrics.total_throughput_mbps [test] endpoints t,
     gather EndpointMetrics.memory_delta_mb [test] endpoints m,
     gather EndpointMetrics.total_duration_seconds [test] endpoints d).
Proof.
  unfold gather. cbn [fold_left].
  induction endpoints as [|e rest IH]; intros t m d; [reflexivity|].
  cbn [fold_left]. destruct (FileSizeTest.results test !! e); cbn [from_option]; apply IH.
Qed.

Lemma gather_cons quantity test rest endpoints data :
  gather quantity (test :: rest) endpoints data
  = gather quantity rest endpoints (gather quantity [test] endpoints data).
Proof. reflexivity. Qed.

Lemma collect_run (tests : list FileSizeTest.t) (endpoints : list string) :
  collect tests endpoints
  = (gather EndpointMetrics.total_throughput_mbps tests endpoints (empty_series endpoints),
     gather EndpointMetrics.memory_delta_mb tests endpoints (empty_series endpoints),
     gather EndpointMetrics.total_duration_seconds tests endpoints (empty_series endpoints)).
Proof.
  unfold collect. cbv zeta.
  generalize (empty_series endpoints) at 1 4 as t.
  generalize (empty_series endpoints) at 1 3 as m.
  generalize (empty_series endpoints) as d.
  induction tests as [|test rest IH]; intros d m t; [reflexivity|].
  cbn [fold_left]. rewrite collect_inner. rewrite IH.
  rewrite !(gather_cons _ test rest). reflexivity.
Qed.

(** The bars of a chart whose dict holds the series of the endpoints. *)
Lemma bar_chart_run (run : BenchmarkRun.t) quantity (names : list string)
    (data : gmap string (list Q)) (n : nat) (tests : list FileSizeTest.t) width :
  length tests = n ->
  (forall e, e ∈ names -> data !! e = Some (series quantity tests e)) ->
  Forall2 (fun name b =>
             label b = name /\
             heights b = series quantity tests name /\
             length (xs b) = length (heights b))
          names (bar_chart names (seqZ 0 (Z.of_nat n)) width data).
Proof.
  intros Hn Hdata. unfold bar_chart.
  generalize (length names) as total.
  intros total. 
  assert (H : forall (l : list string) (k : nat),
             (forall e, e ∈ l -> data !! e = Some (series quantity tests e)) ->
             Forall2 (fun name b =>
                        label b = name /\
                        heights b = series quantity tests name /\
                        length (xs b) = length (heights b))
                     l
                     (imap (fun idx endpoint =>
                        {| xs := (fun x => (inject_Z x +
                                   (inject_Z (Z.of_nat (k + idx)) - inject_Z (Z.of_nat total) / 2)
                                   * width)%Q) <$> seqZ 0 (Z.of_nat n);
                           heights := default [] (data !! endpoint);
                           bar_width := width;
                           label := endpoint;
                           color := default "" (colors !! ((k + idx) mod length colors)%nat) |})
                        l)).
  { induction l as [|e l IH]; intros k Hl; [constructor|].
    cbn [imap]. constructor.
    - cbn [label heights xs]. split; [reflexivity|].
      rewrite (Hl e) by apply list_elem_of_here.
      change (default [] (Some ?x)) with x.
      split; [reflexivity|].
      unfold series. rewrite !length_fmap, length_seqZ. lia.
    - specialize (IH (S k)).
      erewrite imap_ext; [apply IH|].
      + intros e' He'. apply Hl. apply list_elem_of_further, He'.
      + intros i x _. cbn. replace (k + S i) with (S (k + i)) by lia. reflexivity. }
  exact (H names 0 Hdata).
Qed.

End Plots.
Section PlotRuns.

Import PlotLargeFiles.

Local Arguments Text.replace : simpl never.
Local Arguments String.append : simpl never.
Local Arguments Datetime.strftime : simpl never.
Local Arguments BenchmarkHistory.model_validate_json : simpl never.
Local Arguments collect : simpl never.
Local Arguments bar_chart : simpl never.

Lemma plot_load_results_run s :
  load_results s =
    match results_file s with
    | None => (Ok None, s)
    | Some j =>
        match BenchmarkHistory.model_validate_json j with
        | Some h => (Ok (Some h), s)
        | None => (Raise (ValidationError "validation error for BenchmarkHistory"), s)
        end
    end.
Proof.
  unfold load_results. unfold mbind, M_bind, Py.bind, gets.
  destruct (results_file s) as [j|]; [|reflexivity].
  destruct (BenchmarkHistory.model_validate_json j); reflexivity.
Qed.

Lemma plot_nothing s :
  results_file s = None \/
  (exists j, results_file s = Some j /\
             BenchmarkHistory.model_validate_json j = Some (BenchmarkHistory.mk [])) ->
  plot_large_files_performance s = (Ok tt, printed NO_RESULTS s).
Proof.
  intros H. unfold plot_large_files_performance. unfold mbind, M_bind. unfold Py.bind at 1.
  rewrite plot_load_results_run.
  destruct H as [H|(j & H & Hv)]; rewrite H; [|rewrite Hv]; reflexivity.
Qed.

Lemma plot_invalid s j :
  results_file s = Some j ->
  BenchmarkHistory.model_validate_json j = None ->
  plot_large_files_performance s
  = (Raise (ValidationError "validation error for BenchmarkHistory"), s).
Proof.
  intros H Hv. unfold plot_large_files_performance. unfold mbind, M_bind. unfold Py.bind at 1.
  rewrite plot_load_results_run, H, Hv. reflexivity.
Qed.

Lemma plot_latest s j earlier run :
  results_file s = Some j ->
  BenchmarkHistory.model_validate_json j = Some (BenchmarkHistory.mk (earlier ++ [run])) ->
  plot_large_files_performance s =
    match large run with
    | [] => (Ok tt, printed NO_LARGE_FILES s)
    | _ =>
        let endpoints := Client.endpoint_name <$> BenchmarkRun.endpoints run in
        let x_pos := seqZ 0 (Z.of_nat (length (FileSizeTest.file_size_label <$> large run))) in
        let chart quantity :=
          bar_chart endpoints x_pos (15 # 100)
            (gather quantity (large run) endpoints (empty_series endpoints)) in
        (Ok tt,
         printed ("Plot saved to " +:+ OUTPUT_FILE)
           {| results_file := results_file s;
              stdout := stdout s;
              saved :=
                <[OUTPUT_FILE :=
                    {| suptitle :=
                         "Large File Upload Performance (128MB+)" +:+ Client.nl +:+
                         "Run: " +:+ Datetime.strftime (BenchmarkRun.timestamp run);
                       axes :=
                         [ {| bars := chart EndpointMetrics.total_throughput_mbps;
                              xlabel := "File Size";
                              ylabel := "Throughput (MB/s)";
                              title := "Upload Throughput";
                              xticks := x_pos;
                              xticklabels := FileSizeTest.file_size_label <$> large run |};
                           {| bars := chart EndpointMetrics.memory_delta_mb;
                              xlabel := "File Size";
                              ylabel := "Memory Delta (MB)";
                              title := "Memory Usage (RSS Delta)";
                              xticks := x_pos;
                              xticklabels := FileSizeTest.file_size_label <$> large run |};
                           {| bars := chart EndpointMetrics.total_duration_seconds;
                              xlabel := "File Size";
                              ylabel := "Duration (seconds)";
                              title := "Total Request Duration";
                              xticks := x_pos;
                              xticklabels := FileSizeTest.file_size_label <$> large run |} ]
                    |}]> (saved s) |})
    end.
Proof.
  intros H Hv. unfold plot_large_files_performance. unfold mbind, M_bind. unfold Py.bind at 1.
  rewrite plot_load_results_run. rewrite H at 1. rewrite Hv. cbn [BenchmarkHistory.runs].
  destruct (earlier ++ [run])%list as [|r0 rest] eqn:Hruns.
  { destruct earlier; discriminate. }
  rewrite <- Hruns. unfold BenchmarkHistory.get_latest. cbn [BenchmarkHistory.runs].
  rewrite last_snoc.
  change (filter _ (BenchmarkRun.test_files run)) with (large run).
  destruct (large run) as [|t0 tests] eqn:Hlarge; [reflexivity|].
  rewrite <- Hlarge. rewrite collect_run. reflexivity.
Qed.

(** The charts of the figure plot the three quantities. *)
Lemma chart_charts run quantity xl yl t :
  NoDup (Client.endpoint_name <$> BenchmarkRun.endpoints run) ->
  charts run quantity
    {| bars :=
         bar_chart (Client.endpoint_name <$> BenchmarkRun.endpoints run)
           (seqZ 0 (Z.of_nat (length (FileSizeTest.file_size_label <$> large run))))
           (15 # 100)
           (gather quantity (large run) (Client.endpoint_name <$> BenchmarkRun.endpoints run)
              (empty_series (Client.endpoint_name <$> BenchmarkRun.endpoints run)));
       xlabel := xl; ylabel := yl; title := t;
       xticks := seqZ 0 (Z.of_nat (length (FileSizeTest.file_size_label <$> large run)));
       xticklabels := FileSizeTest.file_size_label <$> large run |}.
Proof.
  intros Hnd. unfold charts. cbn [bars xticks xticklabels].
  split; [reflexivity|]. split; [rewrite length_fmap; reflexivity|].
  pose proof (bar_chart_run run quantity
                (Client.endpoint_name <$> BenchmarkRun.endpoints run)
                (gather quantity (large run)
                   (Client.endpoint_name <$> BenchmarkRun.endpoints run)
                   (empty_series (Client.endpoint_name <$> BenchmarkRun.endpoints run)))
                (length (FileSizeTest.file_size_label <$> large run))
                (large run) (15 # 100)) as HF.
  apply Forall2_fmap_l in HF; [exact HF| |].
  - rewrite length_fmap. reflexivity.
  - intros e He.
    rewrite (gather_lookup quantity _ e (large run) _ [] Hnd He (empty_series_lookup _ _ He)).
    reflexivity.
Qed.

End PlotRuns.

(** X19.  The plot lines the bars up with the sizes.  For a store whose
    latest run has tests of 128 MiB or more and endpoints of different
    names, the script returns and saves one figure of three charts, for
    the throughput, the handler's memory delta and the total duration; in
    each chart the ticks are the tests of 128 MiB or more, in the order
    of the run and labelled with their sizes, and each endpoint of the
    run has one series of bars, under its name, with exactly one height
    for each tick: the quantity recorded for that size, or zero where
    the run has no result. *)
Theorem plot_lines_the_bars_up_with_the_sizes
    (s : PlotLargeFiles.State) (j : json) (earlier : list BenchmarkRun.t)
    (run : BenchmarkRun.t) :
  PlotLargeFiles.results_file s = Some j ->
  BenchmarkHistory.model_validate_json j = Some (BenchmarkHistory.mk (earlier ++ [run])) ->
  PlotLargeFiles.large run <> [] ->
  NoDup (Client.endpoint_name <$> BenchmarkRun.endpoints run) ->
  exists title ax1 ax2 ax3 s',
    PlotLargeFiles.plot_large_files_performance s = (Ok tt, s') /\
    PlotLargeFiles.saved s' !! PlotLargeFiles.OUTPUT_FILE
    = Some {| PlotLargeFiles.suptitle := title; PlotLargeFiles.axes := [ax1; ax2; ax3] |} /\
    PlotLargeFiles.charts run EndpointMetrics.total_throughput_mbps ax1 /\
    PlotLargeFiles.charts run EndpointMetrics.memory_delta_mb ax2 /\
    PlotLargeFiles.charts run EndpointMetrics.total_duration_seconds ax3 /\
    PlotLargeFiles.results_file s' = PlotLargeFiles.results_file s /\
    PlotLargeFiles.stdout s'
    = (PlotLargeFiles.stdout s ++
       [("Plot saved to " +:+ PlotLargeFiles.OUTPUT_FILE) +:+ Client.nl])%list.
Proof.
  intros H Hv Hlarge Hnd.
  pose proof (plot_latest s j earlier run H Hv) as Hrun.
  destruct (PlotLargeFiles.large run) as [|t0 tests] eqn:Hl; [contradiction|].
  rewrite <- Hl in *. cbv zeta in Hrun.
  eexists. eexists. eexists. eexists. eexists.
  split; [exact Hrun|].
  cbn [PlotLargeFiles.saved PlotLargeFiles.results_file PlotLargeFiles.stdout
       PlotLargeFiles.printed].
  split; [apply lookup_insert_eq|].
  split; [apply chart_charts, Hnd|].
  split; [apply chart_charts, Hnd|].
  split; [apply chart_charts, Hnd|].
  split; reflexivity.
Qed.

(** X20.  The plot is made only of the large files of the latest run.
    With no results file or with a history that holds no run the script
    prints that no results were found; with a latest run that has no
    test of 128 MiB or more it prints that there is nothing to plot; in
    both cases it returns and saves no figure.  With a file that does
    not hold a history it ends with the validation error, having printed
    and saved nothing. *)
Theorem plot_is_made_only_of_large_files (s : PlotLargeFiles.State) :
  (PlotLargeFiles.results_file s = None \/
   (exists j, PlotLargeFiles.results_file s = Some j /\
              BenchmarkHistory.model_validate_json j = Some (BenchmarkHistory.mk [])) ->
   PlotLargeFiles.plot_large_files_performance s
   = (Ok tt, PlotLargeFiles.printed PlotLargeFiles.NO_RESULTS s)) /\
  (forall j earlier run,
     PlotLargeFiles.results_file s = Some j ->
     BenchmarkHistory.model_validate_json j
     = Some (BenchmarkHistory.mk (earlier ++ [run])) ->
     Forall (fun test => (FileSizeTest.file_size_bytes test < 128 * 1024 * 1024)%Z)
            (BenchmarkRun.test_files run) ->
     PlotLargeFiles.plot_large_files_performance s
     = (Ok tt, PlotLargeFiles.printed PlotLargeFiles.NO_LARGE_FILES s)) /\
  (forall j,
     PlotLargeFiles.results_file s = Some j ->
     BenchmarkHistory.model_validate_json j = None ->
     exists msg,
       PlotLargeFiles.plot_large_files_performance s = (Raise (ValidationError msg), s)) /\
  (forall text, PlotLargeFiles.saved (PlotLargeFiles.printed text s) = PlotLargeFiles.saved s).
Proof.
  split; [apply plot_nothing|]. split.
  { intros j earlier run H Hv Hsmall.
    rewrite (plot_latest s j earlier run H Hv).
    assert (Hl : PlotLargeFiles.large run = []).
    { unfold PlotLargeFiles.large.
      induction (BenchmarkRun.test_files run) as [|t l IH]; [reflexivity|].
      apply Forall_cons in Hsmall as [Ht Hsmall].
      rewrite filter_cons_False by lia. apply IH, Hsmall. }
    rewrite Hl. reflexivity. }
  split; [intros j H Hv; eexists; apply plot_invalid with (j := j); assumption|].
  reflexivity.
Qed.
Lemma plot_lines_the_bars_up_with_the_sizes_witness :
  PlotLargeFiles.results_file Samples.plotting
  = Some (BenchmarkHistory.model_dump_json (BenchmarkHistory.mk [Samples.large_run])) /\
  BenchmarkHistory.model_validate_json
    (BenchmarkHistory.model_dump_json (BenchmarkHistory.mk [Samples.large_run]))
  = Some (BenchmarkHistory.mk ([] ++ [Samples.large_run])) /\
  PlotLargeFiles.large Samples.large_run <> [] /\
  NoDup (Client.endpoint_name <$> BenchmarkRun.endpoints Samples.large_run) /\
  exists title ax1 ax2 ax3 s',
    PlotLargeFiles.plot_large_files_performance Samples.plotting = (Ok tt, s') /\
    PlotLargeFiles.saved s' !! PlotLargeFiles.OUTPUT_FILE
    = Some {| PlotLargeFiles.suptitle := title; PlotLargeFiles.axes := [ax1; ax2; ax3] |} /\
    PlotLargeFiles.charts Samples.large_run EndpointMetrics.total_duration_seconds ax3.
Proof.
  assert (Hv : BenchmarkHistory.model_validate_json
                 (BenchmarkHistory.model_dump_json (BenchmarkHistory.mk [Samples.large_run]))
               = Some (BenchmarkHistory.mk ([] ++ [Samples.large_run]))).
  { apply BenchmarkHistory_roundtrip. repeat constructor. }
  assert (Hl : PlotLargeFiles.large Samples.large_run <> []).
  { vm_compute. discriminate. }
  assert (Hnd : NoDup (Client.endpoint_name <$> BenchmarkRun.endpoints Samples.large_run)).
  { apply (bool_decide_unpack _). vm_compute. exact I. }
  split; [reflexivity|]. split; [exact Hv|]. split; [exact Hl|]. split; [exact Hnd|].
  destruct (plot_lines_the_bars_up_with_the_sizes Samples.plotting _ [] Samples.large_run
              eq_refl Hv Hl Hnd)
    as (title & ax1 & ax2 & ax3 & s' & Hrun & Hsaved & _ & _ & H3 & _).
  exists title, ax1, ax2, ax3, s'. split; [exact Hrun|]. split; [exact Hsaved|exact H3].
Defined.

Section PlotOfARun.

Import PlotLargeFiles.



End PlotOfARun.


